(** * IK/FK snapping (ikfk_snap.py): a shallow embedding and its properties

    The module drives a 3D host application through [pymel] commands and
    does a little vector arithmetic with [maya.OpenMaya.MVector].  The
    embedding has three layers:

    - [MVector] arithmetic, with double-precision components idealised as
      real numbers;
    - the host commands the module issues, run against an arbitrary host
      ([Host]) in a state-and-exception monad that logs every command;
    - the module's functions [snap], [ik_to_fk] and [fk_to_ik], written in
      that monad statement by statement.

    A small mocked scene graph ([Mock]) instantiates the host. *)

From Stdlib Require Import Reals Lra List String Ascii ZArith Bool Lia.
Import ListNotations.
Open Scope string_scope.
Open Scope list_scope.
Open Scope R_scope.

(** ** Python results *)

(** The exceptions the module's own statements can raise, and [HostError]
    for anything raised inside a host call. *)
Inductive Exn : Type :=
| IndexError
| UnboundLocalError (name : string)
| HostError.

Inductive Res (A : Type) : Type :=
| Ok (a : A)
| Raise (e : Exn).
Arguments Ok {A} a.
Arguments Raise {A} e.

Definition of_host {A} (o : option A) : Res A :=
  match o with
  | Some a => Ok a
  | None => Raise HostError
  end.

Definition res_bind {A B} (r : Res A) (k : A -> Res B) : Res B :=
  match r with
  | Ok a => k a
  | Raise e => Raise e
  end.

(** [l[i]] on a Python list: negative indices count from the end, an index
    out of range raises [IndexError]. *)
Definition py_index {A} (l : list A) (i : Z) : Res A :=
  let n := Z.of_nat (List.length l) in
  let j := if (i <? 0)%Z then (n + i)%Z else i in
  if (j <? 0)%Z then Raise IndexError
  else match nth_error l (Z.to_nat j) with
       | Some a => Ok a
       | None => Raise IndexError
       end.

(** [needle in hay] on Python strings. *)
Fixpoint py_in (needle hay : string) : bool :=
  String.prefix needle hay ||
  match hay with
  | EmptyString => false
  | String _ rest => py_in needle rest
  end.

(** Truth value of a node name used as a condition ([if ball_ik:]). *)
Definition truthy (name : string) : bool :=
  match name with
  | EmptyString => false
  | String _ _ => true
  end.

(** ** MVector and world matrices *)

(** The components are real numbers: the doubles of the program are
    idealised.  What is stated over them is which branch is taken and
    which formula is evaluated, not how a result is rounded. *)
Record MVector : Type := mkV { vx : R; vy : R; vz : R }.

(** A world matrix as the host lays it out: three axis rows and a
    translation row (the constant last column is left out). *)
Record Matrix : Type := mkM { axis_x : MVector; axis_y : MVector;
                              axis_z : MVector; origin : MVector }.

Definition vadd (a b : MVector) : MVector :=
  mkV (vx a + vx b) (vy a + vy b) (vz a + vz b).

Definition vsub (a b : MVector) : MVector :=
  mkV (vx a - vx b) (vy a - vy b) (vz a - vz b).

(** [v * s] for a float [s]. *)
Definition vscale (v : MVector) (s : R) : MVector :=
  mkV (vx v * s) (vy v * s) (vz v * s).

(** [a * b] for two vectors: the dot product. *)
Definition vdot (a b : MVector) : R :=
  vx a * vx b + vy a * vy b + vz a * vz b.

Definition vcross (a b : MVector) : MVector :=
  mkV (vy a * vz b - vz a * vy b)
      (vz a * vx b - vx a * vz b)
      (vx a * vy b - vy a * vx b).

(** [v.length()] *)
Definition vlength (v : MVector) : R := sqrt (vdot v v).

(** [v * m] for a matrix [m]: the row vector times the rotation part, the
    translation row plays no part for a direction. *)
Definition vmulM (v : MVector) (m : Matrix) : MVector :=
  vadd (vadd (vscale (axis_x m) (vx v)) (vscale (axis_y m) (vy v)))
       (vscale (axis_z m) (vz v)).

Definition vzero : MVector := mkV 0 0 0.

(** ** Host commands *)

Inductive Cmd : Type :=
| GetAttr (attr : string)                  (* pm.getAttr(attr) *)
| SetAttr (attr : string) (v : R)          (* pm.setAttr(attr, v) *)
| XformQueryT (node : string)              (* pm.xform(node, ws=True, t=True, q=True) *)
| XformQueryM (node : string)              (* pm.xform(node, ws=True, matrix=True, q=True) *)
| XformSetM (node : string) (m : Matrix)   (* pm.xform(node, ws=True, matrix=m) *)
| Move (x y z : R) (node : string)         (* pm.move(x, y, z, node) *)
| MoveRel (node : string) (v : MVector)    (* pm.move(node, v, r=True, ws=True) *)
| RotateSet (node : string) (x y z : R)    (* node.rotate.set(x, y, z) *)
| Duplicate (node : string)                (* pm.duplicate(node, po=True) *)
| ListRelativesParent (node : string)      (* pm.listRelatives(node, parent=True) *)
| Parent (child parent : string)           (* pm.parent(child, parent) *)
| Delete (node : string)                   (* pm.delete(node) *)
| SetKeyframe (nodes : list string).       (* pm.setKeyframe(nodes) *)

(** What each command hands back to Python. *)
Definition ret_ty (c : Cmd) : Type :=
  match c with
  | GetAttr _ => R
  | XformQueryT _ => list R
  | XformQueryM _ => Matrix
  | Duplicate _ => list string
  | ListRelativesParent _ => list string
  | _ => unit
  end.

(** The host application.  [exec] runs one command on a scene and answers
    [None] when the command raises.  What [MVector] does with a zero
    length is the host library's business and is left open: [normal_zero]
    is the outcome of [normal()] on a vector of length zero and [div_zero v]
    the outcome of [v / 0.0] ([None] when it raises). *)
Record Host : Type := mkHost {
  Scene : Type;
  exec : forall c : Cmd, Scene -> option (ret_ty c) * Scene;
  normal_zero : MVector -> option MVector;
  div_zero : MVector -> option MVector
}.

(** Values that come back from the host, as they are logged. *)
Inductive Val : Type :=
| VNone
| VFloat (x : R)
| VFloats (l : list R)
| VMatrix (m : Matrix)
| VNames (l : list string).

Definition val_of (c : Cmd) : ret_ty c -> Val :=
  match c return ret_ty c -> Val with
  | GetAttr _ => VFloat
  | XformQueryT _ => VFloats
  | XformQueryM _ => VMatrix
  | Duplicate _ => VNames
  | ListRelativesParent _ => VNames
  | _ => fun _ => VNone
  end.

Inductive Outcome : Type :=
| Returned (v : Val)
| Raised.

(** One log entry: a command and how it ended. *)
Record Event : Type := mkEv { ev_cmd : Cmd; ev_out : Outcome }.

(** A command that returned [None], such as every setter. *)
Definition done (c : Cmd) : Event := mkEv c (Returned VNone).

Section Program.

Variable H : Host.

(** [v.normal()] *)
Definition normal (v : MVector) : Res MVector :=
  if Req_dec_T (vlength v) 0 then of_host (normal_zero H v)
  else Ok (vscale v (/ vlength v)).

(** [v / s] *)
Definition vdiv (v : MVector) (s : R) : Res MVector :=
  if Req_dec_T s 0 then of_host (div_zero H v)
  else Ok (vscale v (/ s)).

(** The scene together with the log of commands issued so far, newest
    first. *)
Record World : Type := mkW { scene : Scene H; log : list Event }.

Definition M (A : Type) : Type := World -> Res A * World.

Definition ret {A} (a : A) : M A := fun w => (Ok a, w).

Definition bind {A B} (m : M A) (k : A -> M B) : M B :=
  fun w =>
    match m w with
    | (Ok a, w') => k a w'
    | (Raise e, w') => (Raise e, w')
    end.

Definition lift {A} (r : Res A) : M A := fun w => (r, w).

Definition call (c : Cmd) : M (ret_ty c) :=
  fun w =>
    match exec H c (scene w) with
    | (Some a, s) => (Ok a, mkW s (mkEv c (Returned (val_of c a)) :: log w))
    | (None, s) => (Raise HostError, mkW s (mkEv c Raised :: log w))
    end.

Notation "x <- m ;; k" := (bind m (fun x => k))
  (at level 61, m at next level, right associativity).
Notation "m ;;; k" := (bind m (fun _ => k))
  (at level 61, right associativity).

(** A local variable that is bound only on some paths. *)
Definition local (name : string) (v : option string) : M string :=
  match v with
  | Some x => ret x
  | None => lift (Raise (UnboundLocalError name))
  end.

(** *** snap *)

Definition snap (source target attr : string) (value : R) : M unit :=
  call (SetAttr attr value) ;;;
  dups <- call (Duplicate source) ;;
  dup_source <- lift (py_index dups 0) ;;
  parents <- call (ListRelativesParent source) ;;
  source_parent <- lift (py_index parents 0) ;;
  call (Parent dup_source target) ;;;
  call (SetAttr attr (1 - value)) ;;;
  transforms <- call (XformQueryM dup_source) ;;
  call (XformSetM source transforms) ;;;
  call (Delete dup_source).

(** *** The pole vector arithmetic of ik_to_fk *)

(** [om.MVector(t[0], t[1], t[2])] *)
Definition to_MVector (t : list R) : Res MVector :=
  res_bind (py_index t 0) (fun x =>
  res_bind (py_index t 1) (fun y =>
  res_bind (py_index t 2) (fun z =>
  Ok (mkV x y z)))).

Record Limb : Type := mkLimb {
  upper_length : R;
  total_length : R;
  root_goal_norm : MVector;
  root_mid_norm : MVector
}.

(** Lines 60 to 68. *)
Definition limb_vectors (fk_001_pos fk_002_pos fk_003_pos : MVector)
  : Res Limb :=
  let root_mid := vsub fk_002_pos fk_001_pos in
  let mid_goal := vsub fk_003_pos fk_002_pos in
  let root_goal := vsub fk_003_pos fk_001_pos in
  let upper_length := vlength root_mid in
  let lower_length := vlength mid_goal in
  let total_length := upper_length + lower_length in
  res_bind (normal root_goal) (fun root_goal_norm =>
  res_bind (vdiv root_mid upper_length) (fun root_mid_norm =>
  Ok (mkLimb upper_length total_length root_goal_norm root_mid_norm))).

Definition negate : R := 1.

(** Lines 79 to 84. *)
Definition upper_goal_angle (l : Limb) : R :=
  vdot (root_mid_norm l) (root_goal_norm l).

Definition goal_project (fk_001_pos : MVector) (l : Limb) : MVector :=
  vadd fk_001_pos
       (vscale (vscale (root_goal_norm l) (upper_length l))
               (upper_goal_angle l)).

Definition pole_y (fk_001_pos fk_002_pos : MVector) (l : Limb)
  (mid_world : Matrix) : Res MVector :=
  if Rgt_dec (upper_goal_angle l) 0.998 then
    Ok (vmulM (mkV 0 negate 0) mid_world)
  else
    normal (vsub fk_002_pos (goal_project fk_001_pos l)).

(** *** ik_to_fk *)

Definition ik_to_fk (fk_list ikm_list : list string)
  (ik_handle ik_pole ik_offset ik_ball blend_ctl : string)
  (ik_rotation key : bool) : M unit :=
  blend_attr <- call (GetAttr (blend_ctl ++ ".blend")) ;;
  call (SetAttr (ik_handle ++ ".ikRoll") 0) ;;;
  fk0 <- lift (py_index fk_list 0) ;;
  fk_001_translate <- call (XformQueryT fk0) ;;
  fk_001_pos <- lift (to_MVector fk_001_translate) ;;
  fk1 <- lift (py_index fk_list 1) ;;
  fk_002_translate <- call (XformQueryT fk1) ;;
  fk_002_pos <- lift (to_MVector fk_002_translate) ;;
  fk2 <- lift (py_index fk_list 2) ;;
  fk_003_translate <- call (XformQueryT fk2) ;;
  fk_003_pos <- lift (to_MVector fk_003_translate) ;;
  (if ik_rotation then
     ikm2 <- lift (py_index ikm_list 2) ;;
     snap ik_handle ikm2 (blend_ctl ++ ".blend") 1
   else
     call (Move (vx fk_003_pos) (vy fk_003_pos) (vz fk_003_pos) ik_handle)) ;;;
  l <- lift (limb_vectors fk_001_pos fk_002_pos fk_003_pos) ;;
  fk1' <- lift (py_index fk_list 1) ;;
  mid_world <- call (XformQueryM fk1') ;;
  call (XformSetM ik_pole mid_world) ;;;
  pole <- lift (pole_y fk_001_pos fk_002_pos l mid_world) ;;
  call (MoveRel ik_pole (vscale pole (total_length l))) ;;;
  call (RotateSet ik_pole 0 0 0) ;;;
  ball_ik <- (if py_in "leg" blend_ctl then
                ball_fk <- lift (py_index fk_list (-1)) ;;
                ball_matrix <- call (XformQueryM ball_fk) ;;
                call (XformSetM ik_ball ball_matrix) ;;;
                ret (Some ik_ball)
              else ret None) ;;
  call (SetAttr (blend_ctl ++ ".blend") blend_attr) ;;;
  if key then
    call (SetKeyframe [ik_handle; ik_pole]) ;;;
    b <- local "ball_ik" ball_ik ;;
    if truthy b then call (SetKeyframe [b]) else ret tt
  else ret tt.

(** *** fk_to_ik *)

Definition fk_to_ik (fk_list fk_offset_list ikm_list : list string)
  (ik_ball blend_ctl : string) (key : bool) : M unit :=
  blend_attr <- call (GetAttr (blend_ctl ++ ".blend")) ;;
  fk0 <- lift (py_index fk_list 0) ;;
  ikm0 <- lift (py_index ikm_list 0) ;;
  snap fk0 ikm0 (blend_ctl ++ ".blend") 0 ;;;
  fk1 <- lift (py_index fk_list 1) ;;
  ikm1 <- lift (py_index ikm_list 1) ;;
  snap fk1 ikm1 (blend_ctl ++ ".blend") 0 ;;;
  fk2 <- lift (py_index fk_list 2) ;;
  ikm2 <- lift (py_index ikm_list 2) ;;
  snap fk2 ikm2 (blend_ctl ++ ".blend") 0 ;;;
  ball_fk <- (if py_in "leg" blend_ctl then
                ball_ikm <- lift (py_index ikm_list (-1)) ;;
                ball_fk <- lift (py_index fk_list (-1)) ;;
                snap ball_fk ball_ikm (blend_ctl ++ ".blend") 0 ;;;
                ret (Some ball_fk)
              else ret None) ;;
  call (SetAttr (blend_ctl ++ ".blend") blend_attr) ;;;
  if key then
    call (SetKeyframe fk_list) ;;;
    b <- local "ball_fk" ball_fk ;;
    if truthy b then call (SetKeyframe [b]) else ret tt
  else ret tt.

End Program.

(** ** A mocked scene graph *)

(** Modelled from the spec: the SceneGraph collaborator (the host
    application itself is not part of the repository).  Nodes are kept by
    name; a node's world matrix may depend on the value of the scene's blend
    toggle; a node re-parented under another evaluates to that node's pose,
    which is the scene-graph model the snap property is stated over. *)
Module Mock.

Record Node : Type := mkNode {
  parent_of : option string;
  world : R -> Matrix;          (* world matrix, by toggle value *)
  rotate : MVector
}.

Record Scene : Type := mkScene {
  nodes : list (string * Node);
  attrs : list (string * R);
  toggle : string;              (* the attribute that drives the poses *)
  keyed : list string
}.

Fixpoint find {A} (k : string) (l : list (string * A)) : option A :=
  match l with
  | [] => None
  | (k', a) :: rest => if String.eqb k k' then Some a else find k rest
  end.

Fixpoint update {A} (k : string) (f : A -> A) (l : list (string * A))
  : list (string * A) :=
  match l with
  | [] => []
  | (k', a) :: rest =>
      (k', if String.eqb k k' then f a else a) :: update k f rest
  end.

Fixpoint remove {A} (k : string) (l : list (string * A))
  : list (string * A) :=
  match l with
  | [] => []
  | (k', a) :: rest =>
      if String.eqb k k' then remove k rest else (k', a) :: remove k rest
  end.

Definition names (s : Scene) : list string := map fst (nodes s).

Definition toggle_now (s : Scene) : R :=
  match find (toggle s) (attrs s) with
  | Some v => v
  | None => 0
  end.

Definition world_of (n : string) (s : Scene) : option Matrix :=
  match find n (nodes s) with
  | Some nd => Some (world nd (toggle_now s))
  | None => None
  end.

Definition with_nodes (s : Scene) (l : list (string * Node)) : Scene :=
  mkScene l (attrs s) (toggle s) (keyed s).

Definition with_attr (a : string) (v : R) (s : Scene) : Scene :=
  mkScene (nodes s) (update a (fun _ => v) (attrs s)) (toggle s) (keyed s).

(** A name longer than every name in use. *)
Fixpoint longest (l : list string) : nat :=
  match l with
  | [] => O
  | n :: rest => Nat.max (String.length n) (longest rest)
  end.

Fixpoint ones (n : nat) : string :=
  match n with
  | O => EmptyString
  | S k => String "1" (ones k)
  end.

Definition fresh_name (n : string) (s : Scene) : string :=
  n ++ ones (S (longest (names s))).

Definition set_origin (m : Matrix) (o : MVector) : Matrix :=
  mkM (axis_x m) (axis_y m) (axis_z m) o.

(** Runs [f] on node [n], or raises when the scene has no such node. *)
Definition on_node (n : string) (f : Node -> Node) (s : Scene)
  : option unit * Scene :=
  match find n (nodes s) with
  | Some _ => (Some tt, with_nodes s (update n f (nodes s)))
  | None => (None, s)
  end.

Definition exec (c : Cmd) : Scene -> option (ret_ty c) * Scene :=
  match c return Scene -> option (ret_ty c) * Scene with
  | GetAttr a => fun s => (find a (attrs s), s)
  | SetAttr a v => fun s =>
      match find a (attrs s) with
      | Some _ => (Some tt, with_attr a v s)
      | None => (None, s)
      end
  | XformQueryT n => fun s =>
      (option_map (fun m => [vx (origin m); vy (origin m); vz (origin m)])
                  (world_of n s), s)
  | XformQueryM n => fun s => (world_of n s, s)
  | XformSetM n m => fun s =>
      on_node n (fun nd => mkNode (parent_of nd) (fun _ => m) (rotate nd)) s
  | Move x y z n => fun s =>
      on_node n (fun nd => mkNode (parent_of nd)
                             (fun t => set_origin (world nd t) (mkV x y z))
                             (rotate nd)) s
  | MoveRel n v => fun s =>
      on_node n (fun nd => mkNode (parent_of nd)
                             (fun t => set_origin (world nd t)
                                         (vadd (origin (world nd t)) v))
                             (rotate nd)) s
  | RotateSet n x y z => fun s =>
      on_node n (fun nd => mkNode (parent_of nd) (world nd) (mkV x y z)) s
  | Duplicate n => fun s =>
      match find n (nodes s) with
      | Some nd => (Some [fresh_name n s],
                    with_nodes s ((fresh_name n s, nd) :: nodes s))
      | None => (None, s)
      end
  | ListRelativesParent n => fun s =>
      match find n (nodes s) with
      | Some nd => (Some match parent_of nd with
                         | Some p => [p]
                         | None => []
                         end, s)
      | None => (None, s)
      end
  | Parent c p => fun s =>
      match find p (nodes s) with
      | Some pn =>
          if String.eqb c p then (None, s)
          else on_node c (fun nd => mkNode (Some p) (world pn) (rotate nd)) s
      | None => (None, s)
      end
  | Delete n => fun s =>
      match find n (nodes s) with
      | Some _ => (Some tt, with_nodes s (remove n (nodes s)))
      | None => (None, s)
      end
  | SetKeyframe l => fun s =>
      if forallb (fun n => match find n (nodes s) with
                           | Some _ => true
                           | None => false
                           end) l
      then (Some tt, mkScene (nodes s) (attrs s) (toggle s) (keyed s ++ l))
      else (None, s)
  end.

(** In the mock [normal()] leaves a zero vector as it is and a division by
    zero raises. *)
Definition host : Host :=
  mkHost Scene exec (fun v => Some v) (fun _ => None).

Definition start (s : Scene) : World host := mkW host s [].

End Mock.

(** ** What a run leaves in the log *)

Section Logs.

Variable H : Host.

(** [emitted w w' l]: between [w] and [w'] exactly the events [l] were
    logged, in this order. *)
Definition emitted (w w' : World H) (l : list Event) : Prop :=
  log H w' = rev l ++ log H w.

Definition returned (e : Event) : bool :=
  match ev_out e with
  | Returned _ => true
  | Raised => false
  end.

(** The commands of one [snap], in program order, for the duplicate [dup]
    and the matrix [m] read from it. *)
Definition snap_cmds (source target attr : string) (value : R)
  (dup : string) (m : Matrix) : list Cmd :=
  [ SetAttr attr value;
    Duplicate source;
    ListRelativesParent source;
    Parent dup target;
    SetAttr attr (1 - value);
    XformQueryM dup;
    XformSetM source m;
    Delete dup ].

(** The log of a [snap] that returns. *)
Definition snap_events (source target attr : string) (value : R)
  (dups parents : list string) (dup : string) (m : Matrix) : list Event :=
  [ done (SetAttr attr value);
    mkEv (Duplicate source) (Returned (VNames dups));
    mkEv (ListRelativesParent source) (Returned (VNames parents));
    done (Parent dup target);
    done (SetAttr attr (1 - value));
    mkEv (XformQueryM dup) (Returned (VMatrix m));
    done (XformSetM source m);
    done (Delete dup) ].

Definition is_delete (c : Cmd) : bool :=
  match c with
  | Delete _ => true
  | _ => false
  end.

Definition is_parent_lookup (c : Cmd) : bool :=
  match c with
  | ListRelativesParent _ => true
  | _ => false
  end.

(** The seven steps of [snap] that act on the toggle, the duplicate and
    the source, in the order the spec lists them. *)
Definition snap_steps (source target attr : string) (value : R)
  (dup : string) (m : Matrix) : list Cmd :=
  [ SetAttr attr value;
    Duplicate source;
    Parent dup target;
    SetAttr attr (1 - value);
    XformQueryM dup;
    XformSetM source m;
    Delete dup ].

(** The event logged last. *)
Definition latest (w : World H) : option Event := hd_error (log H w).

End Logs.

(** ** The logs of the two orchestrators *)

(** What one [snap] reads from the host: the list [duplicate] returns and
    its first entry, the list [listRelatives] returns, and the world matrix
    of the duplicate. *)
Record SnapRead : Type := mkSnapRead {
  sr_dups : list string;
  sr_parents : list string;
  sr_dup : string;
  sr_matrix : Matrix
}.

Definition snap_read_ok (x : SnapRead) : Prop :=
  py_index (sr_dups x) 0 = Ok (sr_dup x).

Definition snap_log_of (source target attr : string) (value : R)
  (x : SnapRead) : list Event :=
  snap_events source target attr value
              (sr_dups x) (sr_parents x) (sr_dup x) (sr_matrix x).

(** What an [ik_to_fk] run reads and computes on its way. *)
Record IkToFkRead : Type := mkIkToFkRead {
  ir_blend : R;
  ir_fk0 : string; ir_fk1 : string; ir_fk2 : string;
  ir_t1 : list R; ir_t2 : list R; ir_t3 : list R;
  ir_p1 : MVector; ir_p2 : MVector; ir_p3 : MVector;
  ir_limb : Limb;
  ir_mid_world : Matrix;
  ir_pole : MVector;
  ir_ikm2 : string;
  ir_snap : SnapRead;
  ir_ball_fk : string;
  ir_ball_matrix : Matrix
}.

(** The transfer onto the IK handle: a [snap] onto the third ikm joint
    when the orientation is wanted, a translate-only move otherwise. *)
Definition handle_events (ik_rotation : bool) (ik_handle blend_ctl : string)
  (x : IkToFkRead) : list Event :=
  if ik_rotation then
    snap_log_of ik_handle (ir_ikm2 x) (blend_ctl ++ ".blend") 1 (ir_snap x)
  else
    [done (Move (vx (ir_p3 x)) (vy (ir_p3 x)) (vz (ir_p3 x)) ik_handle)].

(** The placement of the pole control. *)
Definition pole_events (ik_pole : string) (x : IkToFkRead) : list Event :=
  [ mkEv (XformQueryM (ir_fk1 x)) (Returned (VMatrix (ir_mid_world x)));
    done (XformSetM ik_pole (ir_mid_world x));
    done (MoveRel ik_pole
            (vscale (ir_pole x) (total_length (ir_limb x))));
    done (RotateSet ik_pole 0 0 0) ].

(** The ball step of [ik_to_fk]: the matrix of the last FK control copied
    onto the ball IK control, on a leg only. *)
Definition ball_events (blend_ctl ik_ball : string) (x : IkToFkRead)
  : list Event :=
  if py_in "leg" blend_ctl then
    [ mkEv (XformQueryM (ir_ball_fk x))
           (Returned (VMatrix (ir_ball_matrix x)));
      done (XformSetM ik_ball (ir_ball_matrix x)) ]
  else [].

(** The keyframes set before the look-up of the ball variable. *)
Definition key_events (key : bool) (nodes : list string) : list Event :=
  if key then [done (SetKeyframe nodes)] else [].

(** The keyframe on the ball control, set on a leg when the control's name
    is true. *)
Definition ball_key_events (key : bool) (blend_ctl ball : string)
  : list Event :=
  if key && py_in "leg" blend_ctl && truthy ball
  then [done (SetKeyframe [ball])] else [].

(** The whole log of an [ik_to_fk] that was not stopped by an error of the
    host or of an index: attribute read, roll reset, the three positions
    read, the handle transfer, the pole placement, the ball step, the
    toggle set back, the keyframes. *)
Definition ik_to_fk_events (ik_handle ik_pole ik_ball blend_ctl : string)
  (ik_rotation key : bool) (x : IkToFkRead) : list Event :=
  [ mkEv (GetAttr (blend_ctl ++ ".blend")) (Returned (VFloat (ir_blend x)));
    done (SetAttr (ik_handle ++ ".ikRoll") 0);
    mkEv (XformQueryT (ir_fk0 x)) (Returned (VFloats (ir_t1 x)));
    mkEv (XformQueryT (ir_fk1 x)) (Returned (VFloats (ir_t2 x)));
    mkEv (XformQueryT (ir_fk2 x)) (Returned (VFloats (ir_t3 x))) ]
  ++ handle_events ik_rotation ik_handle blend_ctl x
  ++ pole_events ik_pole x
  ++ ball_events blend_ctl ik_ball x
  ++ [done (SetAttr (blend_ctl ++ ".blend") (ir_blend x))]
  ++ key_events key [ik_handle; ik_pole]
  ++ ball_key_events key blend_ctl ik_ball.

(** How the values of a run hang together. *)
Definition ik_to_fk_read_ok (H : Host) (fk_list ikm_list : list string)
  (blend_ctl : string) (ik_rotation : bool) (x : IkToFkRead) : Prop :=
  py_index fk_list 0 = Ok (ir_fk0 x) /\
  py_index fk_list 1 = Ok (ir_fk1 x) /\
  py_index fk_list 2 = Ok (ir_fk2 x) /\
  to_MVector (ir_t1 x) = Ok (ir_p1 x) /\
  to_MVector (ir_t2 x) = Ok (ir_p2 x) /\
  to_MVector (ir_t3 x) = Ok (ir_p3 x) /\
  limb_vectors H (ir_p1 x) (ir_p2 x) (ir_p3 x) = Ok (ir_limb x) /\
  pole_y H (ir_p1 x) (ir_p2 x) (ir_limb x) (ir_mid_world x)
    = Ok (ir_pole x) /\
  (ik_rotation = true ->
     py_index ikm_list 2 = Ok (ir_ikm2 x) /\ snap_read_ok (ir_snap x)) /\
  (py_in "leg" blend_ctl = true ->
     py_index fk_list (-1) = Ok (ir_ball_fk x)).

(** What an [fk_to_ik] run reads on its way. *)
Record FkToIkRead : Type := mkFkToIkRead {
  fr_blend : R;
  fr_fk0 : string; fr_ikm0 : string; fr_snap0 : SnapRead;
  fr_fk1 : string; fr_ikm1 : string; fr_snap1 : SnapRead;
  fr_fk2 : string; fr_ikm2 : string; fr_snap2 : SnapRead;
  fr_ball_fk : string; fr_ball_ikm : string; fr_ball_snap : SnapRead
}.

(** The ball step of [fk_to_ik]: a fourth [snap], on a leg only. *)
Definition ball_snap_events (blend_ctl : string) (x : FkToIkRead)
  : list Event :=
  if py_in "leg" blend_ctl then
    snap_log_of (fr_ball_fk x) (fr_ball_ikm x) (blend_ctl ++ ".blend") 0
                (fr_ball_snap x)
  else [].

(** The whole log of an [fk_to_ik] that was not stopped by an error of the
    host or of an index: attribute read, three snaps, the ball snap, the
    toggle set back, the keyframes. *)
Definition fk_to_ik_events (fk_list : list string) (blend_ctl : string)
  (key : bool) (x : FkToIkRead) : list Event :=
  [ mkEv (GetAttr (blend_ctl ++ ".blend")) (Returned (VFloat (fr_blend x))) ]
  ++ snap_log_of (fr_fk0 x) (fr_ikm0 x) (blend_ctl ++ ".blend") 0 (fr_snap0 x)
  ++ snap_log_of (fr_fk1 x) (fr_ikm1 x) (blend_ctl ++ ".blend") 0 (fr_snap1 x)
  ++ snap_log_of (fr_fk2 x) (fr_ikm2 x) (blend_ctl ++ ".blend") 0 (fr_snap2 x)
  ++ ball_snap_events blend_ctl x
  ++ [done (SetAttr (blend_ctl ++ ".blend") (fr_blend x))]
  ++ key_events key fk_list
  ++ ball_key_events key blend_ctl (fr_ball_fk x).

Definition fk_to_ik_read_ok (fk_list ikm_list : list string)
  (blend_ctl : string) (x : FkToIkRead) : Prop :=
  py_index fk_list 0 = Ok (fr_fk0 x) /\
  py_index ikm_list 0 = Ok (fr_ikm0 x) /\
  snap_read_ok (fr_snap0 x) /\
  py_index fk_list 1 = Ok (fr_fk1 x) /\
  py_index ikm_list 1 = Ok (fr_ikm1 x) /\
  snap_read_ok (fr_snap1 x) /\
  py_index fk_list 2 = Ok (fr_fk2 x) /\
  py_index ikm_list 2 = Ok (fr_ikm2 x) /\
  snap_read_ok (fr_snap2 x) /\
  (py_in "leg" blend_ctl = true ->
     py_index fk_list (-1) = Ok (fr_ball_fk x) /\
     py_index ikm_list (-1) = Ok (fr_ball_ikm x) /\
     snap_read_ok (fr_ball_snap x)).

(** A run that was stopped neither by the host nor by an index: it either
    returned or tripped over an unbound local variable. *)
Definition not_stopped (r : Res unit) : Prop :=
  r = Ok tt \/ exists n, r = Raise (UnboundLocalError n).

(** ** Statements about the pole vector *)

(** What [ik_to_fk] hands to the relative move of the pole control, as one
    function of the three positions and the world matrix of the mid
    control. *)
Definition pole_offset (H : Host) (fk_001_pos fk_002_pos fk_003_pos : MVector)
  (mid_world : Matrix) : Res MVector :=
  res_bind (limb_vectors H fk_001_pos fk_002_pos fk_003_pos) (fun l =>
  res_bind (pole_y H fk_001_pos fk_002_pos l mid_world) (fun pole =>
  Ok (vscale pole (total_length l)))).

(** The point [q] lies in the plane through [p1], [p2] and [p3]. *)
Definition coplanar (p1 p2 p3 q : MVector) : Prop :=
  vdot (vsub q p2) (vcross (vsub p2 p1) (vsub p3 p2)) = 0.

Definition distance (a b : MVector) : R := vlength (vsub a b).

(** Agreement to the three decimals the worked example is printed with. *)
Definition close3 (a b : R) : Prop := Rabs (a - b) <= 0.0005.

(** The limb and the pole direction of the worked example,
    root (0,0,0), mid (1,0,0), end (2,1,0). *)
Definition example_limb : Limb :=
  mkLimb 1 (1 + sqrt 2) (vscale (mkV 2 1 0) (/ sqrt 5)) (mkV 1 0 0).

Definition example_pole : MVector :=
  vscale (mkV (1 / 5) (- 2 / 5) 0) (/ sqrt (1 / 5)).

(** The worked example with the numbers the spec prints for it. *)
Definition worked_example_as_printed (H : Host) : Prop :=
  exists l,
    limb_vectors H (mkV 0 0 0) (mkV 1 0 0) (mkV 2 1 0) = Ok l /\
    upper_length l = 1 /\
    close3 (upper_goal_angle l) 0.894 /\
    close3 (vx (goal_project (mkV 0 0 0) l)) 0.894 /\
    close3 (vy (goal_project (mkV 0 0 0) l)) 0.447 /\
    vz (goal_project (mkV 0 0 0) l) = 0.

(** A chain with a segment of length zero makes the computation raise. *)
Definition degenerate_chain_raises (H : Host) (p1 p2 p3 : MVector)
  (mid_world : Matrix) : Prop :=
  p1 = p2 \/ p2 = p3 ->
  exists e, pole_offset H p1 p2 p3 mid_world = Raise e.

(** The near-straight direction as the spec words it: the local axis
    (0,1,0), negated on a right-side limb, turned by the world matrix of
    the root joint. *)
Definition axis_by_root (root_world : Matrix) (ik_handle : string)
  : MVector :=
  vmulM (mkV 0 (if py_in "_R" ik_handle then -1 else 1) 0) root_world.

(** The pole sits at distance [total] from the mid joint and in the plane
    of the three joints. *)
Definition pole_at_length_in_plane (p1 p2 p3 offset : MVector) (total : R)
  : Prop :=
  distance (vadd p2 offset) p2 = total /\
  coplanar p1 p2 p3 (vadd p2 offset).

(** The fully extended and the nearly extended chains used below. *)
Definition straight_limb : Limb :=
  mkLimb 1 (1 + 1) (vscale (mkV 2 0 0) (/ 2)) (mkV 1 0 0).

Definition long_limb : Limb :=
  mkLimb 506 (506 + vlength (vsub (mkV 1012 45 0) (mkV 506 0 0)))
         (vscale (mkV 1012 45 0) (/ 1013)) (mkV 1 0 0).

(** ** What a scene graph may be asked to guarantee *)

Section Laws.

Variable H : Host.

Definition read_attr (a : string) (s : Scene H) : option R :=
  fst (exec H (GetAttr a) s).

Definition world_matrix (n : string) (s : Scene H) : option Matrix :=
  fst (exec H (XformQueryM n) s).

Definition is_set_attr (c : Cmd) : bool :=
  match c with
  | SetAttr _ _ => true
  | _ => false
  end.

(** An attribute reads back the value it was set to, and no command but
    [setAttr] changes what an attribute reads. *)
Record AttrLaws : Prop := {
  attr_set_get : forall a v s s',
    exec H (SetAttr a v) s = (Some tt, s') -> read_attr a s' = Some v;
  attr_frame : forall c a s o s',
    is_set_attr c = false ->
    exec H c s = (o, s') -> read_attr a s' = read_attr a s
}.

(** The scene-graph model of the snap property: a node re-parented under a
    target evaluates to the target's pose once the toggle has been set;
    reading a matrix changes nothing; a matrix written is the matrix read
    back; deleting a node leaves the others where they are; a duplicate is
    a new node. *)
Record PoseLaws : Prop := {
  proxy_follows : forall d t a v s s1 s2,
    exec H (Parent d t) s = (Some tt, s1) ->
    exec H (SetAttr a v) s1 = (Some tt, s2) ->
    world_matrix d s2 = world_matrix t s2;
  query_pure : forall n s o s',
    exec H (XformQueryM n) s = (o, s') -> s' = s;
  set_get : forall n m s s',
    exec H (XformSetM n m) s = (Some tt, s') -> world_matrix n s' = Some m;
  delete_other : forall d n s s',
    exec H (Delete d) s = (Some tt, s') -> n <> d ->
    world_matrix n s' = world_matrix n s;
  duplicate_new : forall n s l s',
    exec H (Duplicate n) s = (Some l, s') -> ~ In n l
}.

End Laws.

(** ** Statements about runs *)

Section Statements.

Variable H : Host.

(** The proxy of a [snap] call is gone on every exit: whenever the call has
    created a duplicate, it has deleted it by the time it hands control
    back. *)
Definition proxy_deleted_on_exit (source target attr : string) (value : R)
  (w : World H) : Prop :=
  forall r w' evs dups dup,
    snap H source target attr value w = (r, w') ->
    emitted H w w' evs ->
    In (mkEv (Duplicate source) (Returned (VNames dups))) evs ->
    py_index dups 0 = Ok dup ->
    In (done (Delete dup)) evs.

(** The toggle reads the same after a run as before it. *)
Definition toggle_kept (blend_ctl : string) (w w' : World H) : Prop :=
  read_attr H (blend_ctl ++ ".blend") (scene H w')
  = read_attr H (blend_ctl ++ ".blend") (scene H w).

Definition count_cmd (p : Cmd -> bool) (evs : list Event) : nat :=
  List.length (filter (fun e => p (ev_cmd e)) evs).

Definition is_move_rel (c : Cmd) : bool :=
  match c with
  | MoveRel _ _ => true
  | _ => false
  end.

Definition is_matrix_write (c : Cmd) : bool :=
  match c with
  | XformSetM _ _ => true
  | _ => false
  end.

(** A transfer onto a control: a [snap] (counted by its duplicate) or a
    translate-only move. *)
Definition is_transfer (c : Cmd) : bool :=
  match c with
  | Duplicate _ => true
  | Move _ _ _ _ => true
  | _ => false
  end.

(** "Exactly three joint transfers plus the pole placement". *)
Definition three_transfers_and_pole (evs : list Event) : Prop :=
  count_cmd is_transfer evs = 3%nat /\ count_cmd is_move_rel evs = 1%nat.

End Statements.

(** ** Example rigs in the mocked scene graph *)

(** The node names are those the module's [add_connections] wires up. *)
Module Rig.

Definition at_pos (p : MVector) : Matrix :=
  mkM (mkV 1 0 0) (mkV 0 1 0) (mkV 0 0 1) p.

(** A quarter turn about the X axis, at [p]. *)
Definition turned_at (p : MVector) : Matrix :=
  mkM (mkV 1 0 0) (mkV 0 0 1) (mkV 0 (-1) 0) p.

Definition fixed (p : option string) (m : Matrix) : Mock.Node :=
  Mock.mkNode p (fun _ => m) vzero.

(** A joint that follows [fk] while the toggle is 0 and [ik] when it is 1. *)
Definition blended (p : string) (fk ik : MVector) : Mock.Node :=
  Mock.mkNode (Some p)
    (fun t => at_pos (vadd (vscale fk (1 - t)) (vscale ik t))) vzero.

Definition arm_fk : list string :=
  ["shoulderFk_L0_001_ctl"; "elbowFk_L0_001_ctl"; "wristFk_L0_001_ctl"].

Definition arm_ikm : list string :=
  ["arm_L0_001_ikm"; "arm_L0_002_ikm"; "arm_L0_003_ikm"].

Definition arm_handle : string := "handIk_L0_001_ctl".
Definition arm_pole : string := "armPoleVectorIk_L0_001_ctl".
Definition arm_offset : string := "ikHandOffset_arm_L0_loc".
Definition arm_blend : string := "armSettings_L0_001_ctl".

(** A left arm whose FK controls sit at the world matrices [shoulder],
    [elbow] and [wrist]; [handle_parent] is the parent of the IK handle
    control, [None] when the control is at the top of the scene. *)
Definition arm (handle_parent : option string)
  (shoulder elbow wrist : Matrix) (blend : R) : Mock.Scene :=
  Mock.mkScene
    [ ("rig", fixed None (at_pos vzero));
      ("shoulderFk_L0_001_ctl", fixed (Some "rig") shoulder);
      ("elbowFk_L0_001_ctl", fixed (Some "shoulderFk_L0_001_ctl") elbow);
      ("wristFk_L0_001_ctl", fixed (Some "elbowFk_L0_001_ctl") wrist);
      ("arm_L0_001_ikm", blended "rig" (origin shoulder) (origin shoulder));
      ("arm_L0_002_ikm", blended "arm_L0_001_ikm" (origin elbow) (mkV 1 1 0));
      ("arm_L0_003_ikm", blended "arm_L0_002_ikm" (origin wrist) (mkV 2 0 0));
      ("handIk_L0_001_ctl", fixed handle_parent (at_pos (mkV 2 0 0)));
      ("armPoleVectorIk_L0_001_ctl", fixed (Some "rig") (at_pos (mkV 1 3 0)));
      ("armSettings_L0_001_ctl", fixed (Some "rig") (at_pos vzero)) ]
    [ ("armSettings_L0_001_ctl.blend", blend);
      ("handIk_L0_001_ctl.ikRoll", 30) ]
    "armSettings_L0_001_ctl.blend"
    [].

(** The chain of the worked example: root (0,0,0), mid (1,0,0),
    end (2,1,0). *)
Definition bent_arm (handle_parent : option string) (blend : R) : Mock.Scene :=
  arm handle_parent (at_pos (mkV 0 0 0)) (at_pos (mkV 1 0 0))
      (at_pos (mkV 2 1 0)) blend.

(** A fully extended arm whose elbow control is turned a quarter about its
    own X axis while the shoulder control is not. *)
Definition straight_arm (blend : R) : Mock.Scene :=
  arm (Some "rig") (at_pos (mkV 0 0 0)) (turned_at (mkV 1 0 0))
      (at_pos (mkV 2 0 0)) blend.

Definition leg_fk : list string :=
  ["hipFk_L0_001_ctl"; "kneeFk_L0_001_ctl"; "ankleFk_L0_001_ctl";
   "legFk_L0_005_ctl"].

Definition leg_ikm : list string :=
  ["leg_L0_001_ikm"; "leg_L0_002_ikm"; "leg_L0_003_ikm"; "leg_L0_006_ikm"].

Definition leg_handle : string := "footIk_L0_001_ctl".
Definition leg_pole : string := "legPoleVectorIk_L0_001_ctl".
Definition leg_offset : string := "ikFootOffset_leg_L0_loc".
Definition leg_ball : string := "legBallIk_L0_001_ctl".
Definition leg_blend : string := "legSettings_L0_001_ctl".

(** A left leg with the joint positions of the worked example and a ball
    control one unit further on. *)
Definition leg (blend : R) : Mock.Scene :=
  Mock.mkScene
    [ ("rig", fixed None (at_pos vzero));
      ("hipFk_L0_001_ctl", fixed (Some "rig") (at_pos (mkV 0 0 0)));
      ("kneeFk_L0_001_ctl", fixed (Some "hipFk_L0_001_ctl") (at_pos (mkV 1 0 0)));
      ("ankleFk_L0_001_ctl", fixed (Some "kneeFk_L0_001_ctl") (at_pos (mkV 2 1 0)));
      ("legFk_L0_005_ctl", fixed (Some "ankleFk_L0_001_ctl") (at_pos (mkV 3 1 0)));
      ("leg_L0_001_ikm", blended "rig" (mkV 0 0 0) (mkV 0 0 0));
      ("leg_L0_002_ikm", blended "leg_L0_001_ikm" (mkV 1 0 0) (mkV 1 1 0));
      ("leg_L0_003_ikm", blended "leg_L0_002_ikm" (mkV 2 1 0) (mkV 2 0 0));
      ("leg_L0_006_ikm", blended "leg_L0_003_ikm" (mkV 3 1 0) (mkV 3 0 0));
      ("footIk_L0_001_ctl", fixed (Some "rig") (at_pos (mkV 2 0 0)));
      ("legPoleVectorIk_L0_001_ctl", fixed (Some "rig") (at_pos (mkV 1 3 0)));
      ("legBallIk_L0_001_ctl", fixed (Some "footIk_L0_001_ctl") (at_pos (mkV 3 0 0)));
      ("legSettings_L0_001_ctl", fixed (Some "rig") (at_pos vzero)) ]
    [ ("legSettings_L0_001_ctl.blend", blend);
      ("footIk_L0_001_ctl.ikRoll", 30) ]
    "legSettings_L0_001_ctl.blend"
    [].

End Rig.

(** ** More statements about runs of the first layer *)

(** The commands that make, re-parent or delete a node. *)
Definition is_proxy_cmd (c : Cmd) : bool :=
  match c with
  | Duplicate _ | Parent _ _ | Delete _ => true
  | _ => false
  end.

Definition is_move (c : Cmd) : bool :=
  match c with
  | Move _ _ _ _ => true
  | _ => false
  end.

(** What one event of a [snap] call may be, given the events [evs] of the
    whole call: a matrix is written only onto [source]; only a node that
    [duplicate] has just returned is re-parented, and only under [target],
    or deleted; nothing is moved, rotated or keyed. *)
Definition snap_keeps_to_its_own (source target : string)
  (evs : list Event) (ev : Event) : Prop :=
  match ev_cmd ev with
  | XformSetM n _ => n = source
  | Parent c p =>
      p = target /\
      exists dups, In (mkEv (Duplicate source) (Returned (VNames dups))) evs
                   /\ py_index dups 0 = Ok c
  | Delete n =>
      exists dups, In (mkEv (Duplicate source) (Returned (VNames dups))) evs
                   /\ py_index dups 0 = Ok n
  | Move _ _ _ _ | MoveRel _ _ | RotateSet _ _ _ _ | SetKeyframe _ => False
  | _ => True
  end.

(** The nodes a command poses or keys. *)
Definition touched (c : Cmd) : list string :=
  match c with
  | XformSetM n _ | Move _ _ _ n | MoveRel n _ | RotateSet n _ _ _ => [n]
  | SetKeyframe l => l
  | _ => []
  end.

(** ** The rig's message connections *)

(** [get_rig_connections], [snap_pole_vector_to_elbow] and
    [add_connections] put further commands to the host: queries about the
    selection, about attributes and about what is connected to them, a
    translation write, and the two commands that wire a rig up.  They are
    run in a second monad of the same shape as the first, over the commands
    of the first layer ([Base]) and these. *)

(** [add_connections] reaches the host through the name [cmds], which no
    statement of the module binds: evaluating it raises [NameError] unless
    the namespace the code runs in provides it. *)
Inductive PyExn : Type :=
| Core (e : Exn)
| NameError (name : string).

Inductive Out (A : Type) : Type :=
| Fine (a : A)
| Fails (e : PyExn).
Arguments Fine {A} a.
Arguments Fails {A} e.

Inductive RigCmd : Type :=
| Base (c : Cmd)
| Ls                                      (* pm.ls(sl=True) *)
| AttributeQuery (attr node : string)     (* attributeQuery(attr, node=node, exists=True) *)
| ListConnections (plug : string)         (* pm.listConnections(plug) *)
| XformSetT (node : string) (t : list R)  (* pm.xform(node, ws=True, translation=t) *)
| SetKeyframeNone                         (* pm.setKeyframe(None) *)
| AddAttr (node attr : string)            (* cmds.addAttr(node, ln=attr, at="message") *)
| ConnectAttr (src dst : string).         (* cmds.connectAttr(src, dst, force=True) *)

Definition rig_ret (c : RigCmd) : Type :=
  match c with
  | Base c => ret_ty c
  | Ls => list string
  | AttributeQuery _ _ => bool
  | ListConnections _ => list string
  | _ => unit
  end.

Record RigHost : Type := mkRigHost {
  RigScene : Type;
  rig_exec : forall c : RigCmd, RigScene -> option (rig_ret c) * RigScene
}.

Inductive RigVal : Type :=
| Plain (v : Val)
| VBool (b : bool).

Definition rig_val_of (c : RigCmd) : rig_ret c -> RigVal :=
  match c return rig_ret c -> RigVal with
  | Base c => fun a => Plain (val_of c a)
  | Ls => fun l => Plain (VNames l)
  | AttributeQuery _ _ => VBool
  | ListConnections _ => fun l => Plain (VNames l)
  | _ => fun _ => Plain VNone
  end.

Inductive RigOutcome : Type :=
| Gave (v : RigVal)
| Threw.

Record RigEvent : Type := mkRigEv { rig_cmd : RigCmd; rig_out : RigOutcome }.

(** A command that returned [None]. *)
Definition rig_done (c : RigCmd) : RigEvent := mkRigEv c (Gave (Plain VNone)).

(** Truth value of a variable that holds a node or [None]; a node is
    stood for by its name, as in the first layer. *)
Definition py_truthy (v : option string) : bool :=
  match v with
  | Some n => truthy n
  | None => false
  end.

(** What [get_rig_connections] returns, by position: [smart_list[0]] to
    [smart_list[7]], under the names its callers give them. *)
Record SmartList : Type := mkSmartList {
  sl_fk_list : list (option string);
  sl_fk_offset_list : list (option string);
  sl_ik_handle : option string;
  sl_ik_pole : option string;
  sl_ik_offset : option string;
  sl_blend_ctl : string;
  sl_ikm_list : list (option string);
  sl_ik_ball : option string
}.

(** The locals the body of [if pm.attributeQuery("blend", ...)] binds. *)
Record Bound : Type := mkBound {
  b_fk_001 : option string;
  b_fk_002 : option string;
  b_fk_003 : option string;
  b_fk_005 : option string;
  b_fk_001_offset : option string;
  b_fk_002_offset : option string;
  b_fk_003_offset : option string;
  b_ik_handle : option string;
  b_ik_pole : option string;
  b_ik_offset : option string;
  b_ik_ball : option string;
  b_ikm_001 : option string;
  b_ikm_002 : option string;
  b_ikm_003 : option string;
  b_ikm_006 : option string
}.

(** The four tables of [add_connections] and the table of tables, as
    association lists in the order they are written, which is the order a
    dictionary is iterated in.  Nothing proved below depends on that
    order. *)
Definition L_arm_dict : list (string * string) :=
  [ ("fk_001", "shoulderFk_L0_001_ctl");
    ("fk_002", "elbowFk_L0_001_ctl");
    ("fk_003", "wristFk_L0_001_ctl");
    ("fk_001_offset", "armFkOffset_L0_001_loc");
    ("fk_002_offset", "armFkOffset_L0_002_loc");
    ("fk_003_offset", "armFkOffset_L0_002_loc");
    ("ik_base", "armIk_L0_001_ctl");
    ("ik_handle", "handIk_L0_001_ctl");
    ("ik_pole", "armPoleVectorIk_L0_001_ctl");
    ("ik_offset", "ikHandOffset_arm_L0_loc");
    ("ikm_001", "arm_L0_001_ikm");
    ("ikm_002", "arm_L0_002_ikm");
    ("ikm_003", "arm_L0_003_ikm") ].

Definition R_arm_dict : list (string * string) :=
  [ ("fk_001", "shoulderFk_R0_001_ctl");
    ("fk_002", "elbowFk_R0_001_ctl");
    ("fk_003", "wristFk_R0_001_ctl");
    ("fk_001_offset", "armFkOffset_R0_001_loc");
    ("fk_002_offset", "armFkOffset_R0_002_loc");
    ("fk_003_offset", "armFkOffset_R0_002_loc");
    ("ik_base", "armIk_R0_001_ctl");
    ("ik_handle", "handIk_R0_001_ctl");
    ("ik_pole", "armPoleVectorIk_R0_001_ctl");
    ("ik_offset", "ikHandOffset_arm_R0_loc");
    ("ikm_001", "arm_R0_001_ikm");
    ("ikm_002", "arm_R0_002_ikm");
    ("ikm_003", "arm_R0_003_ikm") ].

Definition L_leg_dict : list (string * string) :=
  [ ("fk_001", "hipFk_L0_001_ctl");
    ("fk_002", "kneeFk_L0_001_ctl");
    ("fk_003", "ankleFk_L0_001_ctl");
    ("fk_005", "legFk_L0_005_ctl");
    ("fk_001_offset", "legFkOffset_L0_001_loc");
    ("fk_002_offset", "legFkOffset_L0_002_loc");
    ("fk_003_offset", "legFkOffset_L0_003_loc");
    ("ik_base", "legIk_L0_001_ctl");
    ("ik_handle", "footIk_L0_001_ctl");
    ("ik_pole", "legPoleVectorIk_L0_001_ctl");
    ("ik_offset", "ikFootOffset_leg_L0_loc");
    ("ik_ball", "legBallIk_L0_001_ctl");
    ("ikm_001", "leg_L0_001_ikm");
    ("ikm_002", "leg_L0_002_ikm");
    ("ikm_003", "leg_L0_003_ikm");
    ("ikm_006", "leg_L0_006_ikm") ].

Definition R_leg_dict : list (string * string) :=
  [ ("fk_001", "hipFk_R0_001_ctl");
    ("fk_002", "kneeFk_R0_001_ctl");
    ("fk_003", "ankleFk_R0_001_ctl");
    ("fk_005", "legFk_R0_005_ctl");
    ("fk_001_offset", "legFkOffset_R0_001_loc");
    ("fk_002_offset", "legFkOffset_R0_002_loc");
    ("fk_003_offset", "legFkOffset_R0_003_loc");
    ("ik_base", "legIk_R0_001_ctl");
    ("ik_handle", "footIk_R0_001_ctl");
    ("ik_pole", "legPoleVectorIk_R0_001_ctl");
    ("ik_offset", "ikFootOffset_leg_R0_loc");
    ("ik_ball", "legBallIk_R0_001_ctl");
    ("ikm_001", "leg_R0_001_ikm");
    ("ikm_002", "leg_R0_002_ikm");
    ("ikm_003", "leg_R0_003_ikm");
    ("ikm_006", "leg_R0_006_ikm") ].

Definition controls : list (string * list (string * string)) :=
  [ ("armSettings_L0_001_ctl", L_arm_dict);
    ("armSettings_R0_001_ctl", R_arm_dict);
    ("legSettings_L0_001_ctl", L_leg_dict);
    ("legSettings_R0_001_ctl", R_leg_dict) ].

(** The names the module binds at its top level: its two imports and its
    functions. *)
Definition module_globals : list string :=
  [ "pm"; "om"; "ik_to_fk"; "fk_to_ik"; "smart_ik_to_fk"; "smart_fk_to_ik";
    "get_rig_connections"; "snap"; "snap_pole_vector_to_elbow";
    "add_connections" ].

Section Connections.

Variable G : RigHost.

Record RigWorld : Type := mkRW { rig_scene : RigScene G;
                                rig_log : list RigEvent }.

Definition RM (A : Type) : Type := RigWorld -> Out A * RigWorld.

Definition rret {A} (a : A) : RM A := fun w => (Fine a, w).

Definition rbind {A B} (m : RM A) (k : A -> RM B) : RM B :=
  fun w =>
    match m w with
    | (Fine a, w') => k a w'
    | (Fails e, w') => (Fails e, w')
    end.

Definition throw {A} (e : PyExn) : RM A := fun w => (Fails e, w).

Definition rlift {A} (r : Res A) : RM A :=
  match r with
  | Ok a => rret a
  | Raise e => throw (Core e)
  end.

Definition rcall (c : RigCmd) : RM (rig_ret c) :=
  fun w =>
    match rig_exec G c (rig_scene w) with
    | (Some a, s) =>
        (Fine a, mkRW s (mkRigEv c (Gave (rig_val_of c a)) :: rig_log w))
    | (None, s) =>
        (Fails (Core HostError), mkRW s (mkRigEv c Threw :: rig_log w))
    end.

Notation "x <- m ;; k" := (rbind m (fun x => k))
  (at level 61, m at next level, right associativity).
Notation "m ;;; k" := (rbind m (fun _ => k))
  (at level 61, right associativity).

(** *** get_rig_connections *)

(** One stanza: the node connected to [obj.attr] when [obj] has the
    attribute, [None] when it has not. *)
Definition connection (obj attr : string) : RM (option string) :=
  has <- rcall (AttributeQuery attr obj) ;;
  if has : bool then
    l <- rcall (ListConnections (obj ++ "." ++ attr)) ;;
    n <- rlift (py_index l 0) ;;
    rret (Some n)
  else rret None.

Definition get_rig_connections (obj : option string) : RM SmartList :=
  obj <- match obj with
         | Some o =>
             if truthy o then rret o
             else l <- rcall Ls ;; rlift (py_index l 0)
         | None => l <- rcall Ls ;; rlift (py_index l 0)
         end ;;
  has_blend <- rcall (AttributeQuery "blend" obj) ;;
  bound <- (if has_blend : bool then
              fk_001 <- connection obj "fk_001" ;;
              fk_002 <- connection obj "fk_002" ;;
              fk_003 <- connection obj "fk_003" ;;
              fk_005 <- connection obj "fk_005" ;;
              fk_001_offset <- connection obj "fk_001_offset" ;;
              fk_002_offset <- connection obj "fk_002_offset" ;;
              fk_003_offset <- connection obj "fk_003_offset" ;;
              ik_handle <- connection obj "ik_handle" ;;
              ik_pole <- connection obj "ik_pole" ;;
              ik_offset <- connection obj "ik_offset" ;;
              ik_ball <- connection obj "ik_ball" ;;
              ikm_001 <- connection obj "ikm_001" ;;
              ikm_002 <- connection obj "ikm_002" ;;
              ikm_003 <- connection obj "ikm_003" ;;
              ikm_006 <- connection obj "ikm_006" ;;
              rret (Some (mkBound fk_001 fk_002 fk_003 fk_005
                            fk_001_offset fk_002_offset fk_003_offset
                            ik_handle ik_pole ik_offset ik_ball
                            ikm_001 ikm_002 ikm_003 ikm_006))
            else rret None) ;;
  match bound with
  | Some b =>
      rret (mkSmartList
              [b_fk_001 b; b_fk_002 b; b_fk_003 b; b_fk_005 b]
              [b_fk_001_offset b; b_fk_002_offset b; b_fk_003_offset b]
              (b_ik_handle b) (b_ik_pole b) (b_ik_offset b) obj
              [b_ikm_001 b; b_ikm_002 b; b_ikm_003 b; b_ikm_006 b]
              (b_ik_ball b))
  | None => throw (Core (UnboundLocalError "fk_001"))
  end.

(** *** snap_pole_vector_to_elbow *)

(** [if v: thn] on a variable that holds a node or [None]. *)
Definition if_node {A} (v : option string) (thn : string -> RM A)
  (els : RM A) : RM A :=
  match v with
  | Some n => if truthy n then thn n else els
  | None => els
  end.

(** A local variable of list type that is bound only on some paths. *)
Definition rlocal {A} (name : string) (v : option A) : RM A :=
  match v with
  | Some x => rret x
  | None => throw (Core (UnboundLocalError name))
  end.

(** [ik_handle.ikPin] is the plug [ikPin] of the handle; the host looks
    it up as part of the command.  [pm.setKeyframe(ik_pole)] is given the
    pole control or, when none is wired, [None]. *)
Definition snap_pole_vector_to_elbow (key : bool) : RM unit :=
  smart_list <- get_rig_connections None ;;
  let ik_handle := sl_ik_handle smart_list in
  let ik_pole := sl_ik_pole smart_list in
  let ikm_list := sl_ikm_list smart_list in
  ikm_002 <- rlift (py_index ikm_list 1) ;;
  if_node ik_handle
    (fun h => rcall (Base (SetAttr (h ++ ".ikPin") 0))) (rret tt) ;;;
  ikm_002_trans <- if_node ikm_002
                     (fun e => t <- rcall (Base (XformQueryT e)) ;;
                               rret (Some (t : list R)))
                     (rret None) ;;
  if_node ik_pole
    (fun p => if_node ikm_002
                (fun _ => t <- rlocal "ikm_002_trans" ikm_002_trans ;;
                          rcall (XformSetT p t))
                (rret tt))
    (rret tt) ;;;
  if_node ik_handle
    (fun h => rcall (Base (SetAttr (h ++ ".ikPin") 1))) (rret tt) ;;;
  if key then
    match ik_pole with
    | Some p => rcall (Base (SetKeyframe [p]))
    | None => rcall SetKeyframeNone
    end
  else rret tt.

(** *** add_connections *)

(** Evaluating a global name. *)
Definition global (globals : list string) (name : string) : RM unit :=
  if existsb (String.eqb name) globals then rret tt
  else throw (NameError name).

(** [for a in l: body] *)
Fixpoint for_each {A} (l : list A) (body : A -> RM unit) : RM unit :=
  match l with
  | [] => rret tt
  | a :: rest => body a ;;; for_each rest body
  end.

(** [namespace + ":" + name] when a namespace is given. *)
Definition in_namespace (namespace : option string) (name : string)
  : string :=
  match namespace with
  | Some ns => if truthy ns then ns ++ ":" ++ name else name
  | None => name
  end.

(** The body of the inner loop; the [try] around it re-raises whatever it
    catches. *)
Definition connect_one (globals : list string) (namespace : option string)
  (obj attr rig_obj : string) : RM unit :=
  let obj_name := in_namespace namespace obj in
  let rig_obj_name := in_namespace namespace rig_obj in
  global globals "cmds" ;;;
  has <- rcall (AttributeQuery attr obj_name) ;;
  (if negb has then
     global globals "cmds" ;;;
     rcall (AddAttr obj_name attr)
   else rret tt) ;;;
  global globals "cmds" ;;;
  rcall (ConnectAttr (rig_obj_name ++ ".message") (obj_name ++ "." ++ attr)).

Definition add_connections (globals : list string)
  (namespace : option string) : RM unit :=
  for_each controls (fun entry =>
    let obj := fst entry in
    for_each (snd entry) (fun item =>
      connect_one globals namespace obj (fst item) (snd item))).

(** *** Logs of the second layer *)

Definition rig_emitted (w w' : RigWorld) (l : list RigEvent) : Prop :=
  rig_log w' = rev l ++ rig_log w.

Definition rig_latest (w : RigWorld) : option RigEvent :=
  hd_error (rig_log w).

End Connections.

(** ** Statements about runs of the second layer *)

Definition is_query (c : RigCmd) : bool :=
  match c with
  | Ls | AttributeQuery _ _ | ListConnections _ => true
  | _ => false
  end.

Definition all_queries (evs : list RigEvent) : Prop :=
  forall ev, In ev evs -> is_query (rig_cmd ev) = true.

(** A run of [m] logs events that satisfy [Q] together, whatever its
    outcome. *)
Definition emits (G : RigHost) (Q : list RigEvent -> Prop) {A}
  (m : RM G A) : Prop :=
  forall w r w', m w = (r, w') ->
    exists evs, rig_emitted G w w' evs /\ Q evs.

(** How one stanza of [get_rig_connections] ends, and what it has logged
    by then. *)
Definition connection_ends (obj attr : string) (evs : list RigEvent)
  (r : Out (option string)) : Prop :=
  let query := AttributeQuery attr obj in
  let list := ListConnections (obj ++ "." ++ attr) in
  match r with
  | Fine None => evs = [mkRigEv query (Gave (VBool false))]
  | Fine (Some n) =>
      exists l, py_index l 0 = Ok n /\
                evs = [ mkRigEv query (Gave (VBool true));
                        mkRigEv list (Gave (Plain (VNames l))) ]
  | Fails e =>
      (e = Core HostError /\
       (evs = [mkRigEv query Threw] \/
        evs = [mkRigEv query (Gave (VBool true)); mkRigEv list Threw]))
      \/ (e = Core IndexError /\
          evs = [ mkRigEv query (Gave (VBool true));
                  mkRigEv list (Gave (Plain (VNames []))) ])
  end.

(** The last event of a stanza. *)
Definition stanza_last (obj attr : string) (r : Out (option string))
  (ev : RigEvent) : Prop :=
  match r with
  | Fine None =>
      ev = mkRigEv (AttributeQuery attr obj) (Gave (VBool false))
  | Fine (Some n) =>
      exists l, py_index l 0 = Ok n /\
                ev = mkRigEv (ListConnections (obj ++ "." ++ attr))
                             (Gave (Plain (VNames l)))
  | Fails e =>
      (e = Core HostError /\ exists c, ev = mkRigEv c Threw) \/
      (e = Core IndexError /\
       ev = mkRigEv (ListConnections (obj ++ "." ++ attr))
                    (Gave (Plain (VNames []))))
  end.

(** What the log says of the value [v] returned for [obj.attr]: the
    attribute was reported missing, or it was reported present and [v] is
    the first entry of the list of its connections. *)
Definition wired (obj : string) (evs : list RigEvent) (attr : string)
  (v : option string) : Prop :=
  match v with
  | None =>
      In (mkRigEv (AttributeQuery attr obj) (Gave (VBool false))) evs
  | Some n =>
      In (mkRigEv (AttributeQuery attr obj) (Gave (VBool true))) evs /\
      exists l,
        In (mkRigEv (ListConnections (obj ++ "." ++ attr))
                    (Gave (Plain (VNames l)))) evs /\
        py_index l 0 = Ok n
  end.

(** The object the connections are read from: the argument when it is
    given, else the first selected node. *)
Definition chosen (obj : option string) (evs : list RigEvent) (o : string)
  : Prop :=
  if py_truthy obj then obj = Some o
  else exists l, In (mkRigEv Ls (Gave (Plain (VNames l)))) evs /\
                 py_index l 0 = Ok o.

(** The two commands between switching the pin off and on again. *)
Definition is_elbow_or_pole_cmd (c : RigCmd) : bool :=
  match c with
  | Base (XformQueryT _) | XformSetT _ _ => true
  | _ => false
  end.

Definition is_translate_write (c : RigCmd) : bool :=
  match c with
  | XformSetT _ _ => true
  | _ => false
  end.

Definition is_wiring_cmd (c : RigCmd) : bool :=
  match c with
  | AttributeQuery _ _ | AddAttr _ _ | ConnectAttr _ _ => true
  | _ => false
  end.

(** Only attribute queries, [addAttr] and [connectAttr] are logged, and an
    attribute is added only after the query for it has answered no. *)
Definition adds_only_missing (evs : list RigEvent) : Prop :=
  (forall ev, In ev evs -> is_wiring_cmd (rig_cmd ev) = true) /\
  (forall n a o, In (mkRigEv (AddAttr n a) o) evs ->
                 In (mkRigEv (AttributeQuery a n) (Gave (VBool false))) evs).

(** The connection [add_connections] makes for one entry of a table. *)
Definition connected (namespace : option string) (obj attr rig_obj : string)
  : RigEvent :=
  rig_done (ConnectAttr (in_namespace namespace rig_obj ++ ".message")
                        (in_namespace namespace obj ++ "." ++ attr)).

(** ** What a rig may be asked to guarantee about its wiring *)

Section WiringLaws.

Variable G : RigHost.

(** In the scene [s] the attribute [attr] of [obj] is there and lists the
    node [n] as its one connection. *)
Definition plug_reads (s : RigScene G) (obj attr n : string) : Prop :=
  fst (rig_exec G (AttributeQuery attr obj) s) = Some true /\
  fst (rig_exec G (ListConnections (obj ++ "." ++ attr)) s) = Some [n].

(** The commands that may change what the plug [p] reads: all but the
    queries and the wiring of other plugs. *)
Definition may_rewire (c : RigCmd) (p : string) : bool :=
  match c with
  | Ls | AttributeQuery _ _ | ListConnections _ => false
  | AddAttr n a => String.eqb (n ++ "." ++ a) p
  | ConnectAttr _ dst => String.eqb dst p
  | _ => true
  end.

(** A connection made from [n.message] is what the attribute lists from
    then on, until that plug is wired again. *)
Record WiringLaws : Prop := {
  connect_read : forall n obj attr s s',
    rig_exec G (ConnectAttr (n ++ ".message") (obj ++ "." ++ attr)) s
    = (Some tt, s') ->
    plug_reads s' obj attr n;
  wiring_frame : forall c s r s' obj attr n,
    rig_exec G c s = (r, s') ->
    may_rewire c (obj ++ "." ++ attr) = false ->
    plug_reads s obj attr n -> plug_reads s' obj attr n
}.

(** Every plug reads in [w'] what it read in [w]. *)
Definition carried (w w' : RigWorld G) : Prop :=
  forall obj attr n,
    plug_reads (rig_scene G w) obj attr n ->
    plug_reads (rig_scene G w') obj attr n.

End WiringLaws.

(** The fifteen entries of a result of [get_rig_connections], each under
    the name of the attribute it is read from. *)
Definition entries (sl : SmartList) : list (string * option string) :=
  combine ["fk_001"; "fk_002"; "fk_003"; "fk_005"] (sl_fk_list sl)
  ++ combine ["fk_001_offset"; "fk_002_offset"; "fk_003_offset"]
             (sl_fk_offset_list sl)
  ++ [ ("ik_handle", sl_ik_handle sl); ("ik_pole", sl_ik_pole sl);
       ("ik_offset", sl_ik_offset sl) ]
  ++ combine ["ikm_001"; "ikm_002"; "ikm_003"; "ikm_006"] (sl_ikm_list sl)
  ++ [ ("ik_ball", sl_ik_ball sl) ].

(** The entries of the four tables, each with its settings control. *)
Definition table_entries : list (string * (string * string)) :=
  flat_map (fun entry => map (pair (fst entry)) (snd entry)) controls.

(** The prefix [in_namespace] puts before a name. *)
Definition namespace_prefix (namespace : option string) : string :=
  match namespace with
  | Some ns => if truthy ns then ns ++ ":" else EmptyString
  | None => EmptyString
  end.

(** The plug [add_connections] wires for an entry. *)
Definition plug_of (namespace : option string)
  (t : string * (string * string)) : string :=
  in_namespace namespace (fst t) ++ "." ++ fst (snd t).

(** No name occurs twice in [l]. *)
Fixpoint distinct (l : list string) : bool :=
  match l with
  | [] => true
  | a :: rest => negb (existsb (String.eqb a) rest) && distinct rest
  end.

(** ** A mocked rig *)

(** Like [Mock], a stand-in for the host application, which is not part of
    the repository: the scene graph of [Mock], with a selection and with
    message attributes and what is connected to each.  It serves to run the
    programs of this layer on concrete rigs. *)
Module RigMock.

Record Scene : Type := mkScene {
  base : Mock.Scene;
  selection : list string;
  messages : list (string * list string)   (* by plug *)
}.

Definition has_node (n : string) (s : Scene) : bool :=
  match Mock.find n (Mock.nodes (base s)) with
  | Some _ => true
  | None => false
  end.

Definition has_plug (p : string) (s : Scene) : bool :=
  match Mock.find p (Mock.attrs (base s)), Mock.find p (messages s) with
  | None, None => false
  | _, _ => true
  end.

(** The node of the plug [node.message]. *)
Definition without_message (src : string) : string :=
  String.substring 0 (String.length src - String.length ".message") src.

Definition on_base (c : Cmd) (s : Scene) : option (ret_ty c) * Scene :=
  (fst (Mock.exec c (base s)),
   mkScene (snd (Mock.exec c (base s))) (selection s) (messages s)).

Definition exec (c : RigCmd) : Scene -> option (rig_ret c) * Scene :=
  match c return Scene -> option (rig_ret c) * Scene with
  | Base c => on_base c
  | Ls => fun s => (Some (selection s), s)
  | AttributeQuery a n => fun s => (Some (has_plug (n ++ "." ++ a) s), s)
  | ListConnections p => fun s => (Mock.find p (messages s), s)
  | XformSetT n t => fun s =>
      match t with
      | [x; y; z] => on_base (Move x y z n) s
      | _ => (None, s)
      end
  | SetKeyframeNone => fun s => on_base (SetKeyframe (selection s)) s
  | AddAttr n a => fun s =>
      if has_node n s && negb (has_plug (n ++ "." ++ a) s)
      then (Some tt, mkScene (base s) (selection s)
                       (((n ++ "." ++ a)%string, []) :: messages s))
      else (None, s)
  | ConnectAttr src dst => fun s =>
      match Mock.find dst (messages s) with
      | Some _ =>
          (Some tt, mkScene (base s) (selection s)
                      (Mock.update dst (fun _ => [without_message src])
                                   (messages s)))
      | None => (None, s)
      end
  end.

Definition host : RigHost := mkRigHost Scene exec.

Definition start (s : Scene) : RigWorld host := mkRW host s [].

(** The left arm of [Rig], its IK handle with an [ikPin] attribute, wired
    as [add_connections] wires it; [extra] overrides or adds plugs. *)
Definition arm_base : Mock.Scene :=
  Mock.mkScene
    (Mock.nodes (Rig.bent_arm (Some "rig") 0))
    (("handIk_L0_001_ctl.ikPin", 1) :: Mock.attrs (Rig.bent_arm (Some "rig") 0))
    (Mock.toggle (Rig.bent_arm (Some "rig") 0))
    [].

Definition arm_messages : list (string * list string) :=
  map (fun item => (("armSettings_L0_001_ctl." ++ fst item)%string,
                    [snd item]))
      L_arm_dict.

(** The arm with the selection [sel] and the message plugs [msgs]. *)
Definition rigged (sel : list string) (msgs : list (string * list string))
  : Scene :=
  mkScene arm_base sel msgs.

Definition arm (sel : list string) (extra : list (string * list string))
  : Scene :=
  rigged sel (extra ++ arm_messages).

(** What [get_rig_connections] is to return on that arm. *)
Definition arm_wiring : SmartList :=
  mkSmartList
    [ Some "shoulderFk_L0_001_ctl"; Some "elbowFk_L0_001_ctl";
      Some "wristFk_L0_001_ctl"; None ]
    [ Some "armFkOffset_L0_001_loc"; Some "armFkOffset_L0_002_loc";
      Some "armFkOffset_L0_002_loc" ]
    (Some "handIk_L0_001_ctl")
    (Some "armPoleVectorIk_L0_001_ctl")
    (Some "ikHandOffset_arm_L0_loc")
    "armSettings_L0_001_ctl"
    [ Some "arm_L0_001_ikm"; Some "arm_L0_002_ikm"; Some "arm_L0_003_ikm";
      None ]
    None.

(** What [get_rig_connections] is to return on the left leg once
    [add_connections] has wired it. *)
Definition leg_wiring : SmartList :=
  mkSmartList
    [ Some "hipFk_L0_001_ctl"; Some "kneeFk_L0_001_ctl";
      Some "ankleFk_L0_001_ctl"; Some "legFk_L0_005_ctl" ]
    [ Some "legFkOffset_L0_001_loc"; Some "legFkOffset_L0_002_loc";
      Some "legFkOffset_L0_003_loc" ]
    (Some "footIk_L0_001_ctl")
    (Some "legPoleVectorIk_L0_001_ctl")
    (Some "ikFootOffset_leg_L0_loc")
    "legSettings_L0_001_ctl"
    [ Some "leg_L0_001_ikm"; Some "leg_L0_002_ikm"; Some "leg_L0_003_ikm";
      Some "leg_L0_006_ikm" ]
    (Some "legBallIk_L0_001_ctl").

(** An arm with the handle and the elbow joint wired and no pole vector. *)
Definition arm_without_pole (sel : list string) : Scene :=
  rigged sel
    [ ("armSettings_L0_001_ctl.ik_handle", ["handIk_L0_001_ctl"]);
      ("armSettings_L0_001_ctl.ikm_002", ["arm_L0_002_ikm"]) ].

(** Every node the tables of [add_connections] name, the settings controls
    with their [blend] attribute, and nothing wired. *)
Definition unwired : Scene :=
  mkScene
    (Mock.mkScene
       (map (fun n => (n, Rig.fixed None (Rig.at_pos vzero)))
            (flat_map (fun entry => fst entry :: map snd (snd entry))
                      controls))
       (map (fun entry => ((fst entry ++ ".blend")%string, 0)) controls)
       EmptyString [])
    [] [].

End RigMock.


(** ** The roll, the restore and the names looked up *)

Section MoreLaws.

Variable H : Host.

(** [AttrLaws], and a [setAttr] leaves every other attribute as it was. *)
Record AttrFrameLaws : Prop := {
  attr_laws_hold : AttrLaws H;
  attr_set_other : forall a b v s o s',
    a <> b ->
    exec H (SetAttr a v) s = (o, s') -> read_attr H b s' = read_attr H b s
}.

(** The outcome logged for what the host answers to [c]. *)
Definition outcome_of (c : Cmd) (o : option (ret_ty c)) : Outcome :=
  match o with
  | Some a => Returned (val_of c a)
  | None => Raised
  end.

(** Every call sets the roll of the handle to 0. *)
Definition roll_reset_by_every_call (fk_list ikm_list : list string)
  (ik_handle ik_pole ik_offset ik_ball blend_ctl : string)
  (ik_rotation key : bool) (w : World H) : Prop :=
  forall r w',
    ik_to_fk H fk_list ikm_list ik_handle ik_pole ik_offset ik_ball
             blend_ctl ik_rotation key w = (r, w') ->
    In (done (SetAttr (ik_handle ++ ".ikRoll") 0)) (log H w').

(** A call that got past its restoring [setAttr]: it was not stopped, or
    it was stopped by a keyframe command, which only follows the
    restore. *)
Definition past_restore (r : Res unit) (w' : World H) : Prop :=
  not_stopped r \/
  exists l, latest H w' = Some (mkEv (SetKeyframe l) Raised).

End MoreLaws.

(** The last character of [s], or [d] when [s] is empty. *)
Fixpoint last_of (s : string) (d : ascii) : ascii :=
  match s with
  | EmptyString => d
  | String c rest => last_of rest c
  end.

(** The events of [ik_to_fk] that come before the toggle is set back. *)
Definition ik_to_fk_transfers (ik_handle ik_pole ik_ball blend_ctl : string)
  (ik_rotation : bool) (x : IkToFkRead) : list Event :=
  [ mkEv (GetAttr (blend_ctl ++ ".blend")) (Returned (VFloat (ir_blend x)));
    done (SetAttr (ik_handle ++ ".ikRoll") 0);
    mkEv (XformQueryT (ir_fk0 x)) (Returned (VFloats (ir_t1 x)));
    mkEv (XformQueryT (ir_fk1 x)) (Returned (VFloats (ir_t2 x)));
    mkEv (XformQueryT (ir_fk2 x)) (Returned (VFloats (ir_t3 x))) ]
  ++ handle_events ik_rotation ik_handle blend_ctl x
  ++ pole_events ik_pole x
  ++ ball_events blend_ctl ik_ball x.

(** The events of [fk_to_ik] that come before the toggle is set back. *)
Definition fk_to_ik_transfers (blend_ctl : string) (x : FkToIkRead)
  : list Event :=
  [ mkEv (GetAttr (blend_ctl ++ ".blend")) (Returned (VFloat (fr_blend x))) ]
  ++ snap_log_of (fr_fk0 x) (fr_ikm0 x) (blend_ctl ++ ".blend") 0 (fr_snap0 x)
  ++ snap_log_of (fr_fk1 x) (fr_ikm1 x) (blend_ctl ++ ".blend") 0 (fr_snap1 x)
  ++ snap_log_of (fr_fk2 x) (fr_ikm2 x) (blend_ctl ++ ".blend") 0 (fr_snap2 x)
  ++ ball_snap_events blend_ctl x.

(** The commands of a log that returned. *)
Definition completed (evs : list Event) : list Cmd :=
  map ev_cmd (filter returned evs).

(** Nothing but commands of [script], in its order, has completed: the
    restore, which follows the script, has not. *)
Definition not_restored (evs script : list Event) : Prop :=
  exists n, completed evs = firstn n (map ev_cmd script).

(** The attributes [get_rig_connections] looks up, in the order of
    [entries]. *)
Definition read_names : list string :=
  [ "fk_001"; "fk_002"; "fk_003"; "fk_005";
    "fk_001_offset"; "fk_002_offset"; "fk_003_offset";
    "ik_handle"; "ik_pole"; "ik_offset";
    "ikm_001"; "ikm_002"; "ikm_003"; "ikm_006"; "ik_ball" ].

(** * Properties *)

(** ** Vector arithmetic *)

Lemma vdot_self_nonneg (v : MVector) : 0 <= vdot v v.
Proof. unfold vdot. nra. Qed.

Lemma vlength_nonneg (v : MVector) : 0 <= vlength v.
Proof. apply sqrt_pos. Qed.

Lemma vlength_sqr (v : MVector) : vlength v * vlength v = vdot v v.
Proof. apply sqrt_sqrt, vdot_self_nonneg. Qed.

Lemma vector_eq (a b : MVector) :
  vx a = vx b -> vy a = vy b -> vz a = vz b -> a = b.
Proof. destruct a, b; simpl; intros; subst; reflexivity. Qed.

Lemma vdot_self_zero (v : MVector) : vdot v v = 0 -> v = vzero.
Proof.
  unfold vdot. intros E. apply vector_eq; simpl; nra.
Qed.

Lemma vlength_zero (v : MVector) : vlength v = 0 <-> v = vzero.
Proof.
  split.
  - intros E. apply vdot_self_zero.
    apply sqrt_eq_0; [apply vdot_self_nonneg | exact E].
  - intros ->. unfold vlength, vdot, vzero; simpl.
    replace (0 * 0 + 0 * 0 + 0 * 0) with 0 by ring. apply sqrt_0.
Qed.

Lemma vsub_zero (a b : MVector) : vsub a b = vzero <-> a = b.
Proof.
  split.
  - intros E. apply (f_equal vx) in E as Ex. apply (f_equal vy) in E as Ey.
    apply (f_equal vz) in E as Ez. simpl in *.
    apply vector_eq; lra.
  - intros ->. unfold vsub, vzero. f_equal; ring.
Qed.

Lemma segment_length_zero (a b : MVector) : vlength (vsub b a) = 0 <-> a = b.
Proof.
  rewrite vlength_zero, vsub_zero. split; intros; subst; reflexivity.
Qed.

Lemma vdot_scale_l (v w : MVector) (s : R) :
  vdot (vscale v s) w = s * vdot v w.
Proof. unfold vdot, vscale; simpl. ring. Qed.

Lemma vdot_scale_r (v w : MVector) (s : R) :
  vdot v (vscale w s) = s * vdot v w.
Proof. unfold vdot, vscale; simpl. ring. Qed.

Lemma vlength_scale (v : MVector) (s : R) :
  0 <= s -> vlength (vscale v s) = vlength v * s.
Proof.
  intros Hs. unfold vlength.
  rewrite vdot_scale_l, vdot_scale_r.
  replace (s * (s * vdot v v)) with (vdot v v * (s * s)) by ring.
  rewrite sqrt_mult_alt by apply vdot_self_nonneg.
  rewrite sqrt_square by exact Hs. reflexivity.
Qed.

Lemma vlength_unit (v : MVector) :
  vlength v <> 0 -> vlength (vscale v (/ vlength v)) = 1.
Proof.
  intros Hv. pose proof (vlength_nonneg v) as Hp.
  rewrite vlength_scale.
  - field. exact Hv.
  - apply Rlt_le, Rinv_0_lt_compat. lra.
Qed.

Section VectorMath.

Variable H : Host.

Lemma normal_nonzero (v : MVector) :
  vlength v <> 0 -> normal H v = Ok (vscale v (/ vlength v)).
Proof.
  intros Hv. unfold normal. destruct (Req_dec_T (vlength v) 0); [contradiction | reflexivity].
Qed.

Lemma vdiv_nonzero (v : MVector) (s : R) :
  s <> 0 -> vdiv H v s = Ok (vscale v (/ s)).
Proof.
  intros Hs. unfold vdiv. destruct (Req_dec_T s 0); [contradiction | reflexivity].
Qed.

Lemma pole_y_straight (p1 p2 : MVector) (l : Limb) (m : Matrix) :
  upper_goal_angle l > 0.998 ->
  pole_y H p1 p2 l m = Ok (axis_y m).
Proof.
  intros Hc. unfold pole_y. destruct (Rgt_dec (upper_goal_angle l) 0.998); [|contradiction].
  f_equal. unfold vmulM, vadd, vscale, negate; simpl.
  destruct (axis_y m), (axis_x m), (axis_z m); simpl. f_equal; ring.
Qed.

Lemma pole_y_general (p1 p2 : MVector) (l : Limb) (m : Matrix) :
  upper_goal_angle l <= 0.998 ->
  pole_y H p1 p2 l m = normal H (vsub p2 (goal_project p1 l)).
Proof.
  intros Hc. unfold pole_y. destruct (Rgt_dec (upper_goal_angle l) 0.998); [lra | reflexivity].
Qed.

Lemma limb_vectors_ok (p1 p2 p3 rgn : MVector) :
  vlength (vsub p2 p1) <> 0 ->
  normal H (vsub p3 p1) = Ok rgn ->
  limb_vectors H p1 p2 p3 =
    Ok (mkLimb (vlength (vsub p2 p1))
               (vlength (vsub p2 p1) + vlength (vsub p3 p2))
               rgn
               (vscale (vsub p2 p1) (/ vlength (vsub p2 p1)))).
Proof.
  intros Hu Hn. unfold limb_vectors. rewrite Hn. simpl.
  rewrite vdiv_nonzero by exact Hu. reflexivity.
Qed.

End VectorMath.

(** ** The pole vector arithmetic *)

Lemma vlength_mkV (x y z : R) : vlength (mkV x y z) = sqrt (x * x + y * y + z * z).
Proof. reflexivity. Qed.

Lemma sqrt_5_pos : 0 < sqrt 5.
Proof. apply sqrt_lt_R0. lra. Qed.

Lemma sqrt_5_sqr : sqrt 5 * sqrt 5 = 5.
Proof. apply sqrt_sqrt. lra. Qed.

Lemma sqrt_5_bounds : 2.2 < sqrt 5 < 2.3.
Proof.
  pose proof sqrt_5_pos. pose proof sqrt_5_sqr. split; nra.
Qed.

Section PoleFacts.

Variable H : Host.

Lemma limb_vectors_inv (p1 p2 p3 : MVector) (l : Limb) :
  limb_vectors H p1 p2 p3 = Ok l ->
  normal H (vsub p3 p1) = Ok (root_goal_norm l) /\
  vdiv H (vsub p2 p1) (vlength (vsub p2 p1)) = Ok (root_mid_norm l) /\
  upper_length l = vlength (vsub p2 p1) /\
  total_length l = vlength (vsub p2 p1) + vlength (vsub p3 p2).
Proof.
  unfold limb_vectors, res_bind. intros E.
  destruct (normal H _) eqn:N; [|discriminate].
  destruct (vdiv H _ _) eqn:D; [|discriminate].
  inversion E; subst; simpl. auto.
Qed.

Lemma example_limb_vectors :
  limb_vectors H (mkV 0 0 0) (mkV 1 0 0) (mkV 2 1 0) = Ok example_limb.
Proof.
  assert (A : vsub (mkV 1 0 0) (mkV 0 0 0) = mkV 1 0 0)
    by (unfold vsub; simpl; f_equal; ring).
  assert (B : vsub (mkV 2 1 0) (mkV 1 0 0) = mkV 1 1 0)
    by (unfold vsub; simpl; f_equal; ring).
  assert (C : vsub (mkV 2 1 0) (mkV 0 0 0) = mkV 2 1 0)
    by (unfold vsub; simpl; f_equal; ring).
  assert (LA : vlength (mkV 1 0 0) = 1).
  { rewrite vlength_mkV. replace (1 * 1 + 0 * 0 + 0 * 0) with 1 by ring.
    apply sqrt_1. }
  assert (LB : vlength (mkV 1 1 0) = sqrt 2).
  { rewrite vlength_mkV. f_equal. ring. }
  assert (LC : vlength (mkV 2 1 0) = sqrt 5).
  { rewrite vlength_mkV. f_equal. ring. }
  unfold limb_vectors. rewrite A, B, C, LA, LB.
  rewrite normal_nonzero by (rewrite LC; pose proof sqrt_5_pos; lra).
  rewrite vdiv_nonzero by lra. rewrite LC. simpl.
  unfold example_limb. do 2 f_equal.
  unfold vscale; simpl. f_equal; field.
Qed.

Lemma example_angle : upper_goal_angle example_limb = 2 / sqrt 5.
Proof.
  unfold upper_goal_angle, example_limb, vdot, vscale; simpl.
  pose proof sqrt_5_pos. field. lra.
Qed.

Lemma example_angle_general : upper_goal_angle example_limb <= 0.998.
Proof.
  rewrite example_angle. pose proof sqrt_5_bounds as [Lo Hi].
  apply Rmult_le_reg_r with (sqrt 5); [lra|].
  replace (2 / sqrt 5 * sqrt 5) with 2 by (field; lra). lra.
Qed.

Lemma example_goal_project :
  goal_project (mkV 0 0 0) example_limb = mkV (4 / 5) (2 / 5) 0.
Proof.
  unfold goal_project. rewrite example_angle.
  pose proof sqrt_5_pos as P. pose proof sqrt_5_sqr as S.
  unfold example_limb, vadd, vscale; simpl.
  f_equal.
  - replace (0 + 2 * / sqrt 5 * 1 * (2 / sqrt 5))
      with (4 / (sqrt 5 * sqrt 5)) by (field; lra).
    rewrite S. reflexivity.
  - replace (0 + 1 * / sqrt 5 * 1 * (2 / sqrt 5))
      with (2 / (sqrt 5 * sqrt 5)) by (field; lra).
    rewrite S. reflexivity.
  - field. lra.
Qed.

Lemma example_pole_y (m : Matrix) :
  pole_y H (mkV 0 0 0) (mkV 1 0 0) example_limb m = Ok example_pole.
Proof.
  rewrite pole_y_general by apply example_angle_general.
  rewrite example_goal_project.
  assert (D : vsub (mkV 1 0 0) (mkV (4 / 5) (2 / 5) 0)
              = mkV (1 / 5) (- 2 / 5) 0)
    by (unfold vsub; simpl; f_equal; field).
  rewrite D.
  assert (LD : vlength (mkV (1 / 5) (- 2 / 5) 0) = sqrt (1 / 5)).
  { rewrite vlength_mkV. f_equal. field. }
  rewrite normal_nonzero.
  - rewrite LD. reflexivity.
  - rewrite LD. assert (0 < sqrt (1 / 5)) by (apply sqrt_lt_R0; lra). lra.
Qed.

Lemma straight_limb_vectors :
  limb_vectors H (mkV 0 0 0) (mkV 1 0 0) (mkV 2 0 0) = Ok straight_limb.
Proof.
  assert (A : vsub (mkV 1 0 0) (mkV 0 0 0) = mkV 1 0 0)
    by (unfold vsub; simpl; f_equal; ring).
  assert (B : vsub (mkV 2 0 0) (mkV 1 0 0) = mkV 1 0 0)
    by (unfold vsub; simpl; f_equal; ring).
  assert (C : vsub (mkV 2 0 0) (mkV 0 0 0) = mkV 2 0 0)
    by (unfold vsub; simpl; f_equal; ring).
  assert (LA : vlength (mkV 1 0 0) = 1).
  { rewrite vlength_mkV. replace (1 * 1 + 0 * 0 + 0 * 0) with 1 by ring.
    apply sqrt_1. }
  assert (LC : vlength (mkV 2 0 0) = 2).
  { rewrite vlength_mkV. replace (2 * 2 + 0 * 0 + 0 * 0) with (2 * 2) by ring.
    apply sqrt_square. lra. }
  unfold limb_vectors. rewrite A, B, C, LA.
  rewrite normal_nonzero by (rewrite LC; lra).
  rewrite vdiv_nonzero by lra. rewrite LC. simpl.
  unfold straight_limb. do 2 f_equal.
  unfold vscale; simpl. f_equal; field.
Qed.

Lemma straight_angle : upper_goal_angle straight_limb = 1.
Proof.
  unfold upper_goal_angle, straight_limb, vdot, vscale; simpl. field.
Qed.

Lemma straight_pole_y (m : Matrix) :
  pole_y H (mkV 0 0 0) (mkV 1 0 0) straight_limb m = Ok (axis_y m).
Proof. apply pole_y_straight. rewrite straight_angle. lra. Qed.

Lemma long_limb_vectors :
  limb_vectors H (mkV 0 0 0) (mkV 506 0 0) (mkV 1012 45 0) = Ok long_limb.
Proof.
  assert (A : vsub (mkV 506 0 0) (mkV 0 0 0) = mkV 506 0 0)
    by (unfold vsub; simpl; f_equal; ring).
  assert (C : vsub (mkV 1012 45 0) (mkV 0 0 0) = mkV 1012 45 0)
    by (unfold vsub; simpl; f_equal; ring).
  assert (LA : vlength (mkV 506 0 0) = 506).
  { rewrite vlength_mkV.
    replace (506 * 506 + 0 * 0 + 0 * 0) with (506 * 506) by ring.
    apply sqrt_square. lra. }
  assert (LC : vlength (mkV 1012 45 0) = 1013).
  { rewrite vlength_mkV.
    replace (1012 * 1012 + 45 * 45 + 0 * 0) with (1013 * 1013) by ring.
    apply sqrt_square. lra. }
  unfold limb_vectors. rewrite A, C, LA.
  rewrite normal_nonzero by (rewrite LC; lra).
  rewrite vdiv_nonzero by lra. rewrite LC. simpl.
  unfold long_limb. do 2 f_equal.
  unfold vscale; simpl. f_equal; field.
Qed.

Lemma long_angle : upper_goal_angle long_limb = 1012 / 1013.
Proof.
  unfold upper_goal_angle, long_limb, vdot, vscale; simpl. field.
Qed.

Lemma long_pole_y (m : Matrix) :
  pole_y H (mkV 0 0 0) (mkV 506 0 0) long_limb m = Ok (axis_y m).
Proof. apply pole_y_straight. rewrite long_angle. lra. Qed.

(** With the end joint on the mid joint the two directions coincide. *)
Lemma coincident_end (p1 p2 : MVector) :
  p1 <> p2 ->
  exists l,
    limb_vectors H p1 p2 p2 = Ok l /\
    upper_goal_angle l = 1 /\
    upper_length l = vlength (vsub p2 p1) /\
    total_length l = vlength (vsub p2 p1).
Proof.
  intros N.
  assert (U : vlength (vsub p2 p1) <> 0)
    by (rewrite segment_length_zero; exact N).
  assert (Z : vlength (vsub p2 p2) = 0)
    by (rewrite segment_length_zero; reflexivity).
  eexists. split.
  - apply limb_vectors_ok; [exact U | apply normal_nonzero; exact U].
  - split; [|split]; simpl.
    + unfold upper_goal_angle; simpl.
      rewrite vdot_scale_l, vdot_scale_r, <- vlength_sqr. field. exact U.
    + reflexivity.
    + rewrite Z. ring.
Qed.

End PoleFacts.

(** ** Running the programs against an arbitrary host *)


Lemma py_index_raises {A} (l : list A) (i : Z) (e : Exn) :
  py_index l i = Raise e -> e = IndexError.
Proof.
  unfold py_index. intros E.
  destruct (_ <? 0)%Z in E; [inversion E; reflexivity|].
  destruct (nth_error l _) in E; inversion E; reflexivity.
Qed.

Lemma to_MVector_raises (t : list R) (e : Exn) :
  to_MVector t = Raise e -> e = IndexError.
Proof.
  unfold to_MVector, res_bind. intros E.
  destruct (py_index t 0) eqn:I0; [|inversion E; subst; eapply py_index_raises; eassumption].
  destruct (py_index t 1) eqn:I1; [|inversion E; subst; eapply py_index_raises; eassumption].
  destruct (py_index t 2) eqn:I2; [|inversion E; subst; eapply py_index_raises; eassumption].
  discriminate.
Qed.

Lemma of_host_raises {A} (o : option A) (e : Exn) :
  of_host o = Raise e -> e = HostError.
Proof. destruct o; intros E; inversion E; reflexivity. Qed.

Lemma normal_raises (H : Host) (v : MVector) (e : Exn) :
  normal H v = Raise e -> e = HostError.
Proof.
  unfold normal. destruct (Req_dec_T _ _); [apply of_host_raises | discriminate].
Qed.

Lemma vdiv_raises (H : Host) (v : MVector) (s : R) (e : Exn) :
  vdiv H v s = Raise e -> e = HostError.
Proof.
  unfold vdiv. destruct (Req_dec_T _ _); [apply of_host_raises | discriminate].
Qed.

Lemma limb_vectors_raises (H : Host) (p1 p2 p3 : MVector) (e : Exn) :
  limb_vectors H p1 p2 p3 = Raise e -> e = HostError.
Proof.
  unfold limb_vectors, res_bind. intros E.
  destruct (normal H _) eqn:N; [|inversion E; subst; eapply normal_raises; eassumption].
  destruct (vdiv H _ _) eqn:D; [|inversion E; subst; eapply vdiv_raises; eassumption].
  discriminate.
Qed.

Lemma pole_y_raises (H : Host) (p1 p2 : MVector) (l : Limb) (m : Matrix)
  (e : Exn) :
  pole_y H p1 p2 l m = Raise e -> e = HostError.
Proof.
  unfold pole_y. destruct (Rgt_dec _ _); [discriminate | apply normal_raises].
Qed.

Ltac unfold_run :=
  unfold bind, call, lift, ret, local in *; simpl in *.

(** The next thing a stuck run waits for. *)
Ltac head_scrut t :=
  lazymatch t with
  | match ?x with pair _ _ => _ end => head_scrut x
  | match ?x with Ok _ => _ | Raise _ => _ end => head_scrut x
  | match ?x with Some _ => _ | None => _ end => head_scrut x
  | if ?x then _ else _ => head_scrut x
  | (if ?x then _ else _) _ => head_scrut x
  | (match ?x with Some _ => _ | None => _ end) _ => head_scrut x
  | _ => t
  end.

(** One step of a run, in program order: split on the outcome of the next
    host command or of the next Python-level operation. *)
Ltac run_step E :=
  match type of E with
  | ?l = _ =>
      let h := head_scrut l in
      lazymatch h with
      | exec ?H ?c ?s =>
          let o := fresh "o" in let s' := fresh "s" in let X := fresh "X" in
          destruct (exec H c s) as [o s'] eqn:X; destruct o; simpl in E
      | py_index _ _ =>
          let X := fresh "I" in
          destruct h eqn:X;
          [|apply py_index_raises in X; subst]; simpl in E
      | to_MVector _ =>
          let X := fresh "V" in
          destruct h eqn:X;
          [|apply to_MVector_raises in X; subst]; simpl in E
      | limb_vectors _ _ _ _ =>
          let X := fresh "L" in
          destruct h eqn:X;
          [|apply limb_vectors_raises in X; subst]; simpl in E
      | pole_y _ _ _ _ _ =>
          let X := fresh "P" in
          destruct h eqn:X;
          [|apply pole_y_raises in X; subst]; simpl in E
      | truthy _ =>
          let X := fresh "T" in
          destruct h eqn:X; simpl in E
      end
  end.

Ltac run_all E := repeat run_step E; inversion E; subst; clear E.

Ltac tidy_units :=
  repeat match goal with
         | u : ret_ty _ |- _ => progress simpl in u
         | u : unit |- _ => destruct u
         end.

(** The events a leaf of the run has put on top of the log [base]. *)
Ltac events_above l base :=
  match l with
  | base => constr:(@nil Event)
  | ?e :: ?t => let r := events_above t base in constr:(e :: r)
  end.

Ltac give_log :=
  match goal with
  | |- exists evs, emitted ?H ?w (mkW _ _ ?l) evs /\ _ =>
      let p := events_above l (log H w) in
      let evs := eval simpl in (rev p) in
      exists evs; split; [reflexivity|]
  end.

Ltac no_delete :=
  let e := fresh in let ev := fresh in let Hr := fresh in let Hin := fresh in
  intros e Hr ev Hin; try discriminate Hr; simpl in Hin;
  repeat (destruct Hin as [Hin|Hin]; [subst ev; reflexivity|]);
  contradiction.

Lemma py_index_In {A} (l : list A) (i : Z) (a : A) :
  py_index l i = Ok a -> In a l.
Proof.
  unfold py_index. intros E.
  destruct (_ <? 0)%Z in E; [discriminate|].
  destruct (nth_error l _) eqn:N in E; [|discriminate].
  inversion E; subst. eapply nth_error_In; eassumption.
Qed.

Section SnapRuns.

Variable H : Host.

Lemma snap_log (source target attr : string) (value : R)
  (w w' : World H) (r : Res unit) :
  snap H source target attr value w = (r, w') ->
  exists evs,
    emitted H w w' evs /\
    exists dups parents dup m,
    (exists n, map ev_cmd evs
               = firstn n (snap_cmds source target attr value dup m)) /\
    (r = Ok tt ->
       py_index dups 0 = Ok dup /\
       evs = snap_events source target attr value dups parents dup m) /\
    (forall e, r = Raise e ->
       forall ev, In ev evs -> is_delete (ev_cmd ev) && returned ev = false).
Proof.
  intros E. unfold snap in E. unfold_run.
  run_all E; give_log; do 4 eexists; (split; [|split]).
  all: try no_delete.
  all: try (intros Hr; first [discriminate Hr | (split; [|reflexivity]); eassumption]).
  all: try match goal with
           | |- exists n, map _ ?evs = _ => exists (List.length evs); reflexivity
           end.
  Unshelve.
  all: first [exact EmptyString | exact (mkM vzero vzero vzero vzero) | exact nil].
Qed.

Lemma snap_pose (source target attr : string) (value : R)
  (w w' : World H) :
  PoseLaws H ->
  snap H source target attr value w = (Ok tt, w') ->
  exists dups parents dup s1 s2 s3 s4 s_flip m,
    exec H (SetAttr attr value) (scene H w) = (Some tt, s1) /\
    exec H (Duplicate source) s1 = (Some dups, s2) /\
    py_index dups 0 = Ok dup /\
    exec H (ListRelativesParent source) s2 = (Some parents, s3) /\
    exec H (Parent dup target) s3 = (Some tt, s4) /\
    exec H (SetAttr attr (1 - value)) s4 = (Some tt, s_flip) /\
    world_matrix H target s_flip = Some m /\
    world_matrix H source (scene H w') = Some m.
Proof.
  intros L E. unfold snap in E. unfold_run.
  run_all E. tidy_units.
  match goal with
  | X1 : exec H (SetAttr attr value) (scene H w) = (Some tt, ?s1),
    XD : exec H (Duplicate source) ?s1 = (Some ?dups, ?s2),
    ID : py_index ?dups 0 = Ok ?dup,
    XL : exec H (ListRelativesParent source) ?s2 = (Some ?parents, ?s3),
    XP : exec H (Parent ?dup target) ?s3 = (Some tt, ?s4),
    XA : exec H (SetAttr attr (1 - value)) ?s4 = (Some tt, ?s5),
    XQ : exec H (XformQueryM ?dup) ?s5 = (Some ?m, ?s6),
    XS : exec H (XformSetM source ?m) ?s6 = (Some tt, ?s7),
    XX : exec H (Delete ?dup) ?s7 = (Some tt, _) |- _ =>
      exists dups, parents, dup, s1, s2, s3, s4, s5, m;
      assert (s6 = s5) by (eapply query_pure; eassumption); subst s6;
      assert (Q : world_matrix H dup s5 = Some m)
        by (unfold world_matrix; rewrite XQ; reflexivity);
      repeat (split; [first [assumption | reflexivity]|]);
      split;
      [ erewrite <- (proxy_follows H L); eassumption
      | simpl; erewrite (delete_other H L); [|exact XX|];
        [ eapply set_get; eassumption
        | intros ->; eapply (duplicate_new H L); [exact XD|];
          eapply py_index_In; exact ID ] ]
  end.
Qed.

End SnapRuns.

Section Orchestrators.

Variable H : Host.

Ltac stopped Hr :=
  let n := fresh in
  destruct Hr as [Hr|[n Hr]]; discriminate Hr.

Ltac read_facts :=
  unfold snap_read_ok; cbn [sr_dups sr_parents sr_dup sr_matrix];
  repeat match goal with
         | |- _ /\ _ => split
         | |- true = true -> _ => intros _
         | |- false = true -> _ =>
             let Q := fresh in intros Q; discriminate Q
         | |- _ => eassumption
         | |- _ => reflexivity
         end.

(** Computes the script of a run down to a list of events. *)
Ltac spell_out :=
  unfold emitted, ik_to_fk_events, fk_to_ik_events, handle_events,
    pole_events, ball_events, ball_snap_events, ball_key_events, key_events,
    snap_log_of, snap_events, done;
  cbn [sr_dups sr_parents sr_dup sr_matrix
       ir_blend ir_fk0 ir_fk1 ir_fk2 ir_t1 ir_t2 ir_t3 ir_p1 ir_p2 ir_p3
       ir_limb ir_mid_world ir_pole ir_ikm2 ir_snap ir_ball_fk ir_ball_matrix
       fr_blend fr_fk0 fr_ikm0 fr_snap0 fr_fk1 fr_ikm1 fr_snap1
       fr_fk2 fr_ikm2 fr_snap2 fr_ball_fk fr_ball_ikm fr_ball_snap];
  repeat match goal with
         | T : truthy _ = _ |- _ => rewrite T
         | T : py_in _ _ = _ |- _ => rewrite T
         end;
  cbn [rev app andb log].

Ltac fill_in :=
  first [ exact EmptyString | exact (mkM vzero vzero vzero vzero)
        | exact (@nil string) | exact vzero ].

Lemma ik_to_fk_done (fk_list ikm_list : list string)
  (ik_handle ik_pole ik_offset ik_ball blend_ctl : string)
  (ik_rotation key : bool) (w w' : World H) (r : Res unit) :
  ik_to_fk H fk_list ikm_list ik_handle ik_pole ik_offset ik_ball blend_ctl
           ik_rotation key w = (r, w') ->
  not_stopped r ->
  exists x,
    ik_to_fk_read_ok H fk_list ikm_list blend_ctl ik_rotation x /\
    emitted H w w'
      (ik_to_fk_events ik_handle ik_pole ik_ball blend_ctl ik_rotation key x).
Proof.
  intros E Hr. unfold ik_to_fk, snap in E.
  unfold ik_to_fk_read_ok.
  destruct ik_rotation, key, (py_in "leg" blend_ctl) eqn:Leg; unfold_run.
  all: run_all E; try (stopped Hr).
  all: eexists (mkIkToFkRead _ _ _ _ _ _ _ _ _ _ _ _ _ _ (mkSnapRead _ _ _ _) _ _).
  all: split; [|spell_out; reflexivity].
  all: read_facts.
  Unshelve. all: fill_in.
Qed.

Lemma fk_to_ik_done (fk_list fk_offset_list ikm_list : list string)
  (ik_ball blend_ctl : string) (key : bool) (w w' : World H) (r : Res unit) :
  fk_to_ik H fk_list fk_offset_list ikm_list ik_ball blend_ctl key w
    = (r, w') ->
  not_stopped r ->
  exists x,
    fk_to_ik_read_ok fk_list ikm_list blend_ctl x /\
    emitted H w w' (fk_to_ik_events fk_list blend_ctl key x).
Proof.
  intros E Hr. unfold fk_to_ik, snap in E.
  unfold fk_to_ik_read_ok.
  destruct key, (py_in "leg" blend_ctl) eqn:Leg; unfold_run.
  all: run_all E; try (stopped Hr).
  all: eexists (mkFkToIkRead _ _ _ (mkSnapRead _ _ _ _)
                             _ _ (mkSnapRead _ _ _ _)
                             _ _ (mkSnapRead _ _ _ _)
                             _ _ (mkSnapRead _ _ _ _)).
  all: split; [|spell_out; reflexivity].
  all: read_facts.
  Unshelve. all: fill_in.
Qed.

End Orchestrators.

(** ** The mocked scene graph obeys the scene laws *)

Module MockFacts.
Import Mock.

Lemma find_update_same {A} (k : string) (f : A -> A) (l : list (string * A)) :
  find k (update k f l) = option_map f (find k l).
Proof.
  induction l as [|[k' a] l IH]; simpl; [reflexivity|].
  destruct (String.eqb k k'); [reflexivity | exact IH].
Qed.

Lemma find_update_other {A} (k k' : string) (f : A -> A)
  (l : list (string * A)) :
  k <> k' -> find k' (update k f l) = find k' l.
Proof.
  intros N. induction l as [|[k0 a] l IH]; simpl; [reflexivity|].
  destruct (String.eqb k' k0) eqn:E; [|exact IH].
  apply String.eqb_eq in E. subst k0.
  apply String.eqb_neq in N. rewrite N. reflexivity.
Qed.

Lemma find_remove_other {A} (d n : string) (l : list (string * A)) :
  n <> d -> find n (remove d l) = find n l.
Proof.
  intros N. induction l as [|[k a] l IH]; simpl; [reflexivity|].
  destruct (String.eqb d k) eqn:E.
  - apply String.eqb_eq in E. subst k.
    apply String.eqb_neq in N. rewrite N. exact IH.
  - simpl. destruct (String.eqb n k); [reflexivity | exact IH].
Qed.

Lemma length_app (a b : string) :
  String.length (a ++ b) = (String.length a + String.length b)%nat.
Proof. induction a as [|c a IH]; simpl; [reflexivity | rewrite IH; reflexivity]. Qed.

Lemma fresh_name_new (n : string) (s : Scene) : fresh_name n s <> n.
Proof.
  intros E. apply (f_equal String.length) in E.
  unfold fresh_name in E. rewrite length_app in E. simpl in E. lia.
Qed.

Lemma on_node_ok (n : string) (f : Node -> Node) (s s' : Scene) :
  on_node n f s = (Some tt, s') ->
  s' = with_nodes s (update n f (nodes s)) /\ exists nd, find n (nodes s) = Some nd.
Proof.
  unfold on_node. destruct (find n (nodes s)) eqn:F; intros E; inversion E.
  split; [reflexivity | eexists; reflexivity].
Qed.

Lemma on_node_attrs (n : string) (f : Node -> Node) (s s' : Scene)
  (o : option unit) :
  on_node n f s = (o, s') -> attrs s' = attrs s.
Proof.
  unfold on_node. destruct (find n (nodes s)); intros E; inversion E; reflexivity.
Qed.

Lemma attr_laws : AttrLaws host.
Proof.
  split.
  - intros a v s s' E. simpl in E.
    destruct (find a (attrs s)) eqn:F; inversion E; subst.
    unfold read_attr; simpl. rewrite find_update_same, F. reflexivity.
  - intros c a s o s' N E. unfold read_attr; simpl.
    f_equal.
    destruct c; try discriminate N; simpl in E;
      try (eapply on_node_attrs; eassumption);
      try (inversion E; reflexivity).
    + destruct (find node (nodes s)); inversion E; reflexivity.
    + destruct (find node (nodes s)); inversion E; reflexivity.
    + destruct (find parent (nodes s)); [|inversion E; reflexivity].
      destruct (String.eqb child parent); [inversion E; reflexivity|].
      eapply on_node_attrs; eassumption.
    + destruct (find node (nodes s)); inversion E; reflexivity.
    + destruct (forallb _ nodes0); inversion E; reflexivity.
Qed.

Lemma pose_laws : PoseLaws host.
Proof.
  split.
  - intros d t a v s s1 s2 EP EA. simpl in EP, EA.
    destruct (find t (nodes s)) as [pn|] eqn:Ft; [|discriminate].
    destruct (String.eqb d t) eqn:Edt; [discriminate|].
    apply String.eqb_neq in Edt.
    apply on_node_ok in EP. destruct EP as [-> [nd Fd]].
    destruct (find a (attrs _)) eqn:Fa; inversion EA; subst.
    unfold world_matrix; simpl; unfold world_of; simpl.
    rewrite find_update_same, Fd, find_update_other, Ft by exact Edt.
    reflexivity.
  - intros n s o s' E. simpl in E. inversion E. reflexivity.
  - intros n m s s' E. simpl in E.
    apply on_node_ok in E. destruct E as [-> [nd F]].
    unfold world_matrix; simpl; unfold world_of; simpl.
    rewrite find_update_same, F. reflexivity.
  - intros d n s s' E N. simpl in E.
    destruct (find d (nodes s)) eqn:F; inversion E; subst.
    unfold world_matrix; simpl; unfold world_of; simpl.
    rewrite find_remove_other by exact N. reflexivity.
  - intros n s l s' E. simpl in E.
    destruct (find n (nodes s)) eqn:F; inversion E; subst.
    intros [X|[]]. exact (fresh_name_new n s X).
Qed.

End MockFacts.

(** ** snap: order of the commands, the resulting pose, the proxy *)

(** C2.  Whatever the host, the commands of a [snap] call come in program
    order: toggle set to [value], parent-only duplicate of [source],
    duplicate re-parented under [target], toggle set to [1 - value], world
    matrix of the duplicate read, that matrix written onto [source],
    duplicate deleted; the only other command is the look-up of [source]'s
    parent, a read between the duplicate and the re-parent.  A call that
    returns has logged exactly these, each one returned; a call that raises
    has logged a prefix of them.  Consequently, over a scene graph obeying
    [PoseLaws] (the re-parented proxy evaluates to the target's pose), the
    world matrix of [source] after a returning call is the world matrix
    [target] had in the scene [s_flip] the run was in when the toggle had
    just been set to [1 - value]. *)
Theorem snap_order_and_pose (H : Host) (source target attr : string)
  (value : R) (w w' : World H) (r : Res unit) :
  snap H source target attr value w = (r, w') ->
  (exists evs dups parents dup m,
     emitted H w w' evs /\
     (exists n, map ev_cmd evs
                = firstn n (snap_cmds source target attr value dup m)) /\
     (r = Ok tt ->
        py_index dups 0 = Ok dup /\
        evs = snap_events source target attr value dups parents dup m /\
        filter (fun c => negb (is_parent_lookup c)) (map ev_cmd evs)
        = snap_steps source target attr value dup m)) /\
  (PoseLaws H -> r = Ok tt ->
   exists dups parents dup s1 s2 s3 s4 s_flip m,
     exec H (SetAttr attr value) (scene H w) = (Some tt, s1) /\
     exec H (Duplicate source) s1 = (Some dups, s2) /\
     py_index dups 0 = Ok dup /\
     exec H (ListRelativesParent source) s2 = (Some parents, s3) /\
     exec H (Parent dup target) s3 = (Some tt, s4) /\
     exec H (SetAttr attr (1 - value)) s4 = (Some tt, s_flip) /\
     world_matrix H target s_flip = Some m /\
     world_matrix H source (scene H w') = Some m).
Proof.
  intros E. split.
  - destruct (snap_log H _ _ _ _ _ _ _ E)
      as (evs & Hem & dups & parents & dup & m & Hpre & Hok & _).
    exists evs, dups, parents, dup, m.
    split; [exact Hem|]. split; [exact Hpre|].
    intros Hr. destruct (Hok Hr) as [Hi ->].
    split; [exact Hi|]. split; reflexivity.
  - intros L Hr. subst r. eapply snap_pose; eassumption.
Qed.

Lemma snap_order_and_pose_witness :
  let w := Mock.start (Rig.bent_arm (Some "rig") 1) in
  let run := snap Mock.host Rig.arm_handle "arm_L0_003_ikm"
                  "armSettings_L0_001_ctl.blend" 1 w in
  fst run = Ok tt /\
  PoseLaws Mock.host /\
  exists dups parents dup s1 s2 s3 s4 s_flip m,
    exec Mock.host (SetAttr "armSettings_L0_001_ctl.blend" 1)
         (scene Mock.host w) = (Some tt, s1) /\
    exec Mock.host (Duplicate Rig.arm_handle) s1 = (Some dups, s2) /\
    py_index dups 0 = Ok dup /\
    exec Mock.host (ListRelativesParent Rig.arm_handle) s2
      = (Some parents, s3) /\
    exec Mock.host (Parent dup "arm_L0_003_ikm") s3 = (Some tt, s4) /\
    exec Mock.host (SetAttr "armSettings_L0_001_ctl.blend" (1 - 1)) s4
      = (Some tt, s_flip) /\
    world_matrix Mock.host "arm_L0_003_ikm" s_flip = Some m /\
    world_matrix Mock.host Rig.arm_handle (scene Mock.host (snd run)) = Some m.
Proof.
  intros w run.
  assert (Hr : fst run = Ok tt) by (vm_compute; reflexivity).
  split; [exact Hr|]. split; [exact MockFacts.pose_laws|].
  exact (proj2 (snap_order_and_pose Mock.host Rig.arm_handle "arm_L0_003_ikm"
                  "armSettings_L0_001_ctl.blend" 1 w (snd run) (fst run)
                  (surjective_pairing run))
               MockFacts.pose_laws Hr).
Defined.

(** C3, as amended.  A [snap] call that returns has deleted the duplicate it
    created: its last command is the delete of that very node, and it
    returned.  A call that raises has not deleted anything: the error
    leaves at once, and a duplicate created before it stays in the
    scene. *)
Theorem snap_deletes_proxy_when_it_returns (H : Host)
  (source target attr : string) (value : R) (w w' : World H) (r : Res unit) :
  snap H source target attr value w = (r, w') ->
  exists evs,
    emitted H w w' evs /\
    (r = Ok tt ->
       exists dups dup pre,
         In (mkEv (Duplicate source) (Returned (VNames dups))) evs /\
         py_index dups 0 = Ok dup /\
         evs = pre ++ [done (Delete dup)]) /\
    (forall e, r = Raise e ->
       forall ev, In ev evs -> is_delete (ev_cmd ev) && returned ev = false).
Proof.
  intros E.
  destruct (snap_log H _ _ _ _ _ _ _ E)
    as (evs & Hem & dups & parents & dup & m & _ & Hok & Hraise).
  exists evs. split; [exact Hem|]. split; [|exact Hraise].
  intros Hr. destruct (Hok Hr) as [Hi ->].
  exists dups, dup. eexists. split; [|split; [exact Hi|]].
  - simpl. right. left. reflexivity.
  - unfold snap_events.
    change [?a; ?b; ?c; ?d; ?e; ?f; ?g; ?h] with ([a; b; c; d; e; f; g] ++ [h]).
    reflexivity.
Qed.

Lemma snap_deletes_proxy_when_it_returns_witness :
  let w := Mock.start (Rig.bent_arm (Some "rig") 1) in
  let run := snap Mock.host Rig.arm_handle "arm_L0_003_ikm"
                  "armSettings_L0_001_ctl.blend" 1 w in
  exists evs,
    emitted Mock.host w (snd run) evs /\
    (fst run = Ok tt ->
       exists dups dup pre,
         In (mkEv (Duplicate Rig.arm_handle) (Returned (VNames dups))) evs /\
         py_index dups 0 = Ok dup /\
         evs = pre ++ [done (Delete dup)]) /\
    (forall e, fst run = Raise e ->
       forall ev, In ev evs -> is_delete (ev_cmd ev) && returned ev = false).
Proof.
  intros w run.
  apply (snap_deletes_proxy_when_it_returns Mock.host Rig.arm_handle
           "arm_L0_003_ikm" "armSettings_L0_001_ctl.blend" 1 w
           (snd run) (fst run)).
  apply surjective_pairing.
Defined.

(** C3 as stated fails: the IK handle control sits at the top of the scene,
    so the look-up of its parent yields an empty list; [snap] raises
    IndexError right after it has created the duplicate, and the duplicate
    is still a node of the scene. *)
Lemma snap_proxy_left_behind :
  let w := Mock.start (Rig.bent_arm None 0) in
  let run := snap Mock.host Rig.arm_handle "arm_L0_003_ikm"
                  "armSettings_L0_001_ctl.blend" 1 w in
  fst run = Raise IndexError /\
  Mock.names (scene Mock.host (snd run))
    = Mock.fresh_name Rig.arm_handle (Rig.bent_arm None 0)
      :: Mock.names (Rig.bent_arm None 0) /\
  ~ proxy_deleted_on_exit Mock.host Rig.arm_handle "arm_L0_003_ikm"
      "armSettings_L0_001_ctl.blend" 1 w.
Proof.
  intros w run.
  split; [vm_compute; reflexivity|].
  split; [vm_compute; reflexivity|].
  intros C.
  specialize (C (fst run) (snd run)
                [ done (SetAttr "armSettings_L0_001_ctl.blend" 1);
                  mkEv (Duplicate Rig.arm_handle)
                       (Returned (VNames [Mock.fresh_name Rig.arm_handle
                                            (Rig.bent_arm None 0)]));
                  mkEv (ListRelativesParent Rig.arm_handle)
                       (Returned (VNames [])) ]
                [Mock.fresh_name Rig.arm_handle (Rig.bent_arm None 0)]
                (Mock.fresh_name Rig.arm_handle (Rig.bent_arm None 0))).
  assert (X : In (done (Delete (Mock.fresh_name Rig.arm_handle
                                  (Rig.bent_arm None 0))))
                 [ done (SetAttr "armSettings_L0_001_ctl.blend" 1);
                   mkEv (Duplicate Rig.arm_handle)
                        (Returned (VNames [Mock.fresh_name Rig.arm_handle
                                             (Rig.bent_arm None 0)]));
                   mkEv (ListRelativesParent Rig.arm_handle)
                        (Returned (VNames [])) ]).
  { apply C.
    - apply surjective_pairing.
    - vm_compute. reflexivity.
    - right. left. reflexivity.
    - reflexivity. }
  simpl in X. destruct X as [X|[X|[X|[]]]]; discriminate X.
Qed.

(** ** ik_to_fk and fk_to_ik against an arbitrary host *)

(** The roll attribute and the blend attribute never share a name: the
    names end in different characters. *)
Lemma last_of_append (s t : string) (c d : ascii) :
  last_of (s ++ String c t) d = last_of t c.
Proof.
  revert d. induction s as [|x s IH]; intros d; simpl; [reflexivity|].
  apply IH.
Qed.

Lemma roll_is_not_blend (a b : string) :
  (a ++ ".ikRoll")%string <> (b ++ ".blend")%string.
Proof.
  intros Q. apply (f_equal (fun s => last_of s " "%char)) in Q.
  rewrite !last_of_append in Q. simpl in Q. discriminate Q.
Qed.

(** Walks the read of an attribute in the last scene back to the
    [setAttr] that fixed it, over every command that came after. *)
Ltac attr_walk L a :=
  repeat match goal with
         | X : exec ?H ?c ?s = (_, ?s') |- read_attr ?H a ?s' = _ =>
             first [ exact (attr_set_get H (attr_laws_hold H L) _ _ _ _ X)
                   | rewrite (attr_frame H (attr_laws_hold H L) c a s _ s'
                                eq_refl X)
                   | rewrite (attr_set_other H L _ a _ s _ s'
                                (fun Q => roll_is_not_blend _ _ (eq_sym Q)) X) ]
         end.

(** C10, as amended.  Every [ik_to_fk] call begins by reading the blend
    attribute.  When that read raises the call stops there and the roll of
    the handle is left as it was.  When it returns, the very next command,
    whatever [ik_rotation] and [key] are and before any transform is read
    or written, is [setAttr(ik_handle + ".ikRoll", 0.0)]; when that raises
    the call stops, and when it returns the roll reads 0 at the end of the
    call, however the call ends: nothing after it writes that attribute
    again (over a scene graph obeying [AttrFrameLaws]).  The outcomes
    logged are those the host gives. *)
Theorem ik_to_fk_resets_roll_first (H : Host) (fk_list ikm_list : list string)
  (ik_handle ik_pole ik_offset ik_ball blend_ctl : string)
  (ik_rotation key : bool) (w w' : World H) (r : Res unit) :
  AttrFrameLaws H ->
  ik_to_fk H fk_list ikm_list ik_handle ik_pole ik_offset ik_ball blend_ctl
           ik_rotation key w = (r, w') ->
  exists evs,
    emitted H w w' evs /\
    exists o rest,
      evs = mkEv (GetAttr (blend_ctl ++ ".blend")) o :: rest /\
      o = outcome_of (GetAttr (blend_ctl ++ ".blend"))
            (fst (exec H (GetAttr (blend_ctl ++ ".blend")) (scene H w))) /\
      (o = Raised ->
       rest = [] /\ r = Raise HostError /\
       read_attr H (ik_handle ++ ".ikRoll") (scene H w')
       = read_attr H (ik_handle ++ ".ikRoll") (scene H w)) /\
      (forall v, o = Returned v ->
         exists o2 rest',
           rest = mkEv (SetAttr (ik_handle ++ ".ikRoll") 0) o2 :: rest' /\
           o2 = outcome_of (SetAttr (ik_handle ++ ".ikRoll") 0)
                  (fst (exec H (SetAttr (ik_handle ++ ".ikRoll") 0)
                          (snd (exec H (GetAttr (blend_ctl ++ ".blend"))
                                     (scene H w))))) /\
           (o2 = Raised -> rest' = [] /\ r = Raise HostError) /\
           (o2 = Returned VNone ->
            read_attr H (ik_handle ++ ".ikRoll") (scene H w') = Some 0)).
Proof.
  intros L E. unfold ik_to_fk, snap in E.
  destruct ik_rotation, key, (py_in "leg" blend_ctl); unfold_run.
  all: run_all E; give_log; do 2 eexists; (split; [reflexivity|]).
  all: split; [reflexivity|].
  all: split;
    [ intros Ho; first [ discriminate Ho
                       | split; [reflexivity|]; split; [reflexivity|];
                         simpl; attr_walk L (ik_handle ++ ".ikRoll")%string;
                         reflexivity ]
    | intros v Ho; first [ discriminate Ho | idtac ] ].
  all: do 2 eexists; (split; [reflexivity|]).
  all: split;
    [ cbn [snd];
      match goal with
      | X : exec _ (SetAttr (_ ++ ".ikRoll") 0) _ = _ |- _ =>
          rewrite X; reflexivity
      end |].
  all: split;
    [ intros Q; first [discriminate Q | split; reflexivity]
    | intros Q; first [discriminate Q | idtac] ].
  all: tidy_units; simpl; attr_walk L (ik_handle ++ ".ikRoll")%string.
Qed.

(** C9.  On an arm (the name of the blend control does not contain "leg")
    a call with [key=True] never returns: the keyframing step looks up
    [ball_ik] (in [fk_to_ik]: [ball_fk]), which only the leg branch binds.
    The call raises UnboundLocalError exactly when it gets as far as that
    look-up, that is when the keyframe command before it has returned; a
    call stopped earlier raises the error that stopped it. *)
Theorem ball_variable_unbound_on_arm (H : Host)
  (fk_list fk_offset_list ikm_list : list string)
  (ik_handle ik_pole ik_offset ik_ball blend_ctl : string)
  (ik_rotation : bool) (w w1 w2 : World H) (r1 r2 : Res unit) :
  py_in "leg" blend_ctl = false ->
  ik_to_fk H fk_list ikm_list ik_handle ik_pole ik_offset ik_ball blend_ctl
           ik_rotation true w = (r1, w1) ->
  fk_to_ik H fk_list fk_offset_list ikm_list ik_ball blend_ctl true w
    = (r2, w2) ->
  (r1 <> Ok tt /\
   (latest H w1 = Some (done (SetKeyframe [ik_handle; ik_pole]))
    <-> r1 = Raise (UnboundLocalError "ball_ik"))) /\
  (r2 <> Ok tt /\
   (latest H w2 = Some (done (SetKeyframe fk_list))
    <-> r2 = Raise (UnboundLocalError "ball_fk"))).
Proof.
  intros Arm E1 E2. unfold latest. split.
  - clear E2. unfold ik_to_fk, snap in E1. rewrite Arm in E1.
    destruct ik_rotation; unfold_run.
    all: run_all E1; (split; [discriminate|]).
    all: split; intros Q;
      first [reflexivity | discriminate Q | simpl in Q; discriminate Q].
  - clear E1. unfold fk_to_ik, snap in E2. rewrite Arm in E2. unfold_run.
    run_all E2; (split; [discriminate|]).
    all: split; intros Q;
      first [reflexivity | discriminate Q | simpl in Q; discriminate Q].
Qed.

(** Walks the attribute read of the last scene back to the [setAttr] that
    fixed it, over commands that leave attributes alone. *)
Ltac attr_back L :=
  repeat match goal with
         | X : exec ?H ?c ?s = (_, ?s') |- read_attr ?H ?a ?s' = _ =>
             first [ exact (attr_set_get H L _ _ _ _ X)
                   | rewrite (attr_frame H L c a s _ s' eq_refl X) ]
         end.

Lemma snap_leaves_toggle_flipped (H : Host) (source target attr : string)
  (value : R) (w w' : World H) :
  AttrLaws H ->
  snap H source target attr value w = (Ok tt, w') ->
  read_attr H attr (scene H w') = Some (1 - value).
Proof.
  intros L E. unfold snap in E. unfold_run.
  run_all E. tidy_units. simpl. attr_back L.
Qed.

(** *** The toggle: restored, or the restore not reached *)

(** Spells out the commands of the script before the restore. *)
Ltac spell_transfers :=
  unfold not_restored, completed, ik_to_fk_transfers, fk_to_ik_transfers,
    handle_events, pole_events, ball_events, ball_snap_events,
    snap_log_of, snap_events, done;
  cbn [sr_dups sr_parents sr_dup sr_matrix
       ir_blend ir_fk0 ir_fk1 ir_fk2 ir_t1 ir_t2 ir_t3 ir_p1 ir_p2 ir_p3
       ir_limb ir_mid_world ir_pole ir_ikm2 ir_snap ir_ball_fk ir_ball_matrix
       fr_blend fr_fk0 fr_ikm0 fr_snap0 fr_fk1 fr_ikm1 fr_snap1
       fr_fk2 fr_ikm2 fr_snap2 fr_ball_fk fr_ball_ikm fr_ball_snap];
  repeat match goal with
         | T : py_in _ _ = _ |- _ => rewrite T
         end;
  cbn [app map filter returned ev_out ev_cmd].

(** Closes the leaves of a run that did get past the restore. *)
Ltac got_past Hn :=
  exfalso; apply Hn; tidy_units; unfold past_restore, not_stopped, latest;
  simpl;
  first [ left; left; reflexivity
        | left; right; eexists; reflexivity
        | right; eexists; reflexivity ].

(** Values for what a stopped run never got to read. *)
Ltac fill_reads :=
  first [ exact EmptyString | exact (mkM vzero vzero vzero vzero)
        | exact (@nil string) | exact (@nil R) | exact vzero | exact 0
        | exact (mkLimb 0 0 vzero vzero)
        | exact (mkSnapRead nil nil EmptyString
                            (mkM vzero vzero vzero vzero)) ].

Lemma ik_to_fk_stopped_early (H : Host) (fk_list ikm_list : list string)
  (ik_handle ik_pole ik_offset ik_ball blend_ctl : string)
  (ik_rotation key : bool) (w w' : World H) (r : Res unit) :
  ik_to_fk H fk_list ikm_list ik_handle ik_pole ik_offset ik_ball blend_ctl
           ik_rotation key w = (r, w') ->
  ~ past_restore H r w' ->
  exists evs,
    emitted H w w' evs /\
    exists x,
      not_restored evs (ik_to_fk_transfers ik_handle ik_pole ik_ball blend_ctl
                                           ik_rotation x).
Proof.
  intros E Hn. unfold ik_to_fk, snap in E.
  destruct ik_rotation, key, (py_in "leg" blend_ctl) eqn:Leg; unfold_run.
  all: run_all E; try (got_past Hn).
  all: give_log.
  all: eexists (mkIkToFkRead _ _ _ _ _ _ _ _ _ _ _ _ _ _ (mkSnapRead _ _ _ _) _ _).
  all: spell_transfers.
  all: match goal with
       | |- exists n, ?l = _ => exists (List.length l); reflexivity
       end.
  Unshelve. all: fill_reads.
Qed.

Lemma fk_to_ik_stopped_early (H : Host)
  (fk_list fk_offset_list ikm_list : list string)
  (ik_ball blend_ctl : string) (key : bool) (w w' : World H) (r : Res unit) :
  fk_to_ik H fk_list fk_offset_list ikm_list ik_ball blend_ctl key w
    = (r, w') ->
  ~ past_restore H r w' ->
  exists evs,
    emitted H w w' evs /\
    exists x, not_restored evs (fk_to_ik_transfers blend_ctl x).
Proof.
  intros E Hn. unfold fk_to_ik, snap in E.
  destruct key, (py_in "leg" blend_ctl) eqn:Leg; unfold_run.
  all: run_all E; try (got_past Hn).
  all: give_log.
  all: eexists (mkFkToIkRead _ _ _ (mkSnapRead _ _ _ _) _ _ (mkSnapRead _ _ _ _)
                             _ _ (mkSnapRead _ _ _ _) _ _ (mkSnapRead _ _ _ _)).
  all: spell_transfers.
  all: match goal with
       | |- exists n, ?l = _ => exists (List.length l); reflexivity
       end.
  Unshelve. all: fill_reads.
Qed.

(** Closes the leaves of a run that did not get past the restore. *)
Ltac stopped_early Hp :=
  let n := fresh in let l := fresh in
  destruct Hp as [[Hp|[n Hp]]|[l Hp]];
  [ discriminate Hp | discriminate Hp
  | unfold latest in Hp; simpl in Hp; discriminate Hp ].

Lemma ik_to_fk_keeps_toggle (H : Host) (fk_list ikm_list : list string)
  (ik_handle ik_pole ik_offset ik_ball blend_ctl : string)
  (ik_rotation key : bool) (w w' : World H) (r : Res unit) :
  AttrLaws H ->
  ik_to_fk H fk_list ikm_list ik_handle ik_pole ik_offset ik_ball blend_ctl
           ik_rotation key w = (r, w') ->
  past_restore H r w' ->
  toggle_kept H blend_ctl w w'.
Proof.
  intros L E Hp. unfold toggle_kept. unfold ik_to_fk, snap in E.
  destruct ik_rotation, key, (py_in "leg" blend_ctl); unfold_run.
  all: run_all E; try (stopped_early Hp).
  all: tidy_units; simpl.
  all: match goal with
       | X : exec _ (GetAttr _) (scene _ ?w0) = (Some ?b, _)
         |- _ = read_attr _ _ (scene _ ?w0) =>
           unfold read_attr at 2; rewrite X; simpl
       end.
  all: attr_back L.
Qed.

Lemma fk_to_ik_keeps_toggle (H : Host)
  (fk_list fk_offset_list ikm_list : list string)
  (ik_ball blend_ctl : string) (key : bool) (w w' : World H) (r : Res unit) :
  AttrLaws H ->
  fk_to_ik H fk_list fk_offset_list ikm_list ik_ball blend_ctl key w
    = (r, w') ->
  past_restore H r w' ->
  toggle_kept H blend_ctl w w'.
Proof.
  intros L E Hp. unfold toggle_kept. unfold fk_to_ik, snap in E.
  destruct key, (py_in "leg" blend_ctl); unfold_run.
  all: run_all E; try (stopped_early Hp).
  all: tidy_units; simpl.
  all: match goal with
       | X : exec _ (GetAttr _) (scene _ ?w0) = (Some ?b, _)
         |- _ = read_attr _ _ (scene _ ?w0) =>
           unfold read_attr at 2; rewrite X; simpl
       end.
  all: attr_back L.
Qed.

(** C4, as amended.  Over a scene graph obeying [AttrLaws]: a [snap] that
    returns leaves the toggle at [1 - value]; an [ik_to_fk] call that got
    past its restoring [setAttr] (it returns, or it is stopped only after
    it, by the unbound ball variable or by a keyframe command that raises)
    leaves the blend toggle reading what it read before the call, and in a
    call stopped earlier nothing has completed but commands that precede
    the restore; and so, on its own account, for an [fk_to_ik] call. *)
Theorem toggle_restored_unless_stopped_early (H : Host)
  (fk_list fk_offset_list ikm_list : list string)
  (ik_handle ik_pole ik_offset ik_ball blend_ctl source target attr : string)
  (value : R) (ik_rotation key : bool) (w w0 w1 w2 : World H)
  (r1 r2 : Res unit) :
  AttrLaws H ->
  (snap H source target attr value w = (Ok tt, w0) ->
   read_attr H attr (scene H w0) = Some (1 - value)) /\
  (ik_to_fk H fk_list ikm_list ik_handle ik_pole ik_offset ik_ball blend_ctl
            ik_rotation key w = (r1, w1) ->
   (past_restore H r1 w1 -> toggle_kept H blend_ctl w w1) /\
   (~ past_restore H r1 w1 ->
    exists evs,
      emitted H w w1 evs /\
      exists x,
        not_restored evs (ik_to_fk_transfers ik_handle ik_pole ik_ball
                                             blend_ctl ik_rotation x))) /\
  (fk_to_ik H fk_list fk_offset_list ikm_list ik_ball blend_ctl key w
     = (r2, w2) ->
   (past_restore H r2 w2 -> toggle_kept H blend_ctl w w2) /\
   (~ past_restore H r2 w2 ->
    exists evs,
      emitted H w w2 evs /\
      exists y, not_restored evs (fk_to_ik_transfers blend_ctl y))).
Proof.
  intros L.
  split; [intros E0; eapply snap_leaves_toggle_flipped; eassumption|].
  split.
  - intros E1. split.
    + intros Hp. eapply ik_to_fk_keeps_toggle; eassumption.
    + intros Hn. eapply ik_to_fk_stopped_early; eassumption.
  - intros E2. split.
    + intros Hp. eapply fk_to_ik_keeps_toggle; eassumption.
    + intros Hn. eapply fk_to_ik_stopped_early; eassumption.
Qed.

Lemma ik_to_fk_counts (ik_handle ik_pole ik_ball blend_ctl : string)
  (ik_rotation key : bool) (x : IkToFkRead) :
  let evs := ik_to_fk_events ik_handle ik_pole ik_ball blend_ctl
                             ik_rotation key x in
  count_cmd is_transfer evs = 1%nat /\
  count_cmd is_move_rel evs = 1%nat /\
  count_cmd is_matrix_write evs
  = ((if ik_rotation then 1 else 0) + 1
     + (if py_in "leg" blend_ctl then 1 else 0))%nat.
Proof.
  unfold ik_to_fk_events, handle_events, pole_events, ball_events,
    ball_key_events, key_events, snap_log_of, snap_events.
  destruct ik_rotation, key, (py_in "leg" blend_ctl), (truthy ik_ball);
    repeat split; reflexivity.
Qed.

Lemma fk_to_ik_counts (fk_list : list string) (blend_ctl : string)
  (key : bool) (x : FkToIkRead) :
  let evs := fk_to_ik_events fk_list blend_ctl key x in
  count_cmd is_transfer evs
  = (if py_in "leg" blend_ctl then 4 else 3)%nat /\
  count_cmd is_move_rel evs = 0%nat.
Proof.
  unfold fk_to_ik_events, ball_snap_events, ball_key_events, key_events,
    snap_log_of, snap_events.
  destruct key, (py_in "leg" blend_ctl), (truthy (fr_ball_fk x));
    repeat split; reflexivity.
Qed.

(** C8, as amended.  An [ik_to_fk] call that is not stopped by an error of
    the host or of an index logs exactly the events of [ik_to_fk_events],
    and an [fk_to_ik] call that is not stopped exactly those of
    [fk_to_ik_events], each on its own account: the ball step (in
    [ik_to_fk] the matrix of the last FK control written onto the ball IK
    control, in [fk_to_ik] a fourth snap) is part of the log if and only if
    the name of the blend control contains "leg".  On an arm [fk_to_ik]
    makes exactly three transfers and places no pole; [ik_to_fk] makes one
    transfer, onto the IK handle, and places the pole once. *)
Theorem ball_step_only_on_leg (H : Host)
  (fk_list fk_offset_list ikm_list : list string)
  (ik_handle ik_pole ik_offset ik_ball blend_ctl : string)
  (ik_rotation key : bool) (w w1 w2 : World H) (r1 r2 : Res unit) :
  (ik_to_fk H fk_list ikm_list ik_handle ik_pole ik_offset ik_ball blend_ctl
            ik_rotation key w = (r1, w1) ->
   not_stopped r1 ->
   exists x,
     let evs1 := ik_to_fk_events ik_handle ik_pole ik_ball blend_ctl
                                 ik_rotation key x in
     ik_to_fk_read_ok H fk_list ikm_list blend_ctl ik_rotation x /\
     emitted H w w1 evs1 /\
     count_cmd is_matrix_write evs1
     = ((if ik_rotation then 1 else 0) + 1
        + (if py_in "leg" blend_ctl then 1 else 0))%nat /\
     count_cmd is_transfer evs1 = 1%nat /\
     count_cmd is_move_rel evs1 = 1%nat) /\
  (fk_to_ik H fk_list fk_offset_list ikm_list ik_ball blend_ctl key w
     = (r2, w2) ->
   not_stopped r2 ->
   exists y,
     let evs2 := fk_to_ik_events fk_list blend_ctl key y in
     fk_to_ik_read_ok fk_list ikm_list blend_ctl y /\
     emitted H w w2 evs2 /\
     count_cmd is_transfer evs2
     = (if py_in "leg" blend_ctl then 4 else 3)%nat /\
     count_cmd is_move_rel evs2 = 0%nat).
Proof.
  split.
  - intros E1 Hr1.
    destruct (ik_to_fk_done H _ _ _ _ _ _ _ _ _ _ _ _ E1 Hr1)
      as (x & Hx & Hem1).
    exists x.
    destruct (ik_to_fk_counts ik_handle ik_pole ik_ball blend_ctl
                              ik_rotation key x) as (C1 & C2 & C3).
    cbv zeta. split; [exact Hx|]. split; [exact Hem1|].
    split; [exact C3|]. split; [exact C1|exact C2].
  - intros E2 Hr2.
    destruct (fk_to_ik_done H _ _ _ _ _ _ _ _ _ E2 Hr2) as (y & Hy & Hem2).
    exists y.
    destruct (fk_to_ik_counts fk_list blend_ctl key y) as (C4 & C5).
    cbv zeta. split; [exact Hy|]. split; [exact Hem2|].
    split; [exact C4|exact C5].
Qed.


(** ** Runs on the example rigs *)

(** Evaluates a run on the mock up to the next piece of real arithmetic. *)
Ltac mock_eval :=
  lazy -[limb_vectors pole_y Rplus Rminus Rmult Rinv Rdiv Ropp IZR sqrt
         vadd vscale vsub vlength vdot vmulM total_length
         example_limb example_pole straight_limb];
  repeat match goal with
         | |- context [limb_vectors ?h ?a ?b ?c] =>
             progress change (limb_vectors h a b c)
               with (limb_vectors Mock.host a b c)
         | |- context [pole_y ?h ?a ?b ?c ?d] =>
             progress change (pole_y h a b c d)
               with (pole_y Mock.host a b c d)
         end.

(** A run over the chain of the worked example. *)
Ltac bent_arm_run :=
  unfold ik_to_fk; mock_eval;
  rewrite (example_limb_vectors Mock.host); mock_eval;
  rewrite (example_pole_y Mock.host); mock_eval.

Lemma bent_arm_ik_to_fk_returns :
  fst (ik_to_fk Mock.host Rig.arm_fk Rig.arm_ikm Rig.arm_handle Rig.arm_pole
         Rig.arm_offset "" Rig.arm_blend true false
         (Mock.start (Rig.bent_arm (Some "rig") 0))) = Ok tt.
Proof. bent_arm_run. reflexivity. Qed.

Lemma bent_arm_ik_to_fk_keyed :
  fst (ik_to_fk Mock.host Rig.arm_fk Rig.arm_ikm Rig.arm_handle Rig.arm_pole
         Rig.arm_offset "" Rig.arm_blend true true
         (Mock.start (Rig.bent_arm (Some "rig") 0)))
  = Raise (UnboundLocalError "ball_ik").
Proof. bent_arm_run. reflexivity. Qed.

Lemma bent_arm_fk_to_ik_returns :
  fst (fk_to_ik Mock.host Rig.arm_fk [] Rig.arm_ikm "" Rig.arm_blend false
         (Mock.start (Rig.bent_arm (Some "rig") 0))) = Ok tt.
Proof. vm_compute. reflexivity. Qed.

Lemma bent_arm_fk_to_ik_keyed :
  fst (fk_to_ik Mock.host Rig.arm_fk [] Rig.arm_ikm "" Rig.arm_blend true
         (Mock.start (Rig.bent_arm (Some "rig") 0)))
  = Raise (UnboundLocalError "ball_fk").
Proof. vm_compute. reflexivity. Qed.

Lemma bent_arm_snap_returns :
  fst (snap Mock.host Rig.arm_handle "arm_L0_003_ikm"
         "armSettings_L0_001_ctl.blend" 1
         (Mock.start (Rig.bent_arm (Some "rig") 0))) = Ok tt.
Proof. vm_compute. reflexivity. Qed.

Lemma leg_ik_to_fk_returns :
  fst (ik_to_fk Mock.host Rig.leg_fk Rig.leg_ikm Rig.leg_handle Rig.leg_pole
         Rig.leg_offset Rig.leg_ball Rig.leg_blend true true
         (Mock.start (Rig.leg 0))) = Ok tt.
Proof. bent_arm_run. reflexivity. Qed.

Lemma leg_fk_to_ik_returns :
  fst (fk_to_ik Mock.host Rig.leg_fk [] Rig.leg_ikm Rig.leg_ball
         Rig.leg_blend true (Mock.start (Rig.leg 0))) = Ok tt.
Proof. vm_compute. reflexivity. Qed.

Lemma straight_arm_ik_to_fk :
  let run := ik_to_fk Mock.host Rig.arm_fk Rig.arm_ikm Rig.arm_handle
               Rig.arm_pole Rig.arm_offset "" Rig.arm_blend false false
               (Mock.start (Rig.straight_arm 0)) in
  fst run = Ok tt /\
  In (done (MoveRel Rig.arm_pole
              (vscale (mkV 0 0 1) (total_length straight_limb))))
     (log Mock.host (snd run)).
Proof.
  unfold ik_to_fk; mock_eval.
  rewrite (straight_limb_vectors Mock.host); mock_eval.
  rewrite (straight_pole_y Mock.host); mock_eval.
  split; [reflexivity|].
  repeat (first [left; reflexivity | right]).
Qed.

(** ** The pole vector: branches, direction, length and plane *)

Lemma pole_offset_of (H : Host) (p1 p2 p3 pole : MVector) (l : Limb)
  (m : Matrix) :
  limb_vectors H p1 p2 p3 = Ok l ->
  pole_y H p1 p2 l m = Ok pole ->
  pole_offset H p1 p2 p3 m = Ok (vscale pole (total_length l)).
Proof. intros E P. unfold pole_offset. rewrite E. simpl. rewrite P. reflexivity. Qed.

Lemma vsub_vadd (a b : MVector) : vsub (vadd a b) a = b.
Proof. unfold vsub, vadd; simpl. apply vector_eq; simpl; ring. Qed.

(** C1, as amended.  In an [ik_to_fk] call that is not stopped by an error,
    whenever the upper segment has a length and the cosine between the
    upper-segment direction and the root-to-end direction is at most 0.998,
    the general branch is taken: [goal_project] is
    [rootPos + rootGoalNorm * upperLength * cosAngle], the pole direction is
    [normalize(midPos - goalProjection)], and the pole control gets the
    world matrix of the mid control, is moved by
    [poleDirection * totalLength] in world space and has its rotation set
    to zero ([pole_events]).  The worked example root (0,0,0), mid (1,0,0),
    end (2,1,0) gives upperLength 1, cosAngle 2/sqrt 5, the general branch,
    goalProjection (4/5, 2/5, 0) and the direction
    normalize((1/5, -2/5, 0)). *)
Theorem pole_general_case (H : Host) (fk_list ikm_list : list string)
  (ik_handle ik_pole ik_offset ik_ball blend_ctl : string)
  (ik_rotation key : bool) (w w' : World H) (r : Res unit) :
  ik_to_fk H fk_list ikm_list ik_handle ik_pole ik_offset ik_ball blend_ctl
           ik_rotation key w = (r, w') ->
  not_stopped r ->
  (exists x,
     ik_to_fk_read_ok H fk_list ikm_list blend_ctl ik_rotation x /\
     emitted H w w'
       (ik_to_fk_events ik_handle ik_pole ik_ball blend_ctl ik_rotation key x)
     /\
     (vlength (vsub (ir_p2 x) (ir_p1 x)) <> 0 ->
      upper_goal_angle (ir_limb x) <= 0.998 ->
      normal H (vsub (ir_p3 x) (ir_p1 x)) = Ok (root_goal_norm (ir_limb x)) /\
      root_mid_norm (ir_limb x)
      = vscale (vsub (ir_p2 x) (ir_p1 x))
               (/ vlength (vsub (ir_p2 x) (ir_p1 x))) /\
      upper_length (ir_limb x) = vlength (vsub (ir_p2 x) (ir_p1 x)) /\
      total_length (ir_limb x)
      = vlength (vsub (ir_p2 x) (ir_p1 x))
        + vlength (vsub (ir_p3 x) (ir_p2 x)) /\
      normal H (vsub (ir_p2 x) (goal_project (ir_p1 x) (ir_limb x)))
      = Ok (ir_pole x))) /\
  (limb_vectors H (mkV 0 0 0) (mkV 1 0 0) (mkV 2 1 0) = Ok example_limb /\
   upper_goal_angle example_limb = 2 / sqrt 5 /\
   upper_goal_angle example_limb <= 0.998 /\
   goal_project (mkV 0 0 0) example_limb = mkV (4 / 5) (2 / 5) 0 /\
   forall m,
     pole_y H (mkV 0 0 0) (mkV 1 0 0) example_limb m = Ok example_pole).
Proof.
  intros E Hr. split.
  - destruct (ik_to_fk_done H _ _ _ _ _ _ _ _ _ _ _ _ E Hr) as (x & Hx & Hem).
    exists x. split; [exact Hx|]. split; [exact Hem|].
    intros U A.
    destruct Hx as (_ & _ & _ & _ & _ & _ & HL & HP & _).
    destruct (limb_vectors_inv H _ _ _ _ HL) as (N & D & UL & TL).
    rewrite vdiv_nonzero in D by exact U. inversion D as [D'].
    rewrite pole_y_general in HP by exact A.
    repeat split; assumption.
  - split; [apply example_limb_vectors|].
    split; [apply example_angle|].
    split; [apply example_angle_general|].
    split; [apply example_goal_project|].
    apply example_pole_y.
Qed.

(** C1 as stated fails on its worked example: the code's goalProjection is
    (4/5, 2/5, 0), not the printed (0.894, 0.447, 0), which is
    rootGoalNorm without the factor cosAngle. *)
Lemma worked_example_goal_projection :
  limb_vectors Mock.host (mkV 0 0 0) (mkV 1 0 0) (mkV 2 1 0)
    = Ok example_limb /\
  goal_project (mkV 0 0 0) example_limb = mkV (4 / 5) (2 / 5) 0 /\
  ~ worked_example_as_printed Mock.host.
Proof.
  split; [apply example_limb_vectors|].
  split; [apply example_goal_project|].
  intros (l & E & _ & _ & X & _).
  rewrite (example_limb_vectors Mock.host) in E. inversion E; subst l.
  rewrite example_goal_project in X.
  unfold close3 in X. simpl in X.
  unfold Rabs in X. destruct (Rcase_abs _); lra.
Qed.

Lemma coincident_end_offset (H : Host) (p1 p2 : MVector) (m : Matrix) :
  p1 <> p2 ->
  exists l,
    limb_vectors H p1 p2 p2 = Ok l /\
    upper_goal_angle l = 1 /\
    pole_offset H p1 p2 p2 m
    = Ok (vscale (axis_y m) (vlength (vsub p2 p1))).
Proof.
  intros N.
  destruct (coincident_end H p1 p2 N) as (l & E & A & _ & T).
  exists l. split; [exact E|]. split; [exact A|].
  rewrite <- T. apply pole_offset_of; [exact E|].
  apply pole_y_straight. rewrite A. lra.
Qed.

(** C5, as amended.  Nothing checks for a segment of length zero.  With the
    end joint on the mid joint (and the root elsewhere) the computation
    raises no error: the cosine is 1, the near-straight branch is taken and
    the offset is the Y axis of the mid control scaled by the upper length.
    With the mid joint on the root joint the code divides [root_mid] by the
    zero [upper_length] as it stands, and the outcome is whatever the host's
    vector type makes of a division by zero. *)
Theorem zero_length_segment_not_checked (H : Host) (p1 p2 p3 : MVector)
  (m : Matrix) :
  p1 <> p2 ->
  (exists l,
     limb_vectors H p1 p2 p2 = Ok l /\
     upper_goal_angle l = 1 /\
     pole_offset H p1 p2 p2 m
     = Ok (vscale (axis_y m) (vlength (vsub p2 p1)))) /\
  limb_vectors H p1 p1 p3
  = res_bind (normal H (vsub p3 p1)) (fun rgn =>
    res_bind (of_host (div_zero H (vsub p1 p1))) (fun rmn =>
    Ok (mkLimb (vlength (vsub p1 p1))
               (vlength (vsub p1 p1) + vlength (vsub p3 p1)) rgn rmn))).
Proof.
  intros N. split.
  - apply coincident_end_offset. exact N.
  - unfold limb_vectors, vdiv.
    assert (Z : vlength (vsub p1 p1) = 0)
      by (rewrite segment_length_zero; reflexivity).
    destruct (Req_dec_T (vlength (vsub p1 p1)) 0); [reflexivity | contradiction].
Qed.

Lemma zero_length_segment_not_checked_witness :
  mkV 0 0 0 <> mkV 1 0 0 /\
  exists l,
    limb_vectors Mock.host (mkV 0 0 0) (mkV 1 0 0) (mkV 1 0 0) = Ok l /\
    upper_goal_angle l = 1 /\
    pole_offset Mock.host (mkV 0 0 0) (mkV 1 0 0) (mkV 1 0 0)
                (Rig.at_pos (mkV 1 0 0))
    = Ok (vscale (axis_y (Rig.at_pos (mkV 1 0 0)))
                 (vlength (vsub (mkV 1 0 0) (mkV 0 0 0)))).
Proof.
  assert (N : mkV 0 0 0 <> mkV 1 0 0).
  { intros Q. apply (f_equal vx) in Q. simpl in Q. lra. }
  split; [exact N|].
  exact (proj1 (zero_length_segment_not_checked Mock.host (mkV 0 0 0)
                  (mkV 1 0 0) (mkV 0 0 0) (Rig.at_pos (mkV 1 0 0)) N)).
Defined.

(** C5 as stated fails: with the end joint on the mid joint the
    computation returns an offset. *)
Lemma coincident_end_returns :
  pole_offset Mock.host (mkV 0 0 0) (mkV 1 0 0) (mkV 1 0 0)
              (Rig.at_pos (mkV 1 0 0))
  = Ok (vscale (mkV 0 1 0) (vlength (vsub (mkV 1 0 0) (mkV 0 0 0)))) /\
  ~ degenerate_chain_raises Mock.host (mkV 0 0 0) (mkV 1 0 0) (mkV 1 0 0)
      (Rig.at_pos (mkV 1 0 0)).
Proof.
  assert (N : mkV 0 0 0 <> mkV 1 0 0).
  { intros Q. apply (f_equal vx) in Q. simpl in Q. lra. }
  destruct (coincident_end_offset Mock.host (mkV 0 0 0) (mkV 1 0 0)
              (Rig.at_pos (mkV 1 0 0)) N) as (l & _ & _ & P).
  split; [exact P|].
  intros C. destruct (C (or_intror eq_refl)) as (e & Q).
  rewrite P in Q. discriminate Q.
Qed.

(** C6, as amended.  In an [ik_to_fk] call that is not stopped by an error,
    whenever the cosine exceeds 0.998 the pole direction is the fixed axis
    (0,1,0), never negated ([negate] is the constant 1, whatever the side of
    the limb), turned by the world matrix read from [fk_list[1]], the mid
    control; that is the Y row of this matrix.  The projection takes no
    part. *)
Theorem near_straight_axis_of_mid_control (H : Host)
  (fk_list ikm_list : list string)
  (ik_handle ik_pole ik_offset ik_ball blend_ctl : string)
  (ik_rotation key : bool) (w w' : World H) (r : Res unit) :
  ik_to_fk H fk_list ikm_list ik_handle ik_pole ik_offset ik_ball blend_ctl
           ik_rotation key w = (r, w') ->
  not_stopped r ->
  exists x,
    ik_to_fk_read_ok H fk_list ikm_list blend_ctl ik_rotation x /\
    emitted H w w'
      (ik_to_fk_events ik_handle ik_pole ik_ball blend_ctl ik_rotation key x)
    /\
    py_index fk_list 1 = Ok (ir_fk1 x) /\
    (upper_goal_angle (ir_limb x) > 0.998 ->
     ir_pole x = vmulM (mkV 0 1 0) (ir_mid_world x) /\
     ir_pole x = axis_y (ir_mid_world x)).
Proof.
  intros E Hr.
  destruct (ik_to_fk_done H _ _ _ _ _ _ _ _ _ _ _ _ E Hr) as (x & Hx & Hem).
  exists x. split; [exact Hx|]. split; [exact Hem|].
  destruct Hx as (_ & F1 & _ & _ & _ & _ & _ & HP & _).
  split; [exact F1|].
  intros A. rewrite pole_y_straight in HP by exact A.
  inversion HP as [HP']. split; [|reflexivity].
  unfold vmulM, vadd, vscale; simpl.
  destruct (axis_y (ir_mid_world x)), (axis_x (ir_mid_world x)),
    (axis_z (ir_mid_world x)); simpl.
  f_equal; ring.
Qed.

(** C6 as stated fails: on a fully extended arm whose elbow control is
    turned a quarter about X while the shoulder control is not, the pole is
    moved along (0,0,1), the Y row of the elbow's matrix, and not along the
    axis turned by the shoulder's matrix, which is (0,1,0). *)
Lemma near_straight_axis_is_not_the_roots :
  let run := ik_to_fk Mock.host Rig.arm_fk Rig.arm_ikm Rig.arm_handle
               Rig.arm_pole Rig.arm_offset "" Rig.arm_blend false false
               (Mock.start (Rig.straight_arm 0)) in
  fst run = Ok tt /\
  world_matrix Mock.host "shoulderFk_L0_001_ctl" (Rig.straight_arm 0)
    = Some (Rig.at_pos (mkV 0 0 0)) /\
  world_matrix Mock.host "elbowFk_L0_001_ctl" (Rig.straight_arm 0)
    = Some (Rig.turned_at (mkV 1 0 0)) /\
  upper_goal_angle straight_limb > 0.998 /\
  In (done (MoveRel Rig.arm_pole
              (vscale (mkV 0 0 1) (total_length straight_limb))))
     (log Mock.host (snd run)) /\
  mkV 0 0 1 <> axis_by_root (Rig.at_pos (mkV 0 0 0)) Rig.arm_handle.
Proof.
  intros run.
  destruct straight_arm_ik_to_fk as [R M].
  split; [exact R|].
  split; [reflexivity|]. split; [reflexivity|].
  split; [rewrite straight_angle; lra|].
  split; [exact M|].
  intros Q. apply (f_equal vz) in Q.
  unfold axis_by_root in Q. simpl in Q. lra.
Qed.

(** C7, as amended.  An [ik_to_fk] call that is not stopped by an error
    moves the pole control, which it has given the world matrix of the mid
    control, by [pole_offset]: the pole direction scaled by
    [total_length], the sum of the lengths of the two segments.  In the
    general branch the direction is the host's [normal()] of
    [midPos - goalProjection], which is computed from the three joint
    positions alone; in the near-straight branch it is the Y row of the mid
    control's world matrix, which comes from the orientation of that
    control and not from the joints. *)
Theorem pole_offset_by_branch (H : Host) (fk_list ikm_list : list string)
  (ik_handle ik_pole ik_offset ik_ball blend_ctl : string)
  (ik_rotation key : bool) (w w' : World H) (r : Res unit)
  (p1 p2 p3 : MVector) (l : Limb) (m : Matrix) :
  (ik_to_fk H fk_list ikm_list ik_handle ik_pole ik_offset ik_ball blend_ctl
            ik_rotation key w = (r, w') ->
   not_stopped r ->
   exists x,
     ik_to_fk_read_ok H fk_list ikm_list blend_ctl ik_rotation x /\
     emitted H w w'
       (ik_to_fk_events ik_handle ik_pole ik_ball blend_ctl ik_rotation key x)
     /\
     pole_offset H (ir_p1 x) (ir_p2 x) (ir_p3 x) (ir_mid_world x)
     = Ok (vscale (ir_pole x) (total_length (ir_limb x))) /\
     In (done (XformSetM ik_pole (ir_mid_world x)))
        (ik_to_fk_events ik_handle ik_pole ik_ball blend_ctl ik_rotation
                         key x) /\
     In (done (MoveRel ik_pole
                 (vscale (ir_pole x) (total_length (ir_limb x)))))
        (ik_to_fk_events ik_handle ik_pole ik_ball blend_ctl ik_rotation
                         key x) /\
     (upper_goal_angle (ir_limb x) <= 0.998 ->
      normal H (vsub (ir_p2 x) (goal_project (ir_p1 x) (ir_limb x)))
      = Ok (ir_pole x)) /\
     (upper_goal_angle (ir_limb x) > 0.998 ->
      ir_pole x = axis_y (ir_mid_world x))) /\
  (limb_vectors H p1 p2 p3 = Ok l ->
   total_length l = vlength (vsub p2 p1) + vlength (vsub p3 p2) /\
   (upper_goal_angle l <= 0.998 ->
    pole_offset H p1 p2 p3 m
    = res_bind (normal H (vsub p2 (goal_project p1 l)))
               (fun d => Ok (vscale d (total_length l)))) /\
   (upper_goal_angle l > 0.998 ->
    pole_offset H p1 p2 p3 m = Ok (vscale (axis_y m) (total_length l)))).
Proof.
  split.
  - intros E Hr.
    destruct (ik_to_fk_done H _ _ _ _ _ _ _ _ _ _ _ _ E Hr) as (x & Hx & Hem).
    exists x. split; [exact Hx|]. split; [exact Hem|].
    destruct Hx as (_ & _ & _ & _ & _ & _ & HL & HP & _).
    split; [apply pole_offset_of; assumption|].
    unfold ik_to_fk_events, pole_events.
    split; [|split; [|split]].
    + apply in_or_app; right; apply in_or_app; right;
        apply in_or_app; left; simpl; tauto.
    + apply in_or_app; right; apply in_or_app; right;
        apply in_or_app; left; simpl; tauto.
    + intros A. rewrite pole_y_general in HP by exact A. exact HP.
    + intros A. rewrite pole_y_straight in HP by exact A.
      inversion HP. reflexivity.
  - intros E.
    destruct (limb_vectors_inv H _ _ _ _ E) as (_ & _ & _ & TL).
    split; [exact TL|].
    split; intros A; unfold pole_offset; rewrite E; simpl.
    + rewrite pole_y_general by exact A. reflexivity.
    + rewrite pole_y_straight by exact A. reflexivity.
Qed.

(** C7 as stated fails in the near-straight branch: root (0,0,0),
    mid (506,0,0), end (1012,45,0) has cosine 1012/1013 and lies in the
    plane z = 0; with the mid control turned a quarter about X the pole is
    moved along (0,0,1), out of that plane. *)
Lemma near_straight_pole_leaves_plane :
  limb_vectors Mock.host (mkV 0 0 0) (mkV 506 0 0) (mkV 1012 45 0)
    = Ok long_limb /\
  upper_goal_angle long_limb > 0.998 /\
  pole_offset Mock.host (mkV 0 0 0) (mkV 506 0 0) (mkV 1012 45 0)
              (Rig.turned_at (mkV 506 0 0))
    = Ok (vscale (mkV 0 0 1) (total_length long_limb)) /\
  ~ pole_at_length_in_plane (mkV 0 0 0) (mkV 506 0 0) (mkV 1012 45 0)
      (vscale (mkV 0 0 1) (total_length long_limb))
      (total_length long_limb).
Proof.
  pose proof (long_limb_vectors Mock.host) as E.
  split; [exact E|].
  split; [rewrite long_angle; lra|].
  split.
  - apply (pole_offset_of Mock.host _ _ _ _ _ _ E).
    apply (long_pole_y Mock.host (Rig.turned_at (mkV 506 0 0))).
  - intros [_ C]. unfold coplanar in C. rewrite vsub_vadd in C.
    assert (T : 506 <= total_length long_limb).
    { simpl. pose proof (vlength_nonneg (vsub (mkV 1012 45 0) (mkV 506 0 0))).
      lra. }
    unfold vdot, vcross, vsub, vscale in C. simpl in C.
    set (t := 506 + vlength _) in *. simpl in T. fold t in T.
    nra.
Qed.

(** ** The theorems at work on the example rigs *)

Lemma pair_of_fst {A B} (p : A * B) (a : A) : fst p = a -> p = (a, snd p).
Proof. intros <-. apply surjective_pairing. Qed.

Lemma returns_not_stopped (r : Res unit) : r = Ok tt -> not_stopped r.
Proof. intros ->. left. reflexivity. Qed.

Lemma bent_arm_ik_to_fk_transfers :
  count_cmd is_transfer
    (log Mock.host
       (snd (ik_to_fk Mock.host Rig.arm_fk Rig.arm_ikm Rig.arm_handle
               Rig.arm_pole Rig.arm_offset "" Rig.arm_blend true false
               (Mock.start (Rig.bent_arm (Some "rig") 0))))) = 1%nat.
Proof. bent_arm_run. reflexivity. Qed.

Lemma pole_general_case_witness :
  let w := Mock.start (Rig.bent_arm (Some "rig") 0) in
  let run := ik_to_fk Mock.host Rig.arm_fk Rig.arm_ikm Rig.arm_handle
               Rig.arm_pole Rig.arm_offset "" Rig.arm_blend true false w in
  not_stopped (fst run) /\
  exists x,
    ik_to_fk_read_ok Mock.host Rig.arm_fk Rig.arm_ikm Rig.arm_blend true x /\
    emitted Mock.host w (snd run)
      (ik_to_fk_events Rig.arm_handle Rig.arm_pole "" Rig.arm_blend
                       true false x) /\
    (vlength (vsub (ir_p2 x) (ir_p1 x)) <> 0 ->
     upper_goal_angle (ir_limb x) <= 0.998 ->
     normal Mock.host (vsub (ir_p3 x) (ir_p1 x))
     = Ok (root_goal_norm (ir_limb x)) /\
     root_mid_norm (ir_limb x)
     = vscale (vsub (ir_p2 x) (ir_p1 x))
              (/ vlength (vsub (ir_p2 x) (ir_p1 x))) /\
     upper_length (ir_limb x) = vlength (vsub (ir_p2 x) (ir_p1 x)) /\
     total_length (ir_limb x)
     = vlength (vsub (ir_p2 x) (ir_p1 x))
       + vlength (vsub (ir_p3 x) (ir_p2 x)) /\
     normal Mock.host (vsub (ir_p2 x) (goal_project (ir_p1 x) (ir_limb x)))
     = Ok (ir_pole x)).
Proof.
  intros w run.
  assert (N : not_stopped (fst run))
    by (apply returns_not_stopped, bent_arm_ik_to_fk_returns).
  split; [exact N|].
  exact (proj1 (pole_general_case Mock.host Rig.arm_fk Rig.arm_ikm
                  Rig.arm_handle Rig.arm_pole Rig.arm_offset ""
                  Rig.arm_blend true false w (snd run) (fst run)
                  (surjective_pairing run) N)).
Defined.

Lemma near_straight_axis_of_mid_control_witness :
  let w := Mock.start (Rig.straight_arm 0) in
  let run := ik_to_fk Mock.host Rig.arm_fk Rig.arm_ikm Rig.arm_handle
               Rig.arm_pole Rig.arm_offset "" Rig.arm_blend false false w in
  not_stopped (fst run) /\
  exists x,
    ik_to_fk_read_ok Mock.host Rig.arm_fk Rig.arm_ikm Rig.arm_blend false x /\
    emitted Mock.host w (snd run)
      (ik_to_fk_events Rig.arm_handle Rig.arm_pole "" Rig.arm_blend
                       false false x) /\
    py_index Rig.arm_fk 1 = Ok (ir_fk1 x) /\
    (upper_goal_angle (ir_limb x) > 0.998 ->
     ir_pole x = vmulM (mkV 0 1 0) (ir_mid_world x) /\
     ir_pole x = axis_y (ir_mid_world x)).
Proof.
  intros w run.
  assert (N : not_stopped (fst run))
    by (apply returns_not_stopped, (proj1 straight_arm_ik_to_fk)).
  split; [exact N|].
  exact (near_straight_axis_of_mid_control Mock.host Rig.arm_fk Rig.arm_ikm
           Rig.arm_handle Rig.arm_pole Rig.arm_offset "" Rig.arm_blend
           false false w (snd run) (fst run) (surjective_pairing run) N).
Defined.

(** The mocked scene graph keeps the attributes a [setAttr] does not
    name. *)
Lemma mock_attr_frame_laws : AttrFrameLaws Mock.host.
Proof.
  split; [exact MockFacts.attr_laws|].
  intros a b v s o s' N E. unfold read_attr; simpl. simpl in E.
  destruct (Mock.find a (Mock.attrs s)); inversion E; subst; [|reflexivity].
  simpl. rewrite MockFacts.find_update_other by exact N. reflexivity.
Qed.

(** Runs from a toggle at one half, where setting it back shows. *)
Lemma half_blend_snap :
  let run := snap Mock.host Rig.arm_handle "arm_L0_003_ikm"
                  "armSettings_L0_001_ctl.blend" 1
                  (Mock.start (Rig.bent_arm (Some "rig") (1 / 2))) in
  fst run = Ok tt /\
  read_attr Mock.host "armSettings_L0_001_ctl.blend"
            (scene Mock.host (snd run)) = Some (1 - 1).
Proof. split; vm_compute; reflexivity. Qed.

Lemma half_blend_ik_to_fk :
  let run := ik_to_fk Mock.host Rig.arm_fk Rig.arm_ikm Rig.arm_handle
               Rig.arm_pole Rig.arm_offset "" Rig.arm_blend true false
               (Mock.start (Rig.bent_arm (Some "rig") (1 / 2))) in
  fst run = Ok tt /\
  In (done (SetAttr "armSettings_L0_001_ctl.blend" (1 - 1)))
     (log Mock.host (snd run)) /\
  read_attr Mock.host "armSettings_L0_001_ctl.blend"
            (scene Mock.host (snd run)) = Some (1 / 2).
Proof.
  bent_arm_run. split; [reflexivity|]. split; [|reflexivity].
  repeat (first [left; reflexivity | right]).
Qed.

Lemma half_blend_fk_to_ik :
  let run := fk_to_ik Mock.host Rig.arm_fk [] Rig.arm_ikm ""
               Rig.arm_blend false
               (Mock.start (Rig.bent_arm (Some "rig") (1 / 2))) in
  fst run = Ok tt /\
  In (done (SetAttr "armSettings_L0_001_ctl.blend" (1 - 0)))
     (log Mock.host (snd run)) /\
  read_attr Mock.host "armSettings_L0_001_ctl.blend"
            (scene Mock.host (snd run)) = Some (1 / 2).
Proof.
  unfold fk_to_ik; mock_eval. split; [reflexivity|]. split; [|reflexivity].
  repeat (first [left; reflexivity | right]).
Qed.

Lemma short_ikm_list_ik_to_fk :
  fst (ik_to_fk Mock.host Rig.arm_fk [] Rig.arm_handle Rig.arm_pole
         Rig.arm_offset "" Rig.arm_blend false false
         (Mock.start (Rig.bent_arm (Some "rig") (1 / 2)))) = Ok tt.
Proof. bent_arm_run. reflexivity. Qed.

Lemma short_ikm_list_fk_to_ik :
  fst (fk_to_ik Mock.host Rig.arm_fk [] [] "" Rig.arm_blend false
         (Mock.start (Rig.bent_arm (Some "rig") (1 / 2))))
  = Raise IndexError.
Proof. vm_compute. reflexivity. Qed.

Lemma missing_key_node_fk_to_ik :
  let w := Mock.start (Rig.bent_arm (Some "rig") (1 / 2)) in
  let run := fk_to_ik Mock.host (Rig.arm_fk ++ ["nowhere"]) [] Rig.arm_ikm ""
               Rig.arm_blend true w in
  fst run = Raise HostError /\
  latest Mock.host (snd run)
  = Some (mkEv (SetKeyframe (Rig.arm_fk ++ ["nowhere"])) Raised) /\
  read_attr Mock.host "armSettings_L0_001_ctl.blend"
            (scene Mock.host (snd run)) = Some (1 / 2).
Proof.
  unfold fk_to_ik, latest; mock_eval. repeat split; reflexivity.
Qed.

Lemma handle_at_top_ik_to_fk :
  let w := Mock.start (Rig.bent_arm None (1 / 2)) in
  let run := ik_to_fk Mock.host Rig.arm_fk Rig.arm_ikm Rig.arm_handle
               Rig.arm_pole Rig.arm_offset "" Rig.arm_blend true true w in
  fst run = Raise IndexError /\
  latest Mock.host (snd run)
  = Some (mkEv (ListRelativesParent Rig.arm_handle) (Returned (VNames []))) /\
  read_attr Mock.host "armSettings_L0_001_ctl.blend"
            (scene Mock.host (snd run)) = Some 1.
Proof.
  unfold ik_to_fk, latest; mock_eval. repeat split; reflexivity.
Qed.

Lemma toggle_restored_unless_stopped_early_witness :
  let w := Mock.start (Rig.bent_arm (Some "rig") (1 / 2)) in
  let top := Mock.start (Rig.bent_arm None (1 / 2)) in
  let run0 := snap Mock.host Rig.arm_handle "arm_L0_003_ikm"
                   "armSettings_L0_001_ctl.blend" 1 w in
  let run1 := ik_to_fk Mock.host Rig.arm_fk Rig.arm_ikm Rig.arm_handle
                Rig.arm_pole Rig.arm_offset "" Rig.arm_blend true false w in
  let run2 := fk_to_ik Mock.host Rig.arm_fk [] Rig.arm_ikm ""
                Rig.arm_blend false w in
  let run3 := ik_to_fk Mock.host Rig.arm_fk [] Rig.arm_handle
                Rig.arm_pole Rig.arm_offset "" Rig.arm_blend false false w in
  let run4 := fk_to_ik Mock.host (Rig.arm_fk ++ ["nowhere"]) [] Rig.arm_ikm ""
                Rig.arm_blend true w in
  let run5 := ik_to_fk Mock.host Rig.arm_fk Rig.arm_ikm Rig.arm_handle
                Rig.arm_pole Rig.arm_offset "" Rig.arm_blend true true top in
  AttrLaws Mock.host /\
  read_attr Mock.host "armSettings_L0_001_ctl.blend" (scene Mock.host w)
  = Some (1 / 2) /\
  (fst run0 = Ok tt /\
   read_attr Mock.host "armSettings_L0_001_ctl.blend"
             (scene Mock.host (snd run0)) = Some (1 - 1)) /\
  (fst run1 = Ok tt /\
   In (done (SetAttr "armSettings_L0_001_ctl.blend" (1 - 1)))
      (log Mock.host (snd run1)) /\
   read_attr Mock.host "armSettings_L0_001_ctl.blend"
             (scene Mock.host (snd run1)) = Some (1 / 2) /\
   toggle_kept Mock.host Rig.arm_blend w (snd run1)) /\
  (fst run2 = Ok tt /\
   In (done (SetAttr "armSettings_L0_001_ctl.blend" (1 - 0)))
      (log Mock.host (snd run2)) /\
   read_attr Mock.host "armSettings_L0_001_ctl.blend"
             (scene Mock.host (snd run2)) = Some (1 / 2) /\
   toggle_kept Mock.host Rig.arm_blend w (snd run2)) /\
  (fst run3 = Ok tt /\
   fst (fk_to_ik Mock.host Rig.arm_fk [] [] "" Rig.arm_blend false w)
   = Raise IndexError /\
   toggle_kept Mock.host Rig.arm_blend w (snd run3)) /\
  (fst run4 = Raise HostError /\
   past_restore Mock.host (fst run4) (snd run4) /\
   toggle_kept Mock.host Rig.arm_blend w (snd run4)) /\
  (fst run5 = Raise IndexError /\
   ~ past_restore Mock.host (fst run5) (snd run5) /\
   read_attr Mock.host "armSettings_L0_001_ctl.blend"
             (scene Mock.host (snd run5)) = Some 1 /\
   exists evs,
     emitted Mock.host top (snd run5) evs /\
     exists x,
       not_restored evs (ik_to_fk_transfers Rig.arm_handle Rig.arm_pole ""
                                            Rig.arm_blend true x)).
Proof.
  intros w top run0 run1 run2 run3 run4 run5.
  destruct half_blend_snap as [S0 S1].
  destruct half_blend_ik_to_fk as (I0 & I1 & I2).
  destruct half_blend_fk_to_ik as (F0 & F1 & F2).
  destruct missing_key_node_fk_to_ik as (K0 & K1 & K2).
  destruct handle_at_top_ik_to_fk as (E0 & E1 & E2).
  assert (P4 : past_restore Mock.host (fst run4) (snd run4))
    by (right; eexists; exact K1).
  assert (P5 : ~ past_restore Mock.host (fst run5) (snd run5)).
  { unfold run5, top.
    intros [[Q|[n Q]]|[l Q]];
      [ rewrite E0 in Q; discriminate Q
      | rewrite E0 in Q; discriminate Q
      | rewrite E1 in Q; discriminate Q ]. }
  pose proof (toggle_restored_unless_stopped_early Mock.host Rig.arm_fk []
                Rig.arm_ikm Rig.arm_handle Rig.arm_pole Rig.arm_offset ""
                Rig.arm_blend Rig.arm_handle "arm_L0_003_ikm"
                "armSettings_L0_001_ctl.blend" 1 true false
                w (snd run0) (snd run1) (snd run2) (fst run1) (fst run2)
                MockFacts.attr_laws) as (T0 & T1 & T2).
  pose proof (toggle_restored_unless_stopped_early Mock.host Rig.arm_fk []
                [] Rig.arm_handle Rig.arm_pole Rig.arm_offset ""
                Rig.arm_blend Rig.arm_handle "arm_L0_003_ikm"
                "armSettings_L0_001_ctl.blend" 1 false false
                w (snd run0) (snd run3) (snd run2) (fst run3) (fst run2)
                MockFacts.attr_laws) as (_ & T3 & _).
  pose proof (toggle_restored_unless_stopped_early Mock.host
                (Rig.arm_fk ++ ["nowhere"]) []
                Rig.arm_ikm Rig.arm_handle Rig.arm_pole Rig.arm_offset ""
                Rig.arm_blend Rig.arm_handle "arm_L0_003_ikm"
                "armSettings_L0_001_ctl.blend" 1 true true
                w (snd run0) (snd run1) (snd run4) (fst run1) (fst run4)
                MockFacts.attr_laws) as (_ & _ & T4).
  pose proof (toggle_restored_unless_stopped_early Mock.host Rig.arm_fk []
                Rig.arm_ikm Rig.arm_handle Rig.arm_pole Rig.arm_offset ""
                Rig.arm_blend Rig.arm_handle "arm_L0_003_ikm"
                "armSettings_L0_001_ctl.blend" 1 true true
                top (snd run0) (snd run5) (snd run2) (fst run5) (fst run2)
                MockFacts.attr_laws) as (_ & T5 & _).
  split; [exact MockFacts.attr_laws|].
  split; [vm_compute; reflexivity|].
  split; [split; [exact S0|exact (T0 (pair_of_fst run0 (Ok tt) S0))]|].
  split.
  { split; [exact I0|]. split; [exact I1|]. split; [exact I2|].
    exact (proj1 (T1 (surjective_pairing run1))
                 (or_introl (returns_not_stopped _ I0))). }
  split.
  { split; [exact F0|]. split; [exact F1|]. split; [exact F2|].
    exact (proj1 (T2 (surjective_pairing run2))
                 (or_introl (returns_not_stopped _ F0))). }
  split.
  { split; [exact short_ikm_list_ik_to_fk|].
    split; [exact short_ikm_list_fk_to_ik|].
    exact (proj1 (T3 (surjective_pairing run3))
                 (or_introl (returns_not_stopped _ short_ikm_list_ik_to_fk))). }
  split.
  { split; [exact K0|]. split; [exact P4|].
    exact (proj1 (T4 (surjective_pairing run4)) P4). }
  split; [exact E0|]. split; [exact P5|]. split; [exact E2|].
  exact (proj2 (T5 (surjective_pairing run5)) P5).
Defined.

(** C4 as stated fails: the IK handle control sits at the top of the scene,
    so the [snap] inside [ik_to_fk] raises IndexError after it has set the
    toggle to 1; nothing sets it back, and the toggle that read 0 before
    the call reads 1 after it. *)
Lemma toggle_left_flipped_on_failure :
  let w := Mock.start (Rig.bent_arm None 0) in
  let run := ik_to_fk Mock.host Rig.arm_fk Rig.arm_ikm Rig.arm_handle
               Rig.arm_pole Rig.arm_offset "" Rig.arm_blend true true w in
  fst run = Raise IndexError /\
  read_attr Mock.host "armSettings_L0_001_ctl.blend" (scene Mock.host w)
    = Some 0 /\
  read_attr Mock.host "armSettings_L0_001_ctl.blend"
            (scene Mock.host (snd run)) = Some 1 /\
  ~ toggle_kept Mock.host Rig.arm_blend w (snd run).
Proof.
  intros w run.
  assert (A : read_attr Mock.host "armSettings_L0_001_ctl.blend"
                (scene Mock.host w) = Some 0) by (vm_compute; reflexivity).
  assert (B : read_attr Mock.host "armSettings_L0_001_ctl.blend"
                (scene Mock.host (snd run)) = Some 1)
    by (vm_compute; reflexivity).
  split; [vm_compute; reflexivity|].
  split; [exact A|]. split; [exact B|].
  unfold toggle_kept.
  change (Rig.arm_blend ++ ".blend")%string
    with "armSettings_L0_001_ctl.blend".
  rewrite A, B. intros Q. inversion Q. lra.
Qed.

Lemma ball_step_only_on_leg_witness :
  let w := Mock.start (Rig.leg 0) in
  let arm := Mock.start (Rig.bent_arm (Some "rig") (1 / 2)) in
  let run1 := ik_to_fk Mock.host Rig.leg_fk Rig.leg_ikm Rig.leg_handle
                Rig.leg_pole Rig.leg_offset Rig.leg_ball Rig.leg_blend
                true true w in
  let run2 := fk_to_ik Mock.host Rig.leg_fk [] Rig.leg_ikm Rig.leg_ball
                Rig.leg_blend true w in
  let run3 := ik_to_fk Mock.host Rig.arm_fk [] Rig.arm_handle
                Rig.arm_pole Rig.arm_offset "" Rig.arm_blend false false
                arm in
  py_in "leg" Rig.leg_blend = true /\
  py_in "leg" Rig.arm_blend = false /\
  fst run1 = Ok tt /\
  fst run2 = Ok tt /\
  (exists x,
     let evs1 := ik_to_fk_events Rig.leg_handle Rig.leg_pole Rig.leg_ball
                                 Rig.leg_blend true true x in
     ik_to_fk_read_ok Mock.host Rig.leg_fk Rig.leg_ikm Rig.leg_blend true x /\
     emitted Mock.host w (snd run1) evs1 /\
     count_cmd is_matrix_write evs1
     = ((if true then 1 else 0) + 1
        + (if py_in "leg" Rig.leg_blend then 1 else 0))%nat /\
     count_cmd is_transfer evs1 = 1%nat /\
     count_cmd is_move_rel evs1 = 1%nat) /\
  (exists y,
     let evs2 := fk_to_ik_events Rig.leg_fk Rig.leg_blend true y in
     fk_to_ik_read_ok Rig.leg_fk Rig.leg_ikm Rig.leg_blend y /\
     emitted Mock.host w (snd run2) evs2 /\
     count_cmd is_transfer evs2
     = (if py_in "leg" Rig.leg_blend then 4 else 3)%nat /\
     count_cmd is_move_rel evs2 = 0%nat) /\
  fst run3 = Ok tt /\
  fst (fk_to_ik Mock.host Rig.arm_fk [] [] "" Rig.arm_blend false arm)
  = Raise IndexError /\
  (exists x,
     let evs3 := ik_to_fk_events Rig.arm_handle Rig.arm_pole ""
                                 Rig.arm_blend false false x in
     ik_to_fk_read_ok Mock.host Rig.arm_fk [] Rig.arm_blend false x /\
     emitted Mock.host arm (snd run3) evs3 /\
     count_cmd is_matrix_write evs3
     = ((if false then 1 else 0) + 1
        + (if py_in "leg" Rig.arm_blend then 1 else 0))%nat /\
     count_cmd is_transfer evs3 = 1%nat /\
     count_cmd is_move_rel evs3 = 1%nat).
Proof.
  intros w arm run1 run2 run3.
  pose proof (ball_step_only_on_leg Mock.host Rig.leg_fk [] Rig.leg_ikm
                Rig.leg_handle Rig.leg_pole Rig.leg_offset Rig.leg_ball
                Rig.leg_blend true true w (snd run1) (snd run2)
                (fst run1) (fst run2)) as [B1 B2].
  pose proof (ball_step_only_on_leg Mock.host Rig.arm_fk [] []
                Rig.arm_handle Rig.arm_pole Rig.arm_offset ""
                Rig.arm_blend false false arm (snd run3) (snd run2)
                (fst run3) (fst run2)) as [B3 _].
  split; [reflexivity|]. split; [reflexivity|].
  split; [exact leg_ik_to_fk_returns|].
  split; [exact leg_fk_to_ik_returns|].
  split.
  { exact (B1 (surjective_pairing run1)
              (returns_not_stopped _ leg_ik_to_fk_returns)). }
  split.
  { exact (B2 (surjective_pairing run2)
              (returns_not_stopped _ leg_fk_to_ik_returns)). }
  split; [exact short_ikm_list_ik_to_fk|].
  split; [exact short_ikm_list_fk_to_ik|].
  exact (B3 (surjective_pairing run3)
            (returns_not_stopped _ short_ikm_list_ik_to_fk)).
Defined.

(** C8 as stated fails in its count for an arm: neither call makes "three
    joint transfers plus the pole placement".  [fk_to_ik] snaps three
    controls and places no pole; [ik_to_fk] places the pole and makes one
    transfer, onto the IK handle. *)
Lemma arm_transfers_differ :
  let w := Mock.start (Rig.bent_arm (Some "rig") 0) in
  let run1 := ik_to_fk Mock.host Rig.arm_fk Rig.arm_ikm Rig.arm_handle
                Rig.arm_pole Rig.arm_offset "" Rig.arm_blend true false w in
  let run2 := fk_to_ik Mock.host Rig.arm_fk [] Rig.arm_ikm ""
                Rig.arm_blend false w in
  py_in "leg" Rig.arm_blend = false /\
  fst run1 = Ok tt /\
  fst run2 = Ok tt /\
  ~ three_transfers_and_pole (log Mock.host (snd run1)) /\
  ~ three_transfers_and_pole (log Mock.host (snd run2)).
Proof.
  intros w run1 run2.
  split; [reflexivity|].
  split; [exact bent_arm_ik_to_fk_returns|].
  split; [exact bent_arm_fk_to_ik_returns|].
  split.
  - intros [T _]. unfold run1, w in T.
    rewrite bent_arm_ik_to_fk_transfers in T. discriminate T.
  - intros [_ P].
    assert (Z : count_cmd is_move_rel (log Mock.host (snd run2)) = 0%nat)
      by (vm_compute; reflexivity).
    rewrite Z in P. discriminate P.
Qed.

Lemma ball_variable_unbound_on_arm_witness :
  let w := Mock.start (Rig.bent_arm (Some "rig") 0) in
  let run1 := ik_to_fk Mock.host Rig.arm_fk Rig.arm_ikm Rig.arm_handle
                Rig.arm_pole Rig.arm_offset "" Rig.arm_blend true true w in
  let run2 := fk_to_ik Mock.host Rig.arm_fk [] Rig.arm_ikm ""
                Rig.arm_blend true w in
  py_in "leg" Rig.arm_blend = false /\
  fst run1 = Raise (UnboundLocalError "ball_ik") /\
  fst run2 = Raise (UnboundLocalError "ball_fk") /\
  (fst run1 <> Ok tt /\
   (latest Mock.host (snd run1)
    = Some (done (SetKeyframe [Rig.arm_handle; Rig.arm_pole]))
    <-> fst run1 = Raise (UnboundLocalError "ball_ik"))) /\
  (fst run2 <> Ok tt /\
   (latest Mock.host (snd run2)
    = Some (done (SetKeyframe Rig.arm_fk))
    <-> fst run2 = Raise (UnboundLocalError "ball_fk"))).
Proof.
  intros w run1 run2.
  split; [reflexivity|].
  split; [exact bent_arm_ik_to_fk_keyed|].
  split; [exact bent_arm_fk_to_ik_keyed|].
  exact (ball_variable_unbound_on_arm Mock.host Rig.arm_fk [] Rig.arm_ikm
           Rig.arm_handle Rig.arm_pole Rig.arm_offset "" Rig.arm_blend
           true w (snd run1) (snd run2) (fst run1) (fst run2)
           eq_refl (surjective_pairing run1) (surjective_pairing run2)).
Defined.

Lemma bent_arm_roll_reset :
  let w := Mock.start (Rig.bent_arm (Some "rig") 0) in
  let run := ik_to_fk Mock.host Rig.arm_fk Rig.arm_ikm Rig.arm_handle
               Rig.arm_pole Rig.arm_offset "" Rig.arm_blend true false w in
  read_attr Mock.host "handIk_L0_001_ctl.ikRoll" (scene Mock.host w)
  = Some 30 /\
  read_attr Mock.host "handIk_L0_001_ctl.ikRoll" (scene Mock.host (snd run))
  = Some 0.
Proof.
  split; [vm_compute; reflexivity|]. bent_arm_run. reflexivity.
Qed.

Lemma ik_to_fk_resets_roll_first_witness :
  let w := Mock.start (Rig.bent_arm (Some "rig") 0) in
  let run := ik_to_fk Mock.host Rig.arm_fk Rig.arm_ikm Rig.arm_handle
               Rig.arm_pole Rig.arm_offset "" Rig.arm_blend true false w in
  AttrFrameLaws Mock.host /\
  fst run = Ok tt /\
  read_attr Mock.host "handIk_L0_001_ctl.ikRoll" (scene Mock.host w)
  = Some 30 /\
  read_attr Mock.host "handIk_L0_001_ctl.ikRoll" (scene Mock.host (snd run))
  = Some 0 /\
  exists evs,
    emitted Mock.host w (snd run) evs /\
    exists rest,
      evs = mkEv (GetAttr "armSettings_L0_001_ctl.blend")
                 (Returned (VFloat 0))
            :: done (SetAttr "handIk_L0_001_ctl.ikRoll" 0) :: rest.
Proof.
  intros w run.
  split; [exact mock_attr_frame_laws|].
  split; [exact bent_arm_ik_to_fk_returns|].
  split; [exact (proj1 bent_arm_roll_reset)|].
  split; [exact (proj2 bent_arm_roll_reset)|].
  destruct (ik_to_fk_resets_roll_first Mock.host Rig.arm_fk Rig.arm_ikm
              Rig.arm_handle Rig.arm_pole Rig.arm_offset "" Rig.arm_blend
              true false w (snd run) (fst run) mock_attr_frame_laws
              (surjective_pairing run))
    as (evs & Em & o & rest & Ev & Ho & _ & Hret).
  exists evs. split; [exact Em|].
  destruct (Hret _ Ho) as (o2 & rest' & Er & Ho2 & _).
  exists rest'. rewrite Ev, Er, Ho, Ho2. reflexivity.
Defined.

(** C10 as stated fails: on a control without the blend attribute the
    first command, the read of the blend, raises; the call stops there and
    the roll of the handle still reads 30. *)
Lemma roll_kept_when_blend_read_raises :
  let w := Mock.start (Rig.bent_arm (Some "rig") 0) in
  let run := ik_to_fk Mock.host Rig.arm_fk Rig.arm_ikm Rig.arm_handle
               Rig.arm_pole Rig.arm_offset "" "rig" true true w in
  fst run = Raise HostError /\
  log Mock.host (snd run) = [mkEv (GetAttr "rig.blend") Raised] /\
  read_attr Mock.host "handIk_L0_001_ctl.ikRoll" (scene Mock.host w)
  = Some 30 /\
  read_attr Mock.host "handIk_L0_001_ctl.ikRoll" (scene Mock.host (snd run))
  = Some 30 /\
  ~ roll_reset_by_every_call Mock.host Rig.arm_fk Rig.arm_ikm Rig.arm_handle
      Rig.arm_pole Rig.arm_offset "" "rig" true true w.
Proof.
  intros w run.
  assert (R : fst run = Raise HostError) by (vm_compute; reflexivity).
  assert (Lg : log Mock.host (snd run) = [mkEv (GetAttr "rig.blend") Raised])
    by (vm_compute; reflexivity).
  split; [exact R|]. split; [exact Lg|].
  split; [vm_compute; reflexivity|]. split; [vm_compute; reflexivity|].
  intros C. specialize (C (fst run) (snd run) (surjective_pairing run)).
  rewrite Lg in C. destruct C as [C|[]]. discriminate C.
Qed.

Lemma pole_offset_by_branch_witness :
  let run := ik_to_fk Mock.host Rig.arm_fk Rig.arm_ikm Rig.arm_handle
               Rig.arm_pole Rig.arm_offset "" Rig.arm_blend true false
               (Mock.start (Rig.bent_arm (Some "rig") 0)) in
  let turned := Rig.turned_at (mkV 506 0 0) in
  fst run = Ok tt /\
  (exists x,
     ik_to_fk_read_ok Mock.host Rig.arm_fk Rig.arm_ikm Rig.arm_blend true x /\
     emitted Mock.host (Mock.start (Rig.bent_arm (Some "rig") 0)) (snd run)
       (ik_to_fk_events Rig.arm_handle Rig.arm_pole "" Rig.arm_blend
                        true false x) /\
     pole_offset Mock.host (ir_p1 x) (ir_p2 x) (ir_p3 x) (ir_mid_world x)
     = Ok (vscale (ir_pole x) (total_length (ir_limb x))) /\
     In (done (XformSetM Rig.arm_pole (ir_mid_world x)))
        (ik_to_fk_events Rig.arm_handle Rig.arm_pole "" Rig.arm_blend
                         true false x) /\
     In (done (MoveRel Rig.arm_pole
                 (vscale (ir_pole x) (total_length (ir_limb x)))))
        (ik_to_fk_events Rig.arm_handle Rig.arm_pole "" Rig.arm_blend
                         true false x) /\
     (upper_goal_angle (ir_limb x) <= 0.998 ->
      normal Mock.host
        (vsub (ir_p2 x) (goal_project (ir_p1 x) (ir_limb x)))
      = Ok (ir_pole x)) /\
     (upper_goal_angle (ir_limb x) > 0.998 ->
      ir_pole x = axis_y (ir_mid_world x))) /\
  (limb_vectors Mock.host (mkV 0 0 0) (mkV 1 0 0) (mkV 2 1 0)
   = Ok example_limb /\
   upper_goal_angle example_limb <= 0.998 /\
   pole_offset Mock.host (mkV 0 0 0) (mkV 1 0 0) (mkV 2 1 0) turned
   = res_bind (normal Mock.host
                 (vsub (mkV 1 0 0) (goal_project (mkV 0 0 0) example_limb)))
              (fun d => Ok (vscale d (total_length example_limb)))) /\
  (limb_vectors Mock.host (mkV 0 0 0) (mkV 506 0 0) (mkV 1012 45 0)
   = Ok long_limb /\
   upper_goal_angle long_limb > 0.998 /\
   total_length long_limb
   = vlength (vsub (mkV 506 0 0) (mkV 0 0 0))
     + vlength (vsub (mkV 1012 45 0) (mkV 506 0 0)) /\
   pole_offset Mock.host (mkV 0 0 0) (mkV 506 0 0) (mkV 1012 45 0) turned
   = Ok (vscale (axis_y turned) (total_length long_limb)) /\
   axis_y turned = mkV 0 0 1).
Proof.
  intros run turned.
  pose proof (pole_offset_by_branch Mock.host Rig.arm_fk Rig.arm_ikm
                Rig.arm_handle Rig.arm_pole Rig.arm_offset "" Rig.arm_blend
                true false (Mock.start (Rig.bent_arm (Some "rig") 0))
                (snd run) (fst run)
                (mkV 0 0 0) (mkV 1 0 0) (mkV 2 1 0) example_limb turned)
    as [B G].
  pose proof (pole_offset_by_branch Mock.host Rig.arm_fk Rig.arm_ikm
                Rig.arm_handle Rig.arm_pole Rig.arm_offset "" Rig.arm_blend
                true false (Mock.start (Rig.bent_arm (Some "rig") 0))
                (snd run) (fst run)
                (mkV 0 0 0) (mkV 506 0 0) (mkV 1012 45 0) long_limb turned)
    as [_ S].
  destruct (G (example_limb_vectors Mock.host)) as (_ & G1 & _).
  destruct (S (long_limb_vectors Mock.host)) as (T & _ & S1).
  assert (A : upper_goal_angle long_limb > 0.998)
    by (rewrite long_angle; lra).
  split; [exact bent_arm_ik_to_fk_returns|].
  split.
  { exact (B (surjective_pairing run)
             (returns_not_stopped _ bent_arm_ik_to_fk_returns)). }
  split.
  { split; [apply example_limb_vectors|].
    split; [exact example_angle_general|].
    exact (G1 example_angle_general). }
  split; [apply long_limb_vectors|]. split; [exact A|].
  split; [exact T|]. split; [exact (S1 A)|reflexivity].
Defined.

(** ** More on the runs of the first layer *)

Lemma py_index_0_empty {A} (l : list A) (e : Exn) :
  py_index l 0 = Raise e -> l = [].
Proof.
  destruct l; [reflexivity|]. unfold py_index; simpl. discriminate.
Qed.

Ltac run_step_keep E :=
  match type of E with
  | ?l = _ =>
      let h := head_scrut l in
      lazymatch h with
      | exec ?H ?c ?s =>
          let o := fresh "o" in let s' := fresh "s" in let X := fresh "X" in
          destruct (exec H c s) as [o s'] eqn:X; destruct o; simpl in E
      | py_index ?l0 ?i =>
          let X := fresh "I" in
          destruct h eqn:X;
          [|pose proof (py_index_raises _ _ _ X); subst]; simpl in E
      end
  end.

(** X1.  Whatever the host, a [snap] call raises IndexError exactly when
    the last command it issued is the duplicate or the parent look-up and
    that command returned an empty list: [pm.duplicate(...)[0]] and
    [pm.listRelatives(source, parent=True)[0]] are the only index
    operations of [snap].  A source at the top of the scene (no parent)
    therefore stops the call right after the duplicate has been made. *)
Theorem snap_index_error_iff (H : Host) (source target attr : string)
  (value : R) (w w' : World H) (r : Res unit) :
  snap H source target attr value w = (r, w') ->
  (r = Raise IndexError <->
   latest H w' = Some (mkEv (Duplicate source) (Returned (VNames [])))
   \/ latest H w'
      = Some (mkEv (ListRelativesParent source) (Returned (VNames [])))).
Proof.
  intros E. unfold snap in E. unfold_run.
  repeat run_step_keep E; inversion E; subst; clear E; unfold latest; simpl.
  all: split;
    [ intros Q; try discriminate Q
    | intros [Q|Q]; try discriminate Q; try reflexivity ].
  all: try match goal with
           | I : py_index ?l 0 = Raise _ |- _ =>
               apply py_index_0_empty in I; subst l; auto
           end.
  all: try (inversion Q; subst;
            match goal with
            | I : py_index [] 0 = Ok _ |- _ => discriminate I
            end).
Qed.

Ltac give_events :=
  match goal with
  | |- exists evs, emitted ?H ?w (mkW _ _ ?l) evs /\ _ =>
      let p := events_above l (log H w) in
      let evs := eval simpl in (rev p) in
      exists evs; split; [reflexivity|]
  end.

Ltac each_event Hin :=
  simpl in Hin;
  repeat (destruct Hin as [Hin|Hin]; [subst|]); [..|contradiction].

(** X2.  On every exit, returning or raising, a [snap] call has written a
    matrix onto no node but [source], has re-parented only a node its own
    [duplicate] returned, and only under [target], has deleted only such a
    duplicate, and has issued no move, no rotation and no keyframe. *)
Theorem snap_acts_on_its_own_nodes (H : Host) (source target attr : string)
  (value : R) (w w' : World H) (r : Res unit) :
  snap H source target attr value w = (r, w') ->
  exists evs,
    emitted H w w' evs /\
    forall ev, In ev evs -> snap_keeps_to_its_own source target evs ev.
Proof.
  intros E. unfold snap in E. unfold_run.
  run_all E; give_events; intros ev Hin; each_event Hin.
  all: unfold snap_keeps_to_its_own; simpl; auto.
  all: try (split; [reflexivity|]).
  all: eexists; split; [|eassumption]; simpl; auto 12.
Qed.

Lemma py_index_length {A} (l : list A) (n : nat) (a : A) :
  py_index l (Z.of_nat n) = Ok a -> (n < List.length l)%nat.
Proof.
  unfold py_index. intros E.
  destruct (Z.of_nat n <? 0)%Z eqn:N; [apply Z.ltb_lt in N; lia|].
  rewrite N in E. rewrite Nat2Z.id in E.
  destruct (nth_error l n) eqn:X; [|discriminate].
  apply nth_error_Some. rewrite X. discriminate.
Qed.

(** X3.  The two ways [ik_to_fk] places the IK handle exclude each other.
    With [ik_rotation=False] the call makes, re-parents and deletes no node
    at all (no [snap] runs), and every attribute it writes is either the
    roll of the handle, set to 0, or the blend, set to the value [getAttr]
    returned for it in this call.  With [ik_rotation=True] it issues no
    absolute [move].  Both hold on every exit. *)
Theorem ik_to_fk_transfers_handle_one_way (H : Host)
  (fk_list ikm_list : list string)
  (ik_handle ik_pole ik_offset ik_ball blend_ctl : string)
  (ik_rotation key : bool) (w w' : World H) (r : Res unit) :
  ik_to_fk H fk_list ikm_list ik_handle ik_pole ik_offset ik_ball blend_ctl
           ik_rotation key w = (r, w') ->
  exists evs,
    emitted H w w' evs /\
    (forall ev, In ev evs ->
       (if ik_rotation then is_move (ev_cmd ev)
        else is_proxy_cmd (ev_cmd ev)) = false) /\
    (ik_rotation = false ->
     forall a v o, In (mkEv (SetAttr a v) o) evs ->
       (a = (ik_handle ++ ".ikRoll")%string /\ v = 0) \/
       (a = (blend_ctl ++ ".blend")%string /\
        In (mkEv (GetAttr (blend_ctl ++ ".blend")) (Returned (VFloat v)))
           evs)).
Proof.
  intros E. unfold ik_to_fk, snap in E.
  destruct ik_rotation, key, (py_in "leg" blend_ctl); unfold_run.
  all: run_all E; give_events.
  all: split;
    [ intros ev Hin; each_event Hin; reflexivity
    | intros Q; try discriminate Q;
      let a := fresh "attr" in let v := fresh "val" in let o := fresh "out" in
      intros a v o Hin; simpl in Hin;
      repeat (destruct Hin as [Hin|Hin];
              [try discriminate Hin; inversion Hin; subst;
               first [left; split; reflexivity
                     | right; split; [reflexivity|simpl; auto]]|]);
      contradiction ].
Qed.

(** X4.  Neither orchestrator checks the length of its lists, and a call
    that is not stopped needs three entries: [ik_to_fk] at least three FK
    controls and, with [ik_rotation=True], at least three IKM joints;
    [fk_to_ik] at least three of each.  With fewer, [fk_list[i]] or
    [ikm_list[i]] raises IndexError. *)
Theorem orchestrators_need_three_joints (H : Host)
  (fk_list fk_offset_list ikm_list : list string)
  (ik_handle ik_pole ik_offset ik_ball blend_ctl : string)
  (ik_rotation key : bool) (w w1 w2 : World H) (r1 r2 : Res unit) :
  (ik_to_fk H fk_list ikm_list ik_handle ik_pole ik_offset ik_ball blend_ctl
            ik_rotation key w = (r1, w1) ->
   not_stopped r1 ->
   (3 <= List.length fk_list)%nat /\
   (ik_rotation = true -> (3 <= List.length ikm_list)%nat)) /\
  (fk_to_ik H fk_list fk_offset_list ikm_list ik_ball blend_ctl key w
     = (r2, w2) ->
   not_stopped r2 ->
   (3 <= List.length fk_list)%nat /\ (3 <= List.length ikm_list)%nat).
Proof.
  split.
  - intros E Hr.
    destruct (ik_to_fk_done H _ _ _ _ _ _ _ _ _ _ _ _ E Hr) as (x & Hx & _).
    destruct Hx as (_ & _ & F2 & _ & _ & _ & _ & _ & Hrot & _).
    split.
    + apply (py_index_length fk_list 2) in F2. lia.
    + intros Q. destruct (Hrot Q) as [I2 _].
      apply (py_index_length ikm_list 2) in I2. lia.
  - intros E Hr.
    destruct (fk_to_ik_done H _ _ _ _ _ _ _ _ _ E Hr) as (y & Hy & _).
    destruct Hy as (_ & _ & _ & _ & _ & _ & F2 & I2 & _).
    apply (py_index_length fk_list 2) in F2.
    apply (py_index_length ikm_list 2) in I2. lia.
Qed.

(** X5.  On every exit [ik_to_fk] has posed (matrix write, move, relative
    move, rotation) and keyed no node but the IK handle, the pole control
    and the ball control it was given: the FK controls and the IKM joints
    are only read. *)
Theorem ik_to_fk_touches_only_ik_controls (H : Host)
  (fk_list ikm_list : list string)
  (ik_handle ik_pole ik_offset ik_ball blend_ctl : string)
  (ik_rotation key : bool) (w w' : World H) (r : Res unit) :
  ik_to_fk H fk_list ikm_list ik_handle ik_pole ik_offset ik_ball blend_ctl
           ik_rotation key w = (r, w') ->
  exists evs,
    emitted H w w' evs /\
    forall ev n, In ev evs -> In n (touched (ev_cmd ev)) ->
      In n [ik_handle; ik_pole; ik_ball].
Proof.
  intros E. unfold ik_to_fk, snap in E.
  destruct ik_rotation, key, (py_in "leg" blend_ctl); unfold_run.
  all: run_all E; give_events.
  all: let n := fresh "node" in intros ev n Hin Hn; each_event Hin.
  all: simpl in Hn; try contradiction.
  all: repeat (destruct Hn as [Hn|Hn]; [subst; simpl; auto|]); contradiction.
Qed.

(** X6.  On every exit [fk_to_ik] has posed and keyed only nodes of
    [fk_list]: the IKM joints and [ik_ball] are never written or keyed. *)
Theorem fk_to_ik_touches_only_fk_controls (H : Host)
  (fk_list fk_offset_list ikm_list : list string)
  (ik_ball blend_ctl : string) (key : bool) (w w' : World H) (r : Res unit) :
  fk_to_ik H fk_list fk_offset_list ikm_list ik_ball blend_ctl key w
    = (r, w') ->
  exists evs,
    emitted H w w' evs /\
    forall ev n, In ev evs -> In n (touched (ev_cmd ev)) -> In n fk_list.
Proof.
  intros E. unfold fk_to_ik, snap in E.
  destruct key, (py_in "leg" blend_ctl); unfold_run.
  all: run_all E; give_events.
  all: let n := fresh "node" in intros ev n Hin Hn; each_event Hin.
  all: simpl in Hn; try contradiction.
  all: try assumption.
  all: repeat (destruct Hn as [Hn|Hn];
               [subst; eapply py_index_In; eassumption|]); contradiction.
Qed.
(** ** Runs of the second layer *)

Section RigRuns.

Variable G : RigHost.

Lemma rig_emitted_nil (w : RigWorld G) : rig_emitted G w w [].
Proof. reflexivity. Qed.

Lemma rig_emitted_app (w w1 w2 : RigWorld G) (l1 l2 : list RigEvent) :
  rig_emitted G w w1 l1 -> rig_emitted G w1 w2 l2 ->
  rig_emitted G w w2 (l1 ++ l2).
Proof.
  unfold rig_emitted. intros A B. rewrite B, A, rev_app_distr, app_assoc.
  reflexivity.
Qed.

Lemma rig_emitted_latest (w w' : RigWorld G) (l : list RigEvent)
  (ev : RigEvent) :
  rig_emitted G w w' (l ++ [ev]) -> rig_latest G w' = Some ev.
Proof.
  unfold rig_emitted, rig_latest. intros E. rewrite E, rev_app_distr.
  reflexivity.
Qed.

Lemma rcall_run (c : RigCmd) (w w' : RigWorld G) (r : Out (rig_ret c)) :
  rcall G c w = (r, w') ->
  (exists a, r = Fine a /\
             rig_emitted G w w' [mkRigEv c (Gave (rig_val_of c a))]) \/
  (r = Fails (Core HostError) /\ rig_emitted G w w' [mkRigEv c Threw]).
Proof.
  unfold rcall, rig_emitted. intros E.
  destruct (rig_exec G c (rig_scene G w)) as [[a|] s];
    inversion E; subst; simpl; eauto.
Qed.

Lemma rcall_fine (c : RigCmd) (w w' : RigWorld G) (a : rig_ret c) :
  rcall G c w = (Fine a, w') ->
  rig_emitted G w w' [mkRigEv c (Gave (rig_val_of c a))].
Proof.
  intros E. destruct (rcall_run _ _ _ _ E) as [(b & Q & Em)|[Q _]].
  - inversion Q; subst. exact Em.
  - discriminate Q.
Qed.

Lemma rcall_fails (c : RigCmd) (w w' : RigWorld G) (e : PyExn) :
  rcall G c w = (Fails e, w') ->
  e = Core HostError /\ rig_emitted G w w' [mkRigEv c Threw].
Proof.
  intros E. destruct (rcall_run _ _ _ _ E) as [(b & Q & Em)|[Q Em]].
  - discriminate Q.
  - inversion Q; subst. auto.
Qed.

End RigRuns.

Ltac rig_unfold E :=
  unfold rbind, rlift, rret, throw, rlocal, if_node in E; simpl in E.

(** The next thing a stuck run of the second layer waits for. *)
Ltac rig_head t :=
  lazymatch t with
  | match ?x with pair _ _ => _ end => rig_head x
  | match ?x with Fine _ => _ | Fails _ => _ end => rig_head x
  | match ?x with Ok _ => _ | Raise _ => _ end => rig_head x
  | match ?x with Some _ => _ | None => _ end => rig_head x
  | if ?x then _ else _ => rig_head x
  | (if ?x then _ else _) _ => rig_head x
  | (match ?x with Some _ => _ | None => _ end) _ => rig_head x
  | (match ?x with Ok _ => _ | Raise _ => _ end) _ => rig_head x
  | _ => t
  end.

(** One step of such a run, in program order; a host call or a whole
    stanza is split into its two outcomes and what it logged. *)
Ltac rig_step E :=
  match type of E with
  | ?l = _ =>
      let h := rig_head l in
      lazymatch h with
      | rcall ?G ?c ?w =>
          let a := fresh "a" in let e := fresh "e" in
          let w1 := fresh "w" in let X := fresh "X" in
          destruct (rcall G c w) as [[a|e] w1] eqn:X;
          [ apply rcall_fine in X
          | apply rcall_fails in X; destruct X as [-> X] ];
          simpl in E
      | py_index _ _ =>
          let X := fresh "I" in
          destruct h eqn:X;
          [|pose proof (py_index_raises _ _ _ X); subst]; simpl in E
      | truthy _ =>
          let X := fresh "T" in
          destruct h eqn:X; simpl in E
      | negb ?b => is_var b; simpl in b; destruct b; simpl in E
      | _ => is_var h; simpl in h; destruct h; simpl in E
      end
  end.

Ltac rig_run E := repeat rig_step E; inversion E; subst; clear E.

(** Joins the logs of consecutive steps. *)
Ltac chain_logs :=
  repeat match goal with
         | A : rig_emitted ?G ?w ?w1 ?l1, B : rig_emitted ?G ?w1 ?w2 ?l2
           |- _ =>
             pose proof (rig_emitted_app G w w1 w2 l1 l2 A B);
             clear A B
         end.

Section Stanza.

Variable G : RigHost.

Lemma connection_run (obj attr : string) (w w' : RigWorld G)
  (r : Out (option string)) :
  connection G obj attr w = (r, w') ->
  exists evs, rig_emitted G w w' evs /\ connection_ends obj attr evs r.
Proof.
  intros E. unfold connection in E. rig_unfold E.
  rig_run E; chain_logs; eexists; (split; [eassumption|]); simpl.
  - eexists; split; [eassumption|reflexivity].
  - right. split; [reflexivity|].
    match goal with
    | I : py_index ?l 0 = Raise _ |- _ =>
        apply py_index_0_empty in I; subst l
    end.
    reflexivity.
  - left. split; [reflexivity|]. right. reflexivity.
  - reflexivity.
  - left. split; [reflexivity|]. left. reflexivity.
Qed.

End Stanza.

(** ** get_rig_connections *)

Ltac stanza_step E :=
  match type of E with
  | ?l = _ =>
      let h := rig_head l in
      lazymatch h with
      | connection ?G ?o ?a ?w =>
          let v := fresh "v" in let e := fresh "e" in
          let w1 := fresh "w" in let C := fresh "C" in
          let evs := fresh "evs" in
          let Em := fresh "Em" in let En := fresh "En" in
          destruct (connection G o a w) as [[v|e] w1] eqn:C;
          apply connection_run in C; destruct C as (evs & Em & En);
          simpl in E
      | _ => rig_step E
      end
  end.

Ltac stanza_run E := repeat stanza_step E; inversion E; subst; clear E.

Section RigQueries.

Variable G : RigHost.

Lemma connection_latest (obj attr : string) (w w' : RigWorld G)
  (evs : list RigEvent) (r : Out (option string)) :
  rig_emitted G w w' evs -> connection_ends obj attr evs r ->
  exists ev, rig_latest G w' = Some ev /\ stanza_last obj attr r ev.
Proof.
  unfold rig_latest, rig_emitted. intros Em En. rewrite Em.
  destruct r as [[n|]|e]; simpl in En.
  - destruct En as (l & I & ->). simpl. eexists; split; [reflexivity|].
    simpl. eauto.
  - subst evs. simpl. eexists; split; reflexivity.
  - destruct En as [ [-> [-> | ->] ] | [-> ->] ]; simpl;
      (eexists; split; [reflexivity|]); simpl; eauto.
Qed.

(** Brings the last event of a finished run into the goal. *)
Ltac see_latest :=
  match goal with
  | Em : rig_emitted ?H ?w0 ?w1 ?evs, En : connection_ends _ _ ?evs _
    |- context [rig_latest ?H ?w1] =>
      let ev := fresh "ev" in let L := fresh "L" in let St := fresh "St" in
      destruct (connection_latest _ _ _ _ _ _ Em En) as (ev & L & St);
      rewrite L;
      match type of St with
      | stanza_last _ _ (Fails _) _ =>
          let c := fresh "c" in
          destruct St as [ [-> (c & ->)] | [-> ->] ]
      | stanza_last _ _ (Fine ?v) _ =>
          let l := fresh "l" in let I := fresh "I" in
          destruct v; simpl in St; [destruct St as (l & I & ->)|subst ev]
      end
  | Em : rig_emitted ?H ?w0 ?w1 ?evs |- context [rig_latest ?H ?w1] =>
      let L := fresh "L" in
      assert (L : rig_latest H w1 = hd_error (rev evs ++ rig_log H w0))
        by (unfold rig_latest; rewrite Em; reflexivity);
      simpl in L; rewrite L
  end.

(** X10.  [get_rig_connections] raises UnboundLocalError exactly when the
    object lacks the [blend] attribute (the last command is the attribute
    query for it, and it answered no): the locals of the [return]
    statement are bound only inside the [if], and the first one read is
    [fk_001].  No other local is ever reported unbound. *)
Theorem get_rig_connections_unbound_iff_no_blend (obj : option string)
  (w w' : RigWorld G) (r : Out SmartList) :
  get_rig_connections G obj w = (r, w') ->
  ((exists o, rig_latest G w'
              = Some (mkRigEv (AttributeQuery "blend" o)
                              (Gave (VBool false))))
   <-> r = Fails (Core (UnboundLocalError "fk_001"))) /\
  (forall name, r = Fails (Core (UnboundLocalError name)) ->
                name = "fk_001").
Proof.
  intros E. unfold get_rig_connections in E. rig_unfold E.
  stanza_run E; see_latest.
  all: (split; [split|]).
  all: try (intros name Q; inversion Q; reflexivity).
  all: try (intros Q; discriminate Q).
  all: try reflexivity.
  all: try (intros _; eexists; reflexivity).
  all: intros (o' & Q); discriminate Q.
Qed.

(** X11.  [get_rig_connections] raises IndexError exactly when the last
    command returned an empty list: [ls] with nothing selected, or
    [listConnections] for an attribute that exists but has nothing
    connected to it (the entry is not [None] then, the call fails). *)
Theorem get_rig_connections_index_error_iff (obj : option string)
  (w w' : RigWorld G) (r : Out SmartList) :
  get_rig_connections G obj w = (r, w') ->
  (r = Fails (Core IndexError) <->
   rig_latest G w' = Some (mkRigEv Ls (Gave (Plain (VNames []))))
   \/ exists plug,
        rig_latest G w'
        = Some (mkRigEv (ListConnections plug) (Gave (Plain (VNames []))))).
Proof.
  intros E. unfold get_rig_connections in E. rig_unfold E.
  stanza_run E; see_latest.
  all: split;
    [ intros Q; try discriminate Q
    | intros [Q|(plug & Q)]; try discriminate Q; try reflexivity ].
  all: try (right; eexists; reflexivity).
  all: try match goal with
           | I : py_index ?l 0 = Raise _ |- _ =>
               apply py_index_0_empty in I; simpl in l; subst l; left;
               reflexivity
           end.
  all: inversion Q; subst;
    match goal with
    | I : py_index [] 0 = Ok _ |- _ => discriminate I
    end.
Qed.

End RigQueries.

Section Emits.

Variable G : RigHost.
Variable Q : list RigEvent -> Prop.
Hypothesis Q_nil : Q [].
Hypothesis Q_app : forall l1 l2, Q l1 -> Q l2 -> Q (l1 ++ l2).

Lemma emits_ret {A} (a : A) : emits G Q (rret G a).
Proof.
  intros w r w' E. inversion E; subst. exists []. split; [reflexivity|].
  exact Q_nil.
Qed.

Lemma emits_throw {A} (e : PyExn) : emits G Q (@throw G A e).
Proof.
  intros w r w' E. inversion E; subst. exists []. split; [reflexivity|].
  exact Q_nil.
Qed.

Lemma emits_lift {A} (x : Res A) : emits G Q (rlift G x).
Proof. destruct x; [apply emits_ret | apply emits_throw]. Qed.

Lemma emits_bind {A B} (m : RM G A) (k : A -> RM G B) :
  emits G Q m -> (forall a, emits G Q (k a)) -> emits G Q (rbind G m k).
Proof.
  intros Hm Hk w r w' E. unfold rbind in E.
  destruct (m w) as [[a|e] w1] eqn:M.
  - destruct (Hm _ _ _ M) as (l1 & E1 & Q1).
    destruct (Hk a _ _ _ E) as (l2 & E2 & Q2).
    exists (l1 ++ l2). split; [eapply rig_emitted_app; eassumption|].
    apply Q_app; assumption.
  - inversion E; subst. exact (Hm _ _ _ M).
Qed.

Lemma emits_call (c : RigCmd) :
  (forall o, Q [mkRigEv c o]) -> emits G Q (rcall G c).
Proof.
  intros Hc w r w' E.
  destruct (rcall_run _ _ _ _ _ E) as [(a & _ & Em)|[_ Em]];
    eexists; (split; [exact Em|apply Hc]).
Qed.

Lemma emits_if_node {A} (v : option string) (thn : string -> RM G A)
  (els : RM G A) :
  (forall n, emits G Q (thn n)) -> emits G Q els ->
  emits G Q (if_node G v thn els).
Proof.
  intros Ht He. unfold if_node. destruct v as [n|]; [|exact He].
  destruct (truthy n); [apply Ht | exact He].
Qed.

Lemma emits_for_each {A} (l : list A) (body : A -> RM G unit) :
  (forall a, In a l -> emits G Q (body a)) -> emits G Q (for_each G l body).
Proof.
  induction l as [|a l IH]; intros Hb; simpl.
  - apply emits_ret.
  - apply emits_bind; [apply Hb; left; reflexivity|].
    intros _. apply IH. intros b Hin. apply Hb. right. exact Hin.
Qed.

Lemma emits_global (globals : list string) (name : string) :
  emits G Q (global G globals name).
Proof.
  unfold global. destruct (existsb _ _); [apply emits_ret|apply emits_throw].
Qed.

End Emits.

Section RigQueries2.

Variable G : RigHost.

Lemma all_queries_nil : all_queries [].
Proof. intros ev []. Qed.

Lemma all_queries_app (l1 l2 : list RigEvent) :
  all_queries l1 -> all_queries l2 -> all_queries (l1 ++ l2).
Proof.
  intros A B ev Hin. apply in_app_or in Hin. destruct Hin; auto.
Qed.

Lemma query_emitted (c : RigCmd) :
  is_query c = true -> emits G all_queries (rcall G c).
Proof.
  intros Hc. apply emits_call. intros o ev [<-|[]]. exact Hc.
Qed.

Lemma connection_only_queries (obj attr : string) :
  emits G all_queries (connection G obj attr).
Proof.
  pose proof all_queries_nil as N. pose proof all_queries_app as A.
  unfold connection.
  apply (emits_bind _ _ A); [apply query_emitted; reflexivity|].
  intros [|]; [|apply (emits_ret _ _ N)].
  apply (emits_bind _ _ A); [apply query_emitted; reflexivity|]. intros l.
  apply (emits_bind _ _ A); [apply (emits_lift _ _ N)|].
  intros n. apply (emits_ret _ _ N).
Qed.

(** X12.  On every exit [get_rig_connections] has issued nothing but [ls],
    [attributeQuery] and [listConnections]: it only reads the scene. *)
Theorem get_rig_connections_only_queries (obj : option string)
  (w w' : RigWorld G) (r : Out SmartList) :
  get_rig_connections G obj w = (r, w') ->
  exists evs,
    rig_emitted G w w' evs /\
    forall ev, In ev evs -> is_query (rig_cmd ev) = true.
Proof.
  revert w r w'. change (emits G all_queries (get_rig_connections G obj)).
  pose proof all_queries_nil as N. pose proof all_queries_app as A.
  assert (S : emits G all_queries
                (rbind G (rcall G Ls) (fun l => rlift G (py_index l 0)))).
  { apply (emits_bind _ _ A); [apply query_emitted; reflexivity|].
    intros l. apply (emits_lift _ _ N). }
  unfold get_rig_connections. apply (emits_bind _ _ A).
  { destruct obj as [o|]; [destruct (truthy o)|]; auto using emits_ret. }
  intros o. apply (emits_bind _ _ A); [apply query_emitted; reflexivity|].
  intros has. apply (emits_bind _ _ A).
  - destruct has; [|apply (emits_ret _ _ N)].
    repeat (apply (emits_bind _ _ A); [apply connection_only_queries|intros ?]).
    apply (emits_ret _ _ N).
  - intros [b|]; [apply (emits_ret _ _ N)|apply (emits_throw _ _ N)].
Qed.

End RigQueries2.

Lemma connection_wired (obj attr : string) (evs : list RigEvent)
  (v : option string) :
  connection_ends obj attr evs (Fine v) -> wired obj evs attr v.
Proof.
  destruct v as [n|]; simpl.
  - intros (l & I & ->). split; [left; reflexivity|].
    exists l. split; [right; left; reflexivity|exact I].
  - intros ->. left. reflexivity.
Qed.

Lemma wired_incl (obj attr : string) (evs evs' : list RigEvent)
  (v : option string) :
  wired obj evs attr v -> incl evs evs' -> wired obj evs' attr v.
Proof.
  intros W I. destruct v as [n|]; simpl in *.
  - destruct W as (A & l & B & C). split; [apply I, A|].
    exists l. split; [apply I, B|exact C].
  - apply I, W.
Qed.

(** [l] is one of the lists a chain of logs is put together from. *)
Ltac incl_app :=
  first [ apply incl_refl
        | apply incl_appl; incl_app
        | apply incl_appr; incl_app ].

Ltac wired_there :=
  match goal with
  | En : connection_ends ?o ?a ?evs (Fine ?v) |- wired ?o _ ?a ?v =>
      apply (wired_incl o a evs _ v (connection_wired o a evs v En));
      incl_app
  end.

Ltac logged_there :=
  match goal with
  | |- In ?ev ?l =>
      assert (Hin : incl [ev] l) by incl_app;
      apply Hin; left; reflexivity
  end.

(** X13.  A returning call hands back, position by position, what the log
    shows for the fifteen attributes of the chosen object (the argument if
    one is given, else the first selected node; it has the [blend]
    attribute): [None] where the attribute was reported missing, else the
    first connection listed for it.  The order is [fk_001, fk_002, fk_003,
    fk_005], the three FK offsets, [ik_handle], [ik_pole], [ik_offset], the
    object itself, [ikm_001, ikm_002, ikm_003, ikm_006], [ik_ball]. *)
Theorem get_rig_connections_returns_the_wiring (G : RigHost)
  (obj : option string) (w w' : RigWorld G) (sl : SmartList) :
  get_rig_connections G obj w = (Fine sl, w') ->
  exists evs,
    rig_emitted G w w' evs /\
    chosen obj evs (sl_blend_ctl sl) /\
    In (mkRigEv (AttributeQuery "blend" (sl_blend_ctl sl))
                (Gave (VBool true))) evs /\
    Forall2 (wired (sl_blend_ctl sl) evs)
            ["fk_001"; "fk_002"; "fk_003"; "fk_005"] (sl_fk_list sl) /\
    Forall2 (wired (sl_blend_ctl sl) evs)
            ["fk_001_offset"; "fk_002_offset"; "fk_003_offset"]
            (sl_fk_offset_list sl) /\
    wired (sl_blend_ctl sl) evs "ik_handle" (sl_ik_handle sl) /\
    wired (sl_blend_ctl sl) evs "ik_pole" (sl_ik_pole sl) /\
    wired (sl_blend_ctl sl) evs "ik_offset" (sl_ik_offset sl) /\
    Forall2 (wired (sl_blend_ctl sl) evs)
            ["ikm_001"; "ikm_002"; "ikm_003"; "ikm_006"] (sl_ikm_list sl) /\
    wired (sl_blend_ctl sl) evs "ik_ball" (sl_ik_ball sl).
Proof.
  intros E. unfold get_rig_connections in E. rig_unfold E.
  stanza_run E.
  all: repeat match goal with
              | X : rig_emitted _ _ _ [_] |- _ => progress simpl in X
              end.
  all: chain_logs.
  all: eexists; (split; [eassumption|]); cbn [sl_blend_ctl sl_fk_list
         sl_fk_offset_list sl_ik_handle sl_ik_pole sl_ik_offset sl_ikm_list
         sl_ik_ball].
  all: split;
    [ unfold chosen; cbn [py_truthy];
      try match goal with T : truthy _ = _ |- _ => rewrite T end;
      first [ reflexivity
            | eexists; split; [logged_there|eassumption] ]
    | ].
  all: split; [logged_there|].
  all: repeat match goal with
              | |- _ /\ _ => split
              | |- Forall2 _ _ _ => constructor
              | |- wired _ _ _ _ => wired_there
              end.
Qed.

(** ** snap_pole_vector_to_elbow *)

Lemma get_rig_connections_shape (G : RigHost) (obj : option string)
  (w w' : RigWorld G) (sl : SmartList) :
  get_rig_connections G obj w = (Fine sl, w') ->
  exists a b c d, sl_ikm_list sl = [a; b; c; d].
Proof.
  intros E. unfold get_rig_connections in E. rig_unfold E.
  stanza_run E; simpl; eauto.
Qed.

Ltac pole_step E :=
  match type of E with
  | ?l = _ =>
      let h := rig_head l in
      lazymatch h with
      | get_rig_connections ?G ?o ?w =>
          let sl := fresh "sl" in let e := fresh "e" in
          let w1 := fresh "w" in let R := fresh "R" in
          destruct (get_rig_connections G o w) as [[sl|e] w1] eqn:R;
          simpl in E
      | _ => rig_step E
      end
  end.

Ltac pole_run E := repeat pole_step E; inversion E; subst; clear E.

Ltac tidy_logs :=
  repeat match goal with
         | X : rig_emitted _ _ _ [_] |- _ => progress simpl in X
         end;
  chain_logs;
  repeat match goal with
         | X : rig_emitted _ _ _ _ |- _ => progress simpl in X
         end.

(** X14.  On a rig with the IK handle, the pole control and the second IKM
    joint wired, a returning [snap_pole_vector_to_elbow] has done, after
    the look-up, exactly this: [ikPin] of the handle set to 0, the world
    translation of the joint read, that translation written onto the pole
    control, [ikPin] set to 1 and, with [key], the pole control keyed. *)
Theorem snap_pole_moves_pole_to_elbow (G : RigHost) (key : bool)
  (w w1 w' : RigWorld G) (sl : SmartList) (h p e : string) :
  get_rig_connections G None w = (Fine sl, w1) ->
  sl_ik_handle sl = Some h -> truthy h = true ->
  sl_ik_pole sl = Some p -> truthy p = true ->
  py_index (sl_ikm_list sl) 1 = Ok (Some e) -> truthy e = true ->
  snap_pole_vector_to_elbow G key w = (Fine tt, w') ->
  exists t,
    rig_emitted G w1 w'
      ([ rig_done (Base (SetAttr (h ++ ".ikPin") 0));
         mkRigEv (Base (XformQueryT e)) (Gave (Plain (VFloats t)));
         rig_done (XformSetT p t);
         rig_done (Base (SetAttr (h ++ ".ikPin") 1)) ]
       ++ if key then [rig_done (Base (SetKeyframe [p]))] else []).
Proof.
  intros R Hh Th Hp Tp He Te E.
  unfold snap_pole_vector_to_elbow in E. rig_unfold E.
  rewrite R in E. simpl in E. rewrite He in E. simpl in E.
  rewrite Hh, Hp in E. simpl in E. rewrite Th, Tp, Te in E. simpl in E.
  destruct key; pole_run E; tidy_logs; eexists; simpl; eassumption.
Qed.

Lemma rig_latest_of (G : RigHost) (w w' : RigWorld G)
  (evs : list RigEvent) :
  rig_emitted G w w' evs ->
  rig_latest G w' = hd_error (rev evs ++ rig_log G w).
Proof. unfold rig_latest, rig_emitted. intros ->. reflexivity. Qed.

(** Splits on what the rig has wired, then runs. *)
Ltac pole_cases E R :=
  unfold snap_pole_vector_to_elbow in E; rig_unfold E;
  rewrite R in E; simpl in E;
  let a := fresh "j1" in let b := fresh "j2" in
  let c := fresh "j3" in let d := fresh "j4" in
  let Sh := fresh "Sh" in
  destruct (get_rig_connections_shape _ _ _ _ _ R) as (a & b & c & d & Sh);
  rewrite Sh in E; simpl in E;
  destruct b as [b|]; simpl in E.

Ltac each_rig_event Hin :=
  simpl in Hin;
  repeat (destruct Hin as [Hin|Hin]; [subst|]); [..|contradiction].

(** X15.  There is no cleanup around the pin: when the read of the elbow
    translation or the write onto the pole raises, the call ends with
    [ikPin] of the handle set to 0 and not set back (every write to it
    wrote 0). *)
Theorem snap_pole_failure_leaves_pin_off (G : RigHost) (key : bool)
  (w w1 w' : RigWorld G) (sl : SmartList) (h : string) (x : PyExn) :
  get_rig_connections G None w = (Fine sl, w1) ->
  sl_ik_handle sl = Some h -> truthy h = true ->
  snap_pole_vector_to_elbow G key w = (Fails x, w') ->
  exists evs c,
    rig_emitted G w1 w' evs /\
    rig_latest G w' = Some (mkRigEv c Threw) /\
    (is_elbow_or_pole_cmd c = true ->
     In (rig_done (Base (SetAttr (h ++ ".ikPin") 0))) evs /\
     forall v o,
       In (mkRigEv (Base (SetAttr (h ++ ".ikPin") v)) o) evs -> v = 0).
Proof.
  intros R Hh Th E. pole_cases E R.
  all: rewrite Hh in E; simpl in E; rewrite Th in E; simpl in E.
  all: destruct (sl_ik_pole sl) as [p|]; simpl in E.
  all: destruct key; pole_run E; tidy_logs.
  all: match goal with
       | Em : rig_emitted _ _ _ ?l |- _ =>
           exists l; eexists; split; [exact Em|];
           split; [rewrite (rig_latest_of _ _ _ _ Em); reflexivity|]
       end.
  all: intros C; try discriminate C.
  all: split; [simpl; auto|].
  all: intros v o Hin; simpl in Hin;
    repeat (destruct Hin as [Hin|Hin];
            [try discriminate Hin; inversion Hin; reflexivity|]);
    contradiction.
Qed.

(** X16.  On a rig without a pole control wired, a returning call with
    [key=True] has written no translation and ends with
    [pm.setKeyframe(None)]. *)
Theorem snap_pole_without_pole_keys_none (G : RigHost)
  (w w1 w' : RigWorld G) (sl : SmartList) :
  get_rig_connections G None w = (Fine sl, w1) ->
  sl_ik_pole sl = None ->
  snap_pole_vector_to_elbow G true w = (Fine tt, w') ->
  exists evs,
    rig_emitted G w1 w' evs /\
    rig_latest G w' = Some (rig_done SetKeyframeNone) /\
    forall ev, In ev evs -> is_translate_write (rig_cmd ev) = false.
Proof.
  intros R Hp E. pole_cases E R.
  all: rewrite Hp in E; simpl in E.
  all: destruct (sl_ik_handle sl) as [h|]; simpl in E.
  all: pole_run E; tidy_logs.
  all: match goal with
       | Em : rig_emitted _ _ _ ?l |- _ =>
           exists l; split; [exact Em|];
           split; [rewrite (rig_latest_of _ _ _ _ Em); reflexivity|]
       end.
  all: intros ev Hin; each_rig_event Hin; reflexivity.
Qed.

(** X17.  [snap_pole_vector_to_elbow] fails either as its
    [get_rig_connections] call failed, with the same error and nothing
    issued after it, or with an error raised inside a host command:
    [ikm_list[1]] never raises and [ikm_002_trans] is never read
    unbound. *)
Theorem snap_pole_fails_as_the_lookup_or_the_host (G : RigHost)
  (key : bool) (w w' : RigWorld G) (x : PyExn) :
  snap_pole_vector_to_elbow G key w = (Fails x, w') ->
  get_rig_connections G None w = (Fails x, w') \/ x = Core HostError.
Proof.
  intros E.
  destruct (get_rig_connections G None w) as [[sl|e] w1] eqn:R.
  - right. pole_cases E R.
    all: destruct (sl_ik_handle sl) as [h|]; simpl in E.
    all: destruct (sl_ik_pole sl) as [p|]; simpl in E.
    all: destruct key; pole_run E; reflexivity.
  - left. unfold snap_pole_vector_to_elbow in E. rig_unfold E.
    rewrite R in E. simpl in E. inversion E. reflexivity.
Qed.

(** ** add_connections *)

Section Wiring.

Variable G : RigHost.

Lemma global_unbound (globals : list string) (name : string)
  (w : RigWorld G) :
  ~ In name globals ->
  global G globals name w = (Fails (NameError name), w).
Proof.
  intros N. unfold global.
  destruct (existsb (String.eqb name) globals) eqn:X; [|reflexivity].
  apply existsb_exists in X. destruct X as (x & Hin & Q).
  apply String.eqb_eq in Q. subst x. contradiction.
Qed.

(** X18.  [add_connections] reaches the host through the name [cmds],
    which the module never binds: run with globals that lack it, the call
    raises NameError at the first entry of the first table, whatever the
    namespace, before any command is issued and with the scene as it
    was. *)
Theorem add_connections_needs_cmds (globals : list string)
  (namespace : option string) (w : RigWorld G) :
  ~ In "cmds" globals ->
  add_connections G globals namespace w = (Fails (NameError "cmds"), w).
Proof.
  intros N. unfold add_connections. simpl. unfold rbind at 1.
  unfold rbind at 1. unfold connect_one at 1. unfold rbind at 1.
  rewrite (global_unbound _ _ _ N). reflexivity.
Qed.

Lemma for_each_fine {A} (P : A -> list RigEvent -> Prop) (l : list A)
  (body : A -> RM G unit) :
  (forall a w w' u, body a w = (Fine u, w') ->
     exists evs, rig_emitted G w w' evs /\ P a evs) ->
  (forall a evs evs', incl evs evs' -> P a evs -> P a evs') ->
  forall w w' u, for_each G l body w = (Fine u, w') ->
    exists evs, rig_emitted G w w' evs /\ forall a, In a l -> P a evs.
Proof.
  intros Hb Hm. induction l as [|a l IH]; intros w w' u E; simpl in E.
  - inversion E; subst. exists []. split; [reflexivity|]. intros a [].
  - unfold rbind in E. destruct (body a w) as [[u1|e] w1] eqn:B;
      [|discriminate E].
    destruct (Hb _ _ _ _ B) as (l1 & E1 & P1).
    destruct (IH _ _ _ E) as (l2 & E2 & P2).
    exists (l1 ++ l2). split; [eapply rig_emitted_app; eassumption|].
    intros b [<-|Hin].
    + eapply Hm; [|exact P1]. apply incl_appl, incl_refl.
    + eapply Hm; [|exact (P2 b Hin)]. apply incl_appr, incl_refl.
Qed.

Lemma connect_one_fine (globals : list string) (namespace : option string)
  (obj attr rig_obj : string) (w w' : RigWorld G) (u : unit) :
  connect_one G globals namespace obj attr rig_obj w = (Fine u, w') ->
  exists evs, rig_emitted G w w' evs /\
              In (connected namespace obj attr rig_obj) evs.
Proof.
  intros E. unfold connect_one, global in E.
  destruct (existsb _ globals); rig_unfold E; [|discriminate E].
  rig_run E; tidy_logs; eexists; (split; [eassumption|]);
    unfold connected, rig_done; simpl; auto.
Qed.

(** X19.  A returning [add_connections] has connected, for every entry
    [attr: rig_obj] of every table, [rig_obj.message] to the attribute
    [attr] of the table's settings control, both names prefixed with the
    namespace when one is given. *)
Theorem add_connections_connects_every_entry (globals : list string)
  (namespace : option string) (w w' : RigWorld G) :
  add_connections G globals namespace w = (Fine tt, w') ->
  exists evs,
    rig_emitted G w w' evs /\
    forall obj dict attr rig_obj,
      In (obj, dict) controls -> In (attr, rig_obj) dict ->
      In (connected namespace obj attr rig_obj) evs.
Proof.
  intros E. unfold add_connections in E.
  apply (for_each_fine
           (fun entry evs =>
              forall item, In item (snd entry) ->
                In (connected namespace (fst entry) (fst item) (snd item))
                   evs)) in E.
  - destruct E as (evs & Em & P). exists evs. split; [exact Em|].
    intros obj dict attr rig_obj Ho Ha.
    exact (P (obj, dict) Ho (attr, rig_obj) Ha).
  - intros entry w0 w1 u B.
    apply (for_each_fine
             (fun item evs =>
                In (connected namespace (fst entry) (fst item) (snd item))
                   evs)) in B.
    + exact B.
    + intros item w2 w3 u' C. exact (connect_one_fine _ _ _ _ _ _ _ _ C).
    + intros item evs evs' I Hin. apply I, Hin.
  - intros entry evs evs' I P item Hin. apply I, P, Hin.
Qed.

Lemma adds_only_missing_nil : adds_only_missing [].
Proof. split; [intros ev []|intros n a o []]. Qed.

Lemma adds_only_missing_app (l1 l2 : list RigEvent) :
  adds_only_missing l1 -> adds_only_missing l2 ->
  adds_only_missing (l1 ++ l2).
Proof.
  intros [A1 B1] [A2 B2]. split.
  - intros ev Hin. apply in_app_or in Hin. destruct Hin; auto.
  - intros n a o Hin. apply in_app_or in Hin. apply in_or_app.
    destruct Hin; [left|right]; eauto.
Qed.

Lemma connect_one_adds_only_missing (globals : list string)
  (namespace : option string) (obj attr rig_obj : string) :
  emits G adds_only_missing
        (connect_one G globals namespace obj attr rig_obj).
Proof.
  intros w r w' E. unfold connect_one, global in E.
  destruct (existsb _ globals); rig_unfold E.
  - rig_run E; tidy_logs; eexists; (split; [eassumption|]).
    all: split;
      [ intros ev Hin; each_rig_event Hin; reflexivity
      | let n := fresh "node" in let a := fresh "attr" in
        let o := fresh "out" in
        intros n a o Hin; simpl in Hin;
        repeat (destruct Hin as [Hin|Hin];
                [try discriminate Hin; inversion Hin; subst; simpl; auto|]);
        contradiction ].
  - inversion E; subst. exists []. split; [reflexivity|].
    apply adds_only_missing_nil.
Qed.

(** X20.  On every exit [add_connections] has issued only attribute
    queries, [addAttr] and [connectAttr], and it has added an attribute
    only when the query for that attribute on that node answered no. *)
Theorem add_connections_adds_only_missing (globals : list string)
  (namespace : option string) (w w' : RigWorld G) (r : Out unit) :
  add_connections G globals namespace w = (r, w') ->
  exists evs, rig_emitted G w w' evs /\ adds_only_missing evs.
Proof.
  revert w r w'.
  change (emits G adds_only_missing (add_connections G globals namespace)).
  unfold add_connections.
  apply (emits_for_each _ _ adds_only_missing_nil adds_only_missing_app).
  intros entry _.
  apply (emits_for_each _ _ adds_only_missing_nil adds_only_missing_app).
  intros item _. apply connect_one_adds_only_missing.
Qed.

End Wiring.

(** ** The further theorems at work on the example rigs *)

Lemma snap_index_error_iff_witness :
  let w := Mock.start (Rig.bent_arm None 0) in
  let run := snap Mock.host Rig.arm_handle "arm_L0_003_ikm"
                  "armSettings_L0_001_ctl.blend" 1 w in
  fst run = Raise IndexError /\
  (fst run = Raise IndexError <->
   latest Mock.host (snd run)
   = Some (mkEv (Duplicate Rig.arm_handle) (Returned (VNames [])))
   \/ latest Mock.host (snd run)
      = Some (mkEv (ListRelativesParent Rig.arm_handle)
                   (Returned (VNames [])))).
Proof.
  intros w run. split; [vm_compute; reflexivity|].
  exact (snap_index_error_iff Mock.host Rig.arm_handle "arm_L0_003_ikm"
           "armSettings_L0_001_ctl.blend" 1 w (snd run) (fst run)
           (surjective_pairing run)).
Defined.

Lemma snap_acts_on_its_own_nodes_witness :
  let w := Mock.start (Rig.bent_arm (Some "rig") 0) in
  let run := snap Mock.host Rig.arm_handle "arm_L0_003_ikm"
                  "armSettings_L0_001_ctl.blend" 1 w in
  fst run = Ok tt /\
  exists evs,
    emitted Mock.host w (snd run) evs /\
    forall ev, In ev evs ->
      snap_keeps_to_its_own Rig.arm_handle "arm_L0_003_ikm" evs ev.
Proof.
  intros w run. split; [exact bent_arm_snap_returns|].
  exact (snap_acts_on_its_own_nodes Mock.host Rig.arm_handle "arm_L0_003_ikm"
           "armSettings_L0_001_ctl.blend" 1 w (snd run) (fst run)
           (surjective_pairing run)).
Defined.

Lemma bent_arm_ik_to_fk_moves :
  fst (ik_to_fk Mock.host Rig.arm_fk Rig.arm_ikm Rig.arm_handle Rig.arm_pole
         Rig.arm_offset "" Rig.arm_blend false false
         (Mock.start (Rig.bent_arm (Some "rig") 0))) = Ok tt.
Proof. bent_arm_run. reflexivity. Qed.

Lemma ik_to_fk_transfers_handle_one_way_witness :
  let w := Mock.start (Rig.bent_arm (Some "rig") 0) in
  let run := ik_to_fk Mock.host Rig.arm_fk Rig.arm_ikm Rig.arm_handle
               Rig.arm_pole Rig.arm_offset "" Rig.arm_blend false false w in
  fst run = Ok tt /\
  exists evs,
    emitted Mock.host w (snd run) evs /\
    (forall ev, In ev evs -> is_proxy_cmd (ev_cmd ev) = false) /\
    (false = false ->
     forall a v o, In (mkEv (SetAttr a v) o) evs ->
       (a = (Rig.arm_handle ++ ".ikRoll")%string /\ v = 0) \/
       (a = (Rig.arm_blend ++ ".blend")%string /\
        In (mkEv (GetAttr (Rig.arm_blend ++ ".blend")) (Returned (VFloat v)))
           evs)).
Proof.
  intros w run. split; [exact bent_arm_ik_to_fk_moves|].
  exact (ik_to_fk_transfers_handle_one_way Mock.host Rig.arm_fk Rig.arm_ikm
           Rig.arm_handle Rig.arm_pole Rig.arm_offset "" Rig.arm_blend
           false false w (snd run) (fst run) (surjective_pairing run)).
Defined.

Lemma orchestrators_need_three_joints_witness :
  let w := Mock.start (Rig.bent_arm (Some "rig") 0) in
  let run1 := ik_to_fk Mock.host Rig.arm_fk Rig.arm_ikm Rig.arm_handle
                Rig.arm_pole Rig.arm_offset "" Rig.arm_blend true false w in
  let run2 := fk_to_ik Mock.host Rig.arm_fk [] Rig.arm_ikm ""
                Rig.arm_blend false w in
  not_stopped (fst run1) /\ not_stopped (fst run2) /\
  ((3 <= List.length Rig.arm_fk)%nat /\
   (true = true -> (3 <= List.length Rig.arm_ikm)%nat)) /\
  ((3 <= List.length Rig.arm_fk)%nat /\ (3 <= List.length Rig.arm_ikm)%nat).
Proof.
  intros w run1 run2.
  assert (N1 : not_stopped (fst run1))
    by (apply returns_not_stopped, bent_arm_ik_to_fk_returns).
  assert (N2 : not_stopped (fst run2))
    by (apply returns_not_stopped, bent_arm_fk_to_ik_returns).
  split; [exact N1|]. split; [exact N2|].
  pose proof (orchestrators_need_three_joints Mock.host Rig.arm_fk []
                Rig.arm_ikm Rig.arm_handle Rig.arm_pole Rig.arm_offset ""
                Rig.arm_blend true false w (snd run1) (snd run2)
                (fst run1) (fst run2)) as [A B].
  split.
  - exact (A (surjective_pairing run1) N1).
  - exact (B (surjective_pairing run2) N2).
Defined.

Lemma ik_to_fk_touches_only_ik_controls_witness :
  let w := Mock.start (Rig.leg 0) in
  let run := ik_to_fk Mock.host Rig.leg_fk Rig.leg_ikm Rig.leg_handle
               Rig.leg_pole Rig.leg_offset Rig.leg_ball Rig.leg_blend
               true true w in
  fst run = Ok tt /\
  exists evs,
    emitted Mock.host w (snd run) evs /\
    forall ev n, In ev evs -> In n (touched (ev_cmd ev)) ->
      In n [Rig.leg_handle; Rig.leg_pole; Rig.leg_ball].
Proof.
  intros w run. split; [exact leg_ik_to_fk_returns|].
  exact (ik_to_fk_touches_only_ik_controls Mock.host Rig.leg_fk Rig.leg_ikm
           Rig.leg_handle Rig.leg_pole Rig.leg_offset Rig.leg_ball
           Rig.leg_blend true true w (snd run) (fst run)
           (surjective_pairing run)).
Defined.

Lemma fk_to_ik_touches_only_fk_controls_witness :
  let w := Mock.start (Rig.leg 0) in
  let run := fk_to_ik Mock.host Rig.leg_fk [] Rig.leg_ikm Rig.leg_ball
               Rig.leg_blend true w in
  fst run = Ok tt /\
  exists evs,
    emitted Mock.host w (snd run) evs /\
    forall ev n, In ev evs -> In n (touched (ev_cmd ev)) -> In n Rig.leg_fk.
Proof.
  intros w run. split; [exact leg_fk_to_ik_returns|].
  exact (fk_to_ik_touches_only_fk_controls Mock.host Rig.leg_fk []
           Rig.leg_ikm Rig.leg_ball Rig.leg_blend true w (snd run) (fst run)
           (surjective_pairing run)).
Defined.

(** ** The second layer at work on the mocked rig *)

Lemma cmds_not_bound : ~ In "cmds" module_globals.
Proof.
  intros Q. simpl in Q.
  repeat (destruct Q as [Q|Q]; [discriminate Q|]). exact Q.
Qed.

Lemma arm_connections_found :
  fst (get_rig_connections RigMock.host None
         (RigMock.start (RigMock.arm ["armSettings_L0_001_ctl"] [])))
  = Fine RigMock.arm_wiring.
Proof. vm_compute. reflexivity. Qed.

Lemma arm_pole_snapped (key : bool) :
  fst (snap_pole_vector_to_elbow RigMock.host key
         (RigMock.start (RigMock.arm ["armSettings_L0_001_ctl"] [])))
  = Fine tt.
Proof. destruct key; vm_compute; reflexivity. Qed.

Lemma get_rig_connections_unbound_iff_no_blend_witness :
  let w := RigMock.start (RigMock.arm ["rig"] []) in
  let run := get_rig_connections RigMock.host None w in
  fst run = Fails (Core (UnboundLocalError "fk_001")) /\
  ((exists o, rig_latest RigMock.host (snd run)
              = Some (mkRigEv (AttributeQuery "blend" o)
                              (Gave (VBool false))))
   <-> fst run = Fails (Core (UnboundLocalError "fk_001"))) /\
  (forall name, fst run = Fails (Core (UnboundLocalError name)) ->
                name = "fk_001").
Proof.
  intros w run. split; [vm_compute; reflexivity|].
  exact (get_rig_connections_unbound_iff_no_blend RigMock.host None w
           (snd run) (fst run) (surjective_pairing run)).
Defined.

Lemma get_rig_connections_index_error_iff_witness :
  let w := RigMock.start (RigMock.arm [] []) in
  let run := get_rig_connections RigMock.host None w in
  fst run = Fails (Core IndexError) /\
  (fst run = Fails (Core IndexError) <->
   rig_latest RigMock.host (snd run)
   = Some (mkRigEv Ls (Gave (Plain (VNames []))))
   \/ exists plug,
        rig_latest RigMock.host (snd run)
        = Some (mkRigEv (ListConnections plug) (Gave (Plain (VNames []))))).
Proof.
  intros w run. split; [vm_compute; reflexivity|].
  exact (get_rig_connections_index_error_iff RigMock.host None w
           (snd run) (fst run) (surjective_pairing run)).
Defined.

Lemma get_rig_connections_only_queries_witness :
  let w := RigMock.start (RigMock.arm ["armSettings_L0_001_ctl"] []) in
  let run := get_rig_connections RigMock.host None w in
  fst run = Fine RigMock.arm_wiring /\
  exists evs,
    rig_emitted RigMock.host w (snd run) evs /\
    forall ev, In ev evs -> is_query (rig_cmd ev) = true.
Proof.
  intros w run. split; [exact arm_connections_found|].
  exact (get_rig_connections_only_queries RigMock.host None w (snd run)
           (fst run) (surjective_pairing run)).
Defined.

Lemma get_rig_connections_returns_the_wiring_witness :
  let w := RigMock.start (RigMock.arm ["armSettings_L0_001_ctl"] []) in
  let run := get_rig_connections RigMock.host None w in
  let sl := RigMock.arm_wiring in
  fst run = Fine sl /\
  exists evs,
    rig_emitted RigMock.host w (snd run) evs /\
    chosen None evs (sl_blend_ctl sl) /\
    In (mkRigEv (AttributeQuery "blend" (sl_blend_ctl sl))
                (Gave (VBool true))) evs /\
    Forall2 (wired (sl_blend_ctl sl) evs)
            ["fk_001"; "fk_002"; "fk_003"; "fk_005"] (sl_fk_list sl) /\
    Forall2 (wired (sl_blend_ctl sl) evs)
            ["fk_001_offset"; "fk_002_offset"; "fk_003_offset"]
            (sl_fk_offset_list sl) /\
    wired (sl_blend_ctl sl) evs "ik_handle" (sl_ik_handle sl) /\
    wired (sl_blend_ctl sl) evs "ik_pole" (sl_ik_pole sl) /\
    wired (sl_blend_ctl sl) evs "ik_offset" (sl_ik_offset sl) /\
    Forall2 (wired (sl_blend_ctl sl) evs)
            ["ikm_001"; "ikm_002"; "ikm_003"; "ikm_006"] (sl_ikm_list sl) /\
    wired (sl_blend_ctl sl) evs "ik_ball" (sl_ik_ball sl).
Proof.
  intros w run sl. split; [exact arm_connections_found|].
  exact (get_rig_connections_returns_the_wiring RigMock.host None w (snd run)
           sl (pair_of_fst run (Fine sl) arm_connections_found)).
Defined.

Lemma snap_pole_moves_pole_to_elbow_witness :
  let w := RigMock.start (RigMock.arm ["armSettings_L0_001_ctl"] []) in
  let found := get_rig_connections RigMock.host None w in
  let run := snap_pole_vector_to_elbow RigMock.host true w in
  fst found = Fine RigMock.arm_wiring /\
  fst run = Fine tt /\
  exists t,
    rig_emitted RigMock.host (snd found) (snd run)
      ([ rig_done (Base (SetAttr ("handIk_L0_001_ctl" ++ ".ikPin") 0));
         mkRigEv (Base (XformQueryT "arm_L0_002_ikm"))
                 (Gave (Plain (VFloats t)));
         rig_done (XformSetT "armPoleVectorIk_L0_001_ctl" t);
         rig_done (Base (SetAttr ("handIk_L0_001_ctl" ++ ".ikPin") 1)) ]
       ++ [rig_done (Base (SetKeyframe ["armPoleVectorIk_L0_001_ctl"]))]).
Proof.
  intros w found run.
  split; [exact arm_connections_found|].
  split; [exact (arm_pole_snapped true)|].
  exact (snap_pole_moves_pole_to_elbow RigMock.host true w (snd found)
           (snd run) RigMock.arm_wiring "handIk_L0_001_ctl"
           "armPoleVectorIk_L0_001_ctl" "arm_L0_002_ikm"
           (pair_of_fst found (Fine RigMock.arm_wiring) arm_connections_found)
           eq_refl eq_refl eq_refl eq_refl eq_refl eq_refl
           (pair_of_fst run (Fine tt) (arm_pole_snapped true))).
Defined.

Lemma lost_elbow_connections_found :
  fst (get_rig_connections RigMock.host None
         (RigMock.start
            (RigMock.arm ["armSettings_L0_001_ctl"]
               [("armSettings_L0_001_ctl.ikm_002", ["missing_joint"])])))
  = Fine (mkSmartList
            (sl_fk_list RigMock.arm_wiring)
            (sl_fk_offset_list RigMock.arm_wiring)
            (sl_ik_handle RigMock.arm_wiring)
            (sl_ik_pole RigMock.arm_wiring)
            (sl_ik_offset RigMock.arm_wiring)
            (sl_blend_ctl RigMock.arm_wiring)
            [ Some "arm_L0_001_ikm"; Some "missing_joint";
              Some "arm_L0_003_ikm"; None ]
            None).
Proof. vm_compute. reflexivity. Qed.

Lemma lost_elbow_pole_fails :
  fst (snap_pole_vector_to_elbow RigMock.host true
         (RigMock.start
            (RigMock.arm ["armSettings_L0_001_ctl"]
               [("armSettings_L0_001_ctl.ikm_002", ["missing_joint"])])))
  = Fails (Core HostError).
Proof. vm_compute. reflexivity. Qed.

Lemma snap_pole_failure_leaves_pin_off_witness :
  let w := RigMock.start
             (RigMock.arm ["armSettings_L0_001_ctl"]
                [("armSettings_L0_001_ctl.ikm_002", ["missing_joint"])]) in
  let found := get_rig_connections RigMock.host None w in
  let run := snap_pole_vector_to_elbow RigMock.host true w in
  fst run = Fails (Core HostError) /\
  exists evs c,
    rig_emitted RigMock.host (snd found) (snd run) evs /\
    rig_latest RigMock.host (snd run) = Some (mkRigEv c Threw) /\
    (is_elbow_or_pole_cmd c = true ->
     In (rig_done (Base (SetAttr ("handIk_L0_001_ctl" ++ ".ikPin") 0))) evs /\
     forall v o,
       In (mkRigEv (Base (SetAttr ("handIk_L0_001_ctl" ++ ".ikPin") v)) o)
          evs -> v = 0).
Proof.
  intros w found run.
  split; [exact lost_elbow_pole_fails|].
  exact (snap_pole_failure_leaves_pin_off RigMock.host true w (snd found)
           (snd run) _ "handIk_L0_001_ctl" (Core HostError)
           (pair_of_fst found _ lost_elbow_connections_found)
           eq_refl eq_refl
           (pair_of_fst run _ lost_elbow_pole_fails)).
Defined.

Lemma no_pole_connections_found :
  fst (get_rig_connections RigMock.host None
         (RigMock.start
            (RigMock.arm_without_pole ["armSettings_L0_001_ctl"])))
  = Fine (mkSmartList
            [None; None; None; None] [None; None; None]
            (Some "handIk_L0_001_ctl") None None "armSettings_L0_001_ctl"
            [None; Some "arm_L0_002_ikm"; None; None] None).
Proof. vm_compute. reflexivity. Qed.

Lemma no_pole_run_returns :
  fst (snap_pole_vector_to_elbow RigMock.host true
         (RigMock.start
            (RigMock.arm_without_pole ["armSettings_L0_001_ctl"])))
  = Fine tt.
Proof. vm_compute. reflexivity. Qed.

Lemma snap_pole_without_pole_keys_none_witness :
  let w := RigMock.start
             (RigMock.arm_without_pole ["armSettings_L0_001_ctl"]) in
  let found := get_rig_connections RigMock.host None w in
  let run := snap_pole_vector_to_elbow RigMock.host true w in
  fst run = Fine tt /\
  exists evs,
    rig_emitted RigMock.host (snd found) (snd run) evs /\
    rig_latest RigMock.host (snd run) = Some (rig_done SetKeyframeNone) /\
    forall ev, In ev evs -> is_translate_write (rig_cmd ev) = false.
Proof.
  intros w found run.
  split; [exact no_pole_run_returns|].
  exact (snap_pole_without_pole_keys_none RigMock.host w (snd found)
           (snd run) _
           (pair_of_fst found _ no_pole_connections_found)
           eq_refl
           (pair_of_fst run _ no_pole_run_returns)).
Defined.

Lemma nothing_selected_pole_fails :
  fst (snap_pole_vector_to_elbow RigMock.host true
         (RigMock.start (RigMock.arm [] [])))
  = Fails (Core IndexError).
Proof. vm_compute. reflexivity. Qed.

Lemma snap_pole_fails_as_the_lookup_or_the_host_witness :
  let w := RigMock.start (RigMock.arm [] []) in
  let run := snap_pole_vector_to_elbow RigMock.host true w in
  fst run = Fails (Core IndexError) /\
  (get_rig_connections RigMock.host None w
   = (Fails (Core IndexError), snd run)
   \/ Core IndexError = Core HostError).
Proof.
  intros w run.
  split; [exact nothing_selected_pole_fails|].
  exact (snap_pole_fails_as_the_lookup_or_the_host RigMock.host true w
           (snd run) (Core IndexError)
           (pair_of_fst run _ nothing_selected_pole_fails)).
Defined.

Lemma add_connections_needs_cmds_witness :
  add_connections RigMock.host module_globals (Some "hero")
    (RigMock.start RigMock.unwired)
  = (Fails (NameError "cmds"), RigMock.start RigMock.unwired).
Proof.
  exact (add_connections_needs_cmds RigMock.host module_globals
           (Some "hero") (RigMock.start RigMock.unwired) cmds_not_bound).
Defined.

Lemma unwired_rig_gets_wired :
  fst (add_connections RigMock.host ("cmds" :: module_globals) None
         (RigMock.start RigMock.unwired)) = Fine tt.
Proof. vm_compute. reflexivity. Qed.

Lemma add_connections_connects_every_entry_witness :
  let w := RigMock.start RigMock.unwired in
  let run := add_connections RigMock.host ("cmds" :: module_globals)
               None w in
  fst run = Fine tt /\
  exists evs,
    rig_emitted RigMock.host w (snd run) evs /\
    forall obj dict attr rig_obj,
      In (obj, dict) controls -> In (attr, rig_obj) dict ->
      In (connected None obj attr rig_obj) evs.
Proof.
  intros w run.
  split; [exact unwired_rig_gets_wired|].
  exact (add_connections_connects_every_entry RigMock.host
           ("cmds" :: module_globals) None w (snd run)
           (pair_of_fst run _ unwired_rig_gets_wired)).
Defined.

Lemma add_connections_adds_only_missing_witness :
  let w := RigMock.start RigMock.unwired in
  let run := add_connections RigMock.host ("cmds" :: module_globals)
               None w in
  fst run = Fine tt /\
  exists evs,
    rig_emitted RigMock.host w (snd run) evs /\ adds_only_missing evs.
Proof.
  intros w run.
  split; [exact unwired_rig_gets_wired|].
  exact (add_connections_adds_only_missing RigMock.host
           ("cmds" :: module_globals) None w (snd run) (fst run)
           (surjective_pairing run)).
Defined.
(** ** From wiring to look-up *)

Lemma append_assoc3 (a b c : string) :
  ((a ++ b) ++ c = a ++ (b ++ c))%string.
Proof. induction a as [|x a IH]; simpl; [reflexivity|]. rewrite IH. reflexivity. Qed.

Lemma append_cancel_l (p a b : string) :
  (p ++ a = p ++ b)%string -> a = b.
Proof.
  induction p as [|x p IH]; simpl; intros E; [exact E|].
  inversion E. auto.
Qed.

Lemma without_message_of (n : string) :
  RigMock.without_message (n ++ ".message") = n.
Proof.
  unfold RigMock.without_message.
  assert (L : forall a b : string,
             String.length (a ++ b) = (String.length a + String.length b)%nat).
  { intros a b. induction a as [|x a IH]; simpl; [reflexivity|].
    rewrite IH. reflexivity. }
  rewrite L. replace (String.length n + String.length ".message"
                      - String.length ".message")%nat
    with (String.length n) by lia.
  induction n as [|x n IH]; simpl; [reflexivity|]. rewrite IH. reflexivity.
Qed.

Section Carried.

Variable G : RigHost.
Hypothesis laws : WiringLaws G.

Lemma rcall_exec (c : RigCmd) (w w' : RigWorld G) (r : Out (rig_ret c)) :
  rcall G c w = (r, w') ->
  exists o, rig_exec G c (rig_scene G w) = (o, rig_scene G w') /\
            r = match o with
                | Some a => Fine a
                | None => Fails (Core HostError)
                end.
Proof.
  unfold rcall. intros E.
  destruct (rig_exec G c (rig_scene G w)) as [[a|] s] eqn:X;
    inversion E; subst; simpl; eauto.
Qed.

Lemma carried_refl (w : RigWorld G) : carried G w w.
Proof. intros o a n P. exact P. Qed.

Lemma carried_trans (w w1 w2 : RigWorld G) :
  carried G w w1 -> carried G w1 w2 -> carried G w w2.
Proof. intros A B o a n P. apply B, A, P. Qed.

Lemma query_carries (c : RigCmd) (w w' : RigWorld G) (r : Out (rig_ret c)) :
  is_query c = true -> rcall G c w = (r, w') -> carried G w w'.
Proof.
  intros Q E o a n P. destruct (rcall_exec _ _ _ _ E) as (x & X & _).
  eapply (wiring_frame G laws); [exact X| |exact P].
  destruct c; try discriminate Q; reflexivity.
Qed.

Lemma connection_carries (obj attr : string) (w w' : RigWorld G)
  (r : Out (option string)) :
  connection G obj attr w = (r, w') ->
  carried G w w' /\
  forall v n, r = Fine v ->
    plug_reads G (rig_scene G w) obj attr n -> v = Some n.
Proof.
  intros E. unfold connection, rbind in E.
  destruct (rcall G (AttributeQuery attr obj) w) as [[has|e] w1] eqn:A.
  2:{ inversion E; subst. split; [eapply query_carries; [|exact A]; reflexivity|].
      intros v n Q; discriminate Q. }
  pose proof (query_carries (AttributeQuery attr obj) _ _ _ eq_refl A) as C1.
  destruct (rcall_exec _ _ _ _ A) as (x & X & Rx).
  destruct has.
  - destruct (rcall G (ListConnections (obj ++ "." ++ attr)) w1)
      as [[l|e] w2] eqn:B.
    2:{ inversion E; subst. split.
        - eapply carried_trans; [exact C1|].
          eapply query_carries; [|exact B]; reflexivity.
        - intros v n Q; discriminate Q. }
    pose proof (query_carries (ListConnections (obj ++ "." ++ attr)) _ _ _
                  eq_refl B) as C2.
    destruct (rcall_exec _ _ _ _ B) as (y & Y & Ry).
    simpl in l. unfold rlift, rret, throw in E.
    destruct (py_index l 0) as [m|e] eqn:I; inversion E; subst.
    + split; [eapply carried_trans; eassumption|].
      intros v n Q P. inversion Q; subst.
      destruct (C1 _ _ _ P) as [_ P2]. rewrite Y in P2. simpl in P2.
      destruct y as [l'|]; [|discriminate Ry]. inversion Ry; subst.
      inversion P2; subst. unfold py_index in I; simpl in I.
      inversion I. reflexivity.
    + split; [eapply carried_trans; eassumption|].
      intros v n Q; discriminate Q.
  - unfold rret in E. inversion E; subst. split; [exact C1|].
    intros v n Q P. destruct P as [P1 _]. rewrite X in P1. simpl in P1.
    destruct x as [b|]; [|discriminate Rx]. inversion Rx; subst.
    discriminate P1.
Qed.

End Carried.

Lemma truthy_in_namespace (namespace : option string) (x : string) :
  truthy x = true -> truthy (in_namespace namespace x) = true.
Proof.
  intros T. unfold in_namespace. destruct namespace as [ns|]; [|exact T].
  destruct ns as [|c ns]; simpl; [exact T|reflexivity].
Qed.

Lemma in_namespace_prefix (namespace : option string) (x : string) :
  in_namespace namespace x = (namespace_prefix namespace ++ x)%string.
Proof.
  unfold in_namespace, namespace_prefix.
  destruct namespace as [ns|]; [|reflexivity].
  destruct (truthy ns); [|reflexivity].
  rewrite append_assoc3. reflexivity.
Qed.

Section ForEach.

Variable G : RigHost.

Lemma rbind_ext {A B} (m : RM G A) (k k' : A -> RM G B) (w : RigWorld G) :
  (forall a w1, k a w1 = k' a w1) -> rbind G m k w = rbind G m k' w.
Proof.
  intros E. unfold rbind. destruct (m w) as [[a|e] w1]; [apply E|reflexivity].
Qed.

Lemma for_each_app {A} (l1 l2 : list A) (body : A -> RM G unit)
  (w : RigWorld G) :
  for_each G (l1 ++ l2) body w
  = rbind G (for_each G l1 body) (fun _ => for_each G l2 body) w.
Proof.
  revert w. induction l1 as [|a l1 IH]; intros w; simpl.
  - reflexivity.
  - unfold rbind in *.
    destruct (body a w) as [[u|e] w1]; [apply IH|reflexivity].
Qed.

Lemma for_each_map {A B} (h : A -> B) (l : list A) (body : B -> RM G unit)
  (w : RigWorld G) :
  for_each G (map h l) body w = for_each G l (fun a => body (h a)) w.
Proof.
  revert w. induction l as [|a l IH]; intros w; simpl; [reflexivity|].
  apply rbind_ext. intros _ w1. apply IH.
Qed.

Lemma for_each_flat_map {A B} (f : A -> list B) (l : list A)
  (body : B -> RM G unit) (w : RigWorld G) :
  for_each G (flat_map f l) body w
  = for_each G l (fun a => for_each G (f a) body) w.
Proof.
  revert w. induction l as [|a l IH]; intros w; simpl; [reflexivity|].
  rewrite for_each_app. apply rbind_ext. intros _ w1. apply IH.
Qed.

Lemma for_each_ext {A} (l : list A) (body body' : A -> RM G unit)
  (w : RigWorld G) :
  (forall a w1, body a w1 = body' a w1) ->
  for_each G l body w = for_each G l body' w.
Proof.
  intros E. revert w. induction l as [|a l IH]; intros w; simpl;
    [reflexivity|].
  unfold rbind. rewrite E. destruct (body' a w) as [[u|e] w1];
    [apply IH|reflexivity].
Qed.

Lemma add_connections_flat (globals : list string)
  (namespace : option string) (w : RigWorld G) :
  add_connections G globals namespace w
  = for_each G table_entries
      (fun t => connect_one G globals namespace
                  (fst t) (fst (snd t)) (snd (snd t))) w.
Proof.
  unfold add_connections, table_entries. rewrite for_each_flat_map.
  apply for_each_ext. intros entry w1. rewrite for_each_map. reflexivity.
Qed.

End ForEach.

Section Wires.

Variable G : RigHost.
Hypothesis laws : WiringLaws G.
Variable globals : list string.
Variable namespace : option string.

Lemma connect_one_wires (obj attr rig_obj : string) (w w' : RigWorld G)
  (u : unit) :
  connect_one G globals namespace obj attr rig_obj w = (Fine u, w') ->
  plug_reads G (rig_scene G w') (in_namespace namespace obj) attr
             (in_namespace namespace rig_obj) /\
  forall o a n,
    (o ++ "." ++ a)%string
    <> (in_namespace namespace obj ++ "." ++ attr)%string ->
    plug_reads G (rig_scene G w) o a n ->
    plug_reads G (rig_scene G w') o a n.
Proof.
  intros E. unfold connect_one, global in E.
  destruct (existsb _ globals); unfold rbind, rret, throw in E;
    [|discriminate E].
  set (o' := in_namespace namespace obj) in *.
  set (n' := in_namespace namespace rig_obj) in *.
  destruct (rcall G (AttributeQuery attr o') w) as [[has|e] w1] eqn:A;
    [|discriminate E].
  destruct (rcall_exec _ _ _ _ _ A) as (x & X & _).
  assert (S1 : forall o a n, plug_reads G (rig_scene G w) o a n ->
                             plug_reads G (rig_scene G w1) o a n).
  { intros o a n P. eapply (wiring_frame G laws); [exact X|reflexivity|exact P]. }
  assert (S2 : exists w2,
             rcall G (ConnectAttr (n' ++ ".message") (o' ++ "." ++ attr)) w2
             = (Fine u, w') /\
             forall o a n, (o ++ "." ++ a)%string <> (o' ++ "." ++ attr)%string ->
                           plug_reads G (rig_scene G w) o a n ->
                           plug_reads G (rig_scene G w2) o a n).
  { simpl in has. destruct has; simpl in E.
    - exists w1. split; [exact E|]. intros o a n _ P. apply S1, P.
    - destruct (rcall G (AddAttr o' attr) w1) as [[v|e] w2] eqn:B;
        [|discriminate E].
      destruct (rcall_exec _ _ _ _ _ B) as (y & Y & _).
      exists w2. split; [exact E|]. intros o a n N P.
      eapply (wiring_frame G laws); [exact Y| |apply S1, P].
      simpl. apply String.eqb_neq. intros Q. apply N. symmetry. exact Q. }
  destruct S2 as (w2 & C & S3).
  destruct (rcall_exec _ _ _ _ _ C) as (z & Z & Rz).
  destruct z as [t|]; [|discriminate Rz]. destruct t.
  split.
  - exact (connect_read G laws _ _ _ _ _ Z).
  - intros o a n N P.
    eapply (wiring_frame G laws); [exact Z| |apply S3; assumption].
    simpl. apply String.eqb_neq. intros Q. apply N. symmetry. exact Q.
Qed.

Lemma wires_all (l : list (string * (string * string))) :
  NoDup (map (plug_of namespace) l) ->
  forall w w' u,
    for_each G l (fun t => connect_one G globals namespace
                             (fst t) (fst (snd t)) (snd (snd t))) w
    = (Fine u, w') ->
    (forall t, In t l ->
       plug_reads G (rig_scene G w') (in_namespace namespace (fst t))
                  (fst (snd t)) (in_namespace namespace (snd (snd t)))) /\
    (forall o a n, ~ In (o ++ "." ++ a)%string (map (plug_of namespace) l) ->
       plug_reads G (rig_scene G w) o a n ->
       plug_reads G (rig_scene G w') o a n).
Proof.
  induction l as [|t l IH]; intros ND w w' u E; simpl in E.
  - inversion E; subst. split; [intros t []|intros o a n _ P; exact P].
  - unfold rbind in E.
    destruct (connect_one G globals namespace (fst t) (fst (snd t))
                (snd (snd t)) w) as [[u1|e] w1] eqn:B; [|discriminate E].
    destruct (connect_one_wires _ _ _ _ _ _ B) as [P1 F1].
    inversion ND as [|x xs Nin ND']; subst.
    destruct (IH ND' _ _ _ E) as [P2 F2].
    split.
    + intros t' [<-|Hin]; [|exact (P2 t' Hin)].
      apply F2; [exact Nin|exact P1].
    + intros o a n Nin' P. apply F2.
      * intros Q. apply Nin'. right. exact Q.
      * apply F1; [|exact P]. intros Q. apply Nin'. left. symmetry. exact Q.
Qed.

End Wires.

Lemma distinct_NoDup (l : list string) : distinct l = true -> NoDup l.
Proof.
  induction l as [|a l IH]; simpl; intros D; [constructor|].
  apply andb_prop in D. destruct D as [D1 D2].
  constructor; [|exact (IH D2)].
  intros Hin. apply negb_true_iff in D1.
  assert (X : existsb (String.eqb a) l = true).
  { apply existsb_exists. exists a. split; [exact Hin|apply String.eqb_refl]. }
  rewrite X in D1. discriminate D1.
Qed.

Lemma NoDup_prefixed (p : string) (l : list string) :
  NoDup l -> NoDup (map (String.append p) l).
Proof.
  induction 1 as [|a l Nin ND IH]; simpl; constructor; [|exact IH].
  intros Hin. apply in_map_iff in Hin. destruct Hin as (b & Q & Hb).
  apply append_cancel_l in Q. subst b. contradiction.
Qed.

Lemma table_plugs_differ (namespace : option string) :
  NoDup (map (plug_of namespace) table_entries).
Proof.
  assert (E : map (plug_of namespace) table_entries
              = map (String.append (namespace_prefix namespace))
                    (map (fun t => (fst t ++ "." ++ fst (snd t))%string)
                         table_entries)).
  { rewrite map_map. apply map_ext. intros t. unfold plug_of.
    rewrite in_namespace_prefix, append_assoc3. reflexivity. }
  rewrite E. apply NoDup_prefixed, distinct_NoDup. vm_compute. reflexivity.
Qed.

Section RoundTrip.

Variable G : RigHost.
Hypothesis laws : WiringLaws G.

Ltac reads_step E :=
  match type of E with
  | ?l = _ =>
      let h := rig_head l in
      lazymatch h with
      | connection ?G ?o ?a ?w =>
          let v := fresh "v" in let e := fresh "e" in
          let w1 := fresh "w" in let C := fresh "C" in
          let Cr := fresh "Cr" in let K := fresh "K" in
          destruct (connection G o a w) as [[v|e] w1] eqn:C;
          [ destruct (connection_carries G laws _ _ _ _ _ C) as [Cr K];
            clear C; simpl in E
          | discriminate E ]
      end
  end.

Lemma lookup_reads (o : string) (w1 w2 : RigWorld G) (sl : SmartList) :
  truthy o = true ->
  get_rig_connections G (Some o) w1 = (Fine sl, w2) ->
  forall attr v n,
    In (attr, v) (entries sl) ->
    plug_reads G (rig_scene G w1) o attr n -> v = Some n.
Proof.
  intros T E. unfold get_rig_connections in E. rewrite T in E.
  rig_unfold E.
  destruct (rcall G (AttributeQuery "blend" o) w1) as [[has|e] w] eqn:B;
    [|discriminate E].
  pose proof (query_carries G laws (AttributeQuery "blend" o) _ _ _
                eq_refl B) as C0.
  clear B. simpl in has. destruct has; simpl in E; [|discriminate E].
  repeat reads_step E. inversion E; subst; clear E.
  intros attr val n Hin P. unfold entries in Hin; simpl in Hin.
  repeat (destruct Hin as [Hin|Hin];
          [ inversion Hin; subst;
            match goal with
            | K : forall v n, Fine ?x = Fine v -> _ -> v = Some n
              |- ?x = Some _ => apply (K x n eq_refl)
            end;
            repeat match goal with
                   | C : carried _ _ ?wb
                     |- plug_reads _ (rig_scene _ ?wb) _ _ _ => apply C
                   end;
            exact P |]).
  contradiction.
Qed.

Lemma lookup_names (o : string) (w1 w2 : RigWorld G) (sl : SmartList) :
  truthy o = true ->
  get_rig_connections G (Some o) w1 = (Fine sl, w2) ->
  map fst (entries sl) = read_names.
Proof.
  intros T E. unfold get_rig_connections in E. rewrite T in E.
  rig_unfold E.
  destruct (rcall G (AttributeQuery "blend" o) w1) as [[has|e] w] eqn:B;
    [|discriminate E].
  clear B. simpl in has. destruct has; simpl in E; [|discriminate E].
  repeat reads_step E. inversion E; subst; clear E.
  reflexivity.
Qed.

Lemma read_name_has_entry (sl : SmartList) (attr : string) :
  map fst (entries sl) = read_names ->
  In attr read_names ->
  exists v, In (attr, v) (entries sl).
Proof.
  intros N Hin. rewrite <- N in Hin.
  apply in_map_iff in Hin. destruct Hin as ([a v] & Q & Hin).
  simpl in Q. subst a. exists v. exact Hin.
Qed.

Lemma table_names_read (obj attr rig_obj : string)
  (dict : list (string * string)) :
  In (obj, dict) controls ->
  In (attr, rig_obj) dict ->
  attr <> "ik_base" ->
  In attr read_names.
Proof.
  intros Ho Ha N. simpl in Ho.
  repeat (destruct Ho as [Ho|Ho];
          [ inversion Ho; subst; clear Ho; simpl in Ha;
            repeat (destruct Ha as [Ha|Ha];
                    [ inversion Ha; subst; clear Ha;
                      first [ exfalso; apply N; reflexivity
                            | unfold read_names; simpl; tauto ] |]);
            contradiction |]).
  contradiction.
Qed.

(** X21.  Wiring and look-up agree.  Over a host obeying [WiringLaws],
    once [add_connections] has returned, a [get_rig_connections] call on
    any of the four settings controls (under the same namespace) that
    returns gives, for every attribute the table of that control has an
    entry for, except "ik_base", an entry with exactly the node of the
    table, prefixed with the namespace, and no other entry under that
    name.  The attribute "ik_base", which every table wires, is never
    looked up: the result has no entry for it. *)
Theorem wiring_round_trip (globals : list string)
  (namespace : option string) (obj : string)
  (dict : list (string * string)) (w w1 w2 : RigWorld G) (sl : SmartList) :
  add_connections G globals namespace w = (Fine tt, w1) ->
  In (obj, dict) controls ->
  get_rig_connections G (Some (in_namespace namespace obj)) w1
    = (Fine sl, w2) ->
  map fst (entries sl) = read_names /\
  (forall attr rig_obj,
     In (attr, rig_obj) dict -> attr <> "ik_base" ->
     In (attr, Some (in_namespace namespace rig_obj)) (entries sl)) /\
  (forall attr rig_obj v,
     In (attr, rig_obj) dict -> In (attr, v) (entries sl) ->
     v = Some (in_namespace namespace rig_obj)) /\
  (exists rig_obj, In ("ik_base", rig_obj) dict) /\
  (forall v, ~ In ("ik_base", v) (entries sl)).
Proof.
  intros A Ho L.
  rewrite add_connections_flat in A.
  destruct (wires_all G laws globals namespace table_entries
              (table_plugs_differ namespace) _ _ _ A) as [P _].
  assert (T : truthy obj = true).
  { simpl in Ho. repeat (destruct Ho as [Ho|Ho]; [inversion Ho; reflexivity|]).
    contradiction. }
  pose proof (lookup_names _ _ _ _ (truthy_in_namespace namespace obj T) L)
    as N.
  assert (U : forall attr rig_obj v,
             In (attr, rig_obj) dict -> In (attr, v) (entries sl) ->
             v = Some (in_namespace namespace rig_obj)).
  { intros attr rig_obj v Ha Hv.
    eapply (lookup_reads _ _ _ _ (truthy_in_namespace namespace obj T) L);
      [exact Hv|].
    apply (P (obj, (attr, rig_obj))).
    unfold table_entries. apply in_flat_map. exists (obj, dict).
    split; [exact Ho|]. simpl. apply in_map. exact Ha. }
  split; [exact N|]. split; [|split; [exact U|split]].
  - intros attr rig_obj Ha Nb.
    destruct (read_name_has_entry sl attr N
                (table_names_read obj attr rig_obj dict Ho Ha Nb))
      as (v & Hv).
    rewrite <- (U attr rig_obj v Ha Hv). exact Hv.
  - simpl in Ho.
    repeat (destruct Ho as [Ho|Ho];
            [ inversion Ho; subst; eexists; simpl;
              do 8 (try (left; reflexivity); right); fail |]).
    contradiction.
  - intros v Hv. apply (in_map fst) in Hv. rewrite N in Hv.
    simpl in Hv. unfold read_names in Hv. simpl in Hv.
    repeat (destruct Hv as [Hv|Hv]; [discriminate Hv|]).
    contradiction.
Qed.

End RoundTrip.

(** ** The mocked rig obeys the wiring laws *)

Module RigMockFacts.

Lemma plug_reads_by_messages (s s' : RigMock.Scene) (obj attr n : string) :
  Mock.attrs (RigMock.base s') = Mock.attrs (RigMock.base s) ->
  Mock.find (obj ++ "." ++ attr) (RigMock.messages s')
  = Mock.find (obj ++ "." ++ attr) (RigMock.messages s) ->
  plug_reads RigMock.host s obj attr n ->
  plug_reads RigMock.host s' obj attr n.
Proof.
  unfold plug_reads; simpl. unfold RigMock.has_plug.
  intros -> ->. auto.
Qed.

Lemma wiring_laws : WiringLaws RigMock.host.
Proof.
  split.
  - intros n obj attr s s' E.
    pose proof (without_message_of n) as W.
    unfold plug_reads. simpl in *.
    match type of E with
    | context [Mock.find ?p ?m] => destruct (Mock.find p m) as [l|] eqn:F
    end; [|discriminate E].
    inversion E; subst; clear E. simpl.
    unfold RigMock.has_plug. simpl.
    rewrite MockFacts.find_update_same, F. simpl. rewrite W.
    split; [|reflexivity].
    destruct (Mock.find _ (Mock.attrs (RigMock.base s))); reflexivity.
  - intros c s r s' obj attr n E M P.
    destruct c; simpl in M; try discriminate M; simpl in E.
    + inversion E; subst. exact P.
    + inversion E; subst. exact P.
    + inversion E; subst. exact P.
    + match type of E with
      | context [if ?b then _ else _] => destruct b
      end; inversion E; subst; [|exact P].
      eapply plug_reads_by_messages; [| |exact P]; [reflexivity|].
      simpl. rewrite String.eqb_sym, M. reflexivity.
    + match type of E with
      | context [Mock.find ?p ?m] => destruct (Mock.find p m)
      end; inversion E; subst; [|exact P].
      eapply plug_reads_by_messages; [| |exact P]; [reflexivity|].
      simpl. apply MockFacts.find_update_other.
      apply String.eqb_neq. exact M.
Qed.

End RigMockFacts.

Lemma wired_leg_found :
  fst (get_rig_connections RigMock.host (Some "legSettings_L0_001_ctl")
         (snd (add_connections RigMock.host ("cmds" :: module_globals) None
                 (RigMock.start RigMock.unwired))))
  = Fine RigMock.leg_wiring.
Proof. vm_compute. reflexivity. Qed.

Lemma wiring_round_trip_witness :
  let w := RigMock.start RigMock.unwired in
  let wired := add_connections RigMock.host ("cmds" :: module_globals)
                 None w in
  let found := get_rig_connections RigMock.host
                 (Some "legSettings_L0_001_ctl") (snd wired) in
  WiringLaws RigMock.host /\
  fst wired = Fine tt /\
  fst found = Fine RigMock.leg_wiring /\
  In ("ik_pole", Some "legPoleVectorIk_L0_001_ctl")
     (entries RigMock.leg_wiring) /\
  map fst (entries RigMock.leg_wiring) = read_names /\
  (forall attr rig_obj,
     In (attr, rig_obj) L_leg_dict -> attr <> "ik_base" ->
     In (attr, Some rig_obj) (entries RigMock.leg_wiring)) /\
  (forall attr rig_obj v,
     In (attr, rig_obj) L_leg_dict ->
     In (attr, v) (entries RigMock.leg_wiring) ->
     v = Some rig_obj) /\
  (exists rig_obj, In ("ik_base", rig_obj) L_leg_dict) /\
  (forall v, ~ In ("ik_base", v) (entries RigMock.leg_wiring)).
Proof.
  intros w wired found.
  split; [exact RigMockFacts.wiring_laws|].
  split; [exact unwired_rig_gets_wired|].
  split; [exact wired_leg_found|].
  split; [vm_compute; tauto|].
  exact (wiring_round_trip RigMock.host RigMockFacts.wiring_laws
           ("cmds" :: module_globals) None "legSettings_L0_001_ctl"
           L_leg_dict w (snd wired) (snd found) RigMock.leg_wiring
           (pair_of_fst wired _ unwired_rig_gets_wired)
           (or_intror (or_intror (or_introl eq_refl)))
           (pair_of_fst found _ wired_leg_found)).
Defined.
